(** * The concurrency and game-loop runtime of the car-racing skeleton

    A shallow embedding of
      - [utils/ThreadSafeQueue.h]  (module [ThreadSafeQueue]),
      - [core/ThreadManager.{h,cpp}] (modules [ThreadManager], [Wrapper],
        [ThreadPools]),
      - [core/GameEngine.{h,cpp}]   (modules [GameEngine], [DoubleLoop],
        [Startup]),
      - [utils/Logger.h]           (modules [LogLevel], [Logger]),
      - [utils/Profiler.h]         (module [Profiler]),
      - [utils/AtomicState.h]      (module [AtomicState]),
      - [utils/DoubleBuffer.h]     (module [DoubleBuffer]),
      - [utils/Types.h]            (modules [Vector3], [Quaternion],
        [Transform]),
    followed by the properties established about them.

    Conventions.
      - [unsigned int] values are kept in [Z], wrap-around written out with
        [wrap32] where the source does arithmetic on them.
      - [double] seconds. The main loop of [GameEngine] is written over
        [Q], the exact-rational reading of its arithmetic: what is stated
        about it (the cap on the delta, the frame-rate window) does not
        depend on how the doubles round. The fixed phase, where the number
        of iterations does depend on it, is modelled a second time on IEEE
        754 binary64 numbers ([DoubleLoop], over [PrimFloat]), and the
        fixed-step law is settled there.
      - [std::function<void()>] values are opaque: a type variable.
      - [std::unordered_map] tables are [gmap]s.
      - [float] components are kept in [Q].
      - A thread that locks a [std::mutex] it already holds does not come
        back from the call, and neither does a thread that joins a thread
        which never ends: the outcome [Deadlock].
      - What a member function cannot know of its environment is a
        parameter: the answers of the platform, the clock readings, how
        the join of a thread ends ([ThreadManager.Joins]), whether a state
        callback throws ([Startup.Throws]).
      - The models of the registry and of the engine leave out their calls
        to the logger: outside [Logger::Initialize] and [Logger::Shutdown]
        a [Log] call returns and leaves the logger as it was.
      - [PROFILE_FUNCTION()] and [PROFILE_SCOPE(name)] expand to nothing:
        no source file defines [ENABLE_PROFILING] (utils/Profiler.h,
        lines 270-280). *)

From Stdlib Require Import QArith Qround Lqa Floats.
From stdpp Require Import gmap strings list fin_maps pretty.

(* ===================================================================== *)
(** * Part I: the model                                                   *)
(* ===================================================================== *)

(** ** utils/ThreadSafeQueue.h *)

Module ThreadSafeQueue.
Section Queue.
Context {T : Type}.

(** [std::queue<T> queue_]: front of the queue is the head of the list.
    Every operation takes the internal mutex once and releases it on return,
    so one operation is one atomic step on [queue_]. *)
Definition t := list T.

Definition empty_queue : t := [].

(** [void Push(T item)]: [queue_.push(std::move(item))]. *)
Definition Push (item : T) (queue_ : t) : t := queue_ ++ [item].

(** [T Pop()]: waits for [!queue_.empty()], then takes the front. [None]
    stands for the caller still being parked on the condition variable. *)
Definition Pop (queue_ : t) : option (T * t) :=
  match queue_ with
  | [] => None
  | item :: rest => Some (item, rest)
  end.

(** [std::optional<T> TryPop()]. *)
Definition TryPop (queue_ : t) : option T * t :=
  match queue_ with
  | [] => (None, queue_)
  | item :: rest => (Some item, rest)
  end.

(** [bool Empty() const] and [size_t Size() const]. *)
Definition Empty (queue_ : t) : bool :=
  match queue_ with [] => true | _ => false end.

Definition Size (queue_ : t) : nat := length queue_.

(** A sequential use of the queue: the calls of one producer and one
    consumer in the order in which they take the queue's mutex. *)
Inductive Call :=
| CallPush (item : T)
| CallPop
| CallTryPop.

(** The items handed to [Push], in call order. *)
Fixpoint pushed (calls : list Call) : list T :=
  match calls with
  | [] => []
  | CallPush item :: calls' => item :: pushed calls'
  | _ :: calls' => pushed calls'
  end.

(** Runs the calls; the result is the final queue and the items returned by
    [Pop] and by the successful [TryPop]s, in call order. A [Pop] that is
    scheduled to return on an empty queue does not happen: [None]. *)
Fixpoint run (calls : list Call) (queue_ : t) : option (t * list T) :=
  match calls with
  | [] => Some (queue_, [])
  | CallPush item :: calls' => run calls' (Push item queue_)
  | CallPop :: calls' =>
      match Pop queue_ with
      | None => None
      | Some (item, queue') =>
          match run calls' queue' with
          | None => None
          | Some (q, out) => Some (q, item :: out)
          end
      end
  | CallTryPop :: calls' =>
      match TryPop queue_ with
      | (None, queue') => run calls' queue'
      | (Some item, queue') =>
          match run calls' queue' with
          | None => None
          | Some (q, out) => Some (q, item :: out)
          end
      end
  end.

End Queue.
Arguments t : clear implicits.
Arguments Call : clear implicits.
End ThreadSafeQueue.

(** ** core/ThreadManager.h, core/ThreadManager.cpp: the registry *)

Module ThreadManager.
#[local] Open Scope Z_scope.

Inductive ThreadPriority := Low | Normal | High | RealTime.

#[global] Instance ThreadPriority_eq_dec : EqDecision ThreadPriority.
Proof. solve_decision. Defined.

Inductive ThreadStatus := Idle | Running | Paused | Stopping | Stopped.

#[global] Instance ThreadStatus_eq_dec : EqDecision ThreadStatus.
Proof. solve_decision. Defined.

(** [struct ThreadInfo]. [joinable] is [thread.joinable()]: true from the
    moment the [std::thread] is started until it has been joined. The two
    synchronisation members ([pauseMutex], [pauseCondition]) carry no data;
    what is done with them shows in the trace of events. *)
Record ThreadInfo := mkThreadInfo {
  joinable : bool;
  name : string;
  priority : ThreadPriority;
  status : ThreadStatus;
  shouldStop : bool;
  isPaused : bool
}.

Definition set_joinable (b : bool) (ti : ThreadInfo) : ThreadInfo :=
  mkThreadInfo b (name ti) (priority ti) (status ti) (shouldStop ti) (isPaused ti).
Definition set_priority (p : ThreadPriority) (ti : ThreadInfo) : ThreadInfo :=
  mkThreadInfo (joinable ti) (name ti) p (status ti) (shouldStop ti) (isPaused ti).
Definition set_status (st : ThreadStatus) (ti : ThreadInfo) : ThreadInfo :=
  mkThreadInfo (joinable ti) (name ti) (priority ti) st (shouldStop ti) (isPaused ti).
Definition set_shouldStop (b : bool) (ti : ThreadInfo) : ThreadInfo :=
  mkThreadInfo (joinable ti) (name ti) (priority ti) (status ti) b (isPaused ti).
Definition set_isPaused (b : bool) (ti : ThreadInfo) : ThreadInfo :=
  mkThreadInfo (joinable ti) (name ti) (priority ti) (status ti) (shouldStop ti) b.

(** What an operation of the registry does to the threads it manages and to
    the platform, in program order. *)
Inductive Event :=
| EvSpawn (n : string)                 (* thread = std::thread(threadFunction) *)
| EvNativePriority (n : string) (p : ThreadPriority) (ok : bool)
| EvStoreStop (n : string)             (* shouldStop = true *)
| EvSetPause (n : string) (b : bool)   (* isPaused = b, under pauseMutex *)
| EvNotify (n : string)                (* pauseCondition.notify_one() *)
| EvJoin (n : string)                  (* thread.join() has returned *)
| EvStoreStatus (n : string) (st : ThreadStatus)
| EvDrop (n : string)                  (* the descriptor is destroyed *)
| EvDropPool (n : string).

#[global] Instance Event_eq_dec : EqDecision Event.
Proof. solve_decision. Defined.

(** How a [thread.join()] ends for its caller. The call waits until the
    thread function (lines 121-168) has run to its end. That may never
    happen: a pool worker waits in [Pop] for a task, and a thread function
    that calls the registry waits for the mutex that its joiner holds.
    When the thread function ends it has gone through lines 163-167;
    [counted] tells whether the thread stood between lines 123 and 166 when
    the wait began, so that its decrement of [activeThreadCount_] (line 166)
    happens during the wait without an increment before it. *)
Inductive Joined :=
| NeverEnds
| Ends (counted : bool).

(** What the registry cannot know of the threads it has started: how the
    join of the thread registered under a name ends. *)
Class Joins := join_result : string → Joined.

Section Registry.
(** [std::function<void()>]. *)
Context {Func : Type}.
Context {joins : Joins}.

(** [struct ThreadPoolInfo]. *)
Record ThreadPoolInfo := mkThreadPoolInfo {
  threadNames : list string;
  taskQueue : ThreadSafeQueue.t Func
}.

(** The data members of [class ThreadManager]. [mutex_] is true while the
    [std::mutex] is owned. *)
Record State := mkState {
  threads_ : gmap string ThreadInfo;
  threadPools_ : gmap string ThreadPoolInfo;
  mutex_ : bool;
  maxThreads_ : Z;
  initialized_ : bool;
  activeThreadCount_ : Z
}.

Definition set_threads (m : gmap string ThreadInfo) (s : State) : State :=
  mkState m (threadPools_ s) (mutex_ s) (maxThreads_ s) (initialized_ s)
          (activeThreadCount_ s).
Definition set_threadPools (m : gmap string ThreadPoolInfo) (s : State) : State :=
  mkState (threads_ s) m (mutex_ s) (maxThreads_ s) (initialized_ s)
          (activeThreadCount_ s).
Definition set_mutex (b : bool) (s : State) : State :=
  mkState (threads_ s) (threadPools_ s) b (maxThreads_ s) (initialized_ s)
          (activeThreadCount_ s).
Definition set_maxThreads (n : Z) (s : State) : State :=
  mkState (threads_ s) (threadPools_ s) (mutex_ s) n (initialized_ s)
          (activeThreadCount_ s).
Definition set_initialized (b : bool) (s : State) : State :=
  mkState (threads_ s) (threadPools_ s) (mutex_ s) (maxThreads_ s) b
          (activeThreadCount_ s).
Definition set_activeThreadCount (n : Z) (s : State) : State :=
  mkState (threads_ s) (threadPools_ s) (mutex_ s) (maxThreads_ s)
          (initialized_ s) n.

(** [ThreadManager::ThreadManager()]. *)
Definition constructed : State := mkState ∅ ∅ false 0 false 0.

(** How a call of a member function ends when it is made by one thread
    while no other thread is inside the registry. *)
Inductive Outcome (A : Type) :=
| Returned (a : A) (s : State) (trace : list Event)
| Deadlock    (* the call does not return: lock() on the non-recursive
                 std::mutex the caller owns, or join() on a thread that
                 does not end *)
| Terminate.  (* std::terminate(): a joinable std::thread is destroyed *)
Arguments Returned {A} a s trace.
Arguments Deadlock {A}.
Arguments Terminate {A}.

(** Member functions: state passing with a trace. *)
Definition M (A : Type) : Type := State → Outcome A.

#[global] Instance M_ret : MRet M := λ A a s, Returned a s [].
#[global] Instance M_bind : MBind M := λ A B k m s,
  match m s with
  | Returned a s1 tr1 =>
      match k a s1 with
      | Returned b s2 tr2 => Returned b s2 (tr1 ++ tr2)
      | Deadlock => Deadlock
      | Terminate => Terminate
      end
  | Deadlock => Deadlock
  | Terminate => Terminate
  end.

Definition get : M State := λ s, Returned s s [].
Definition modify (f : State → State) : M unit := λ s, Returned tt (f s) [].
Definition emit (e : Event) : M unit := λ s, Returned tt s [e].
Definition terminate {A} : M A := λ _, Terminate.

(** [std::lock_guard<std::mutex> lock(mutex_)] around the rest of a member
    function. [std::mutex] is not recursive: locking it again on the thread
    that owns it never returns. *)
Definition lock_guard {A} (body : M A) : M A := λ s,
  if mutex_ s then Deadlock
  else match body (set_mutex true s) with
       | Returned a s' tr => Returned a (set_mutex false s') tr
       | Deadlock => Deadlock
       | Terminate => Terminate
       end.

(** [for (auto& x : xs) body(x)]. *)
Fixpoint for_each {X} (xs : list X) (body : X → M unit) : M unit :=
  match xs with
  | [] => mret tt
  | x :: xs' => body x ;; for_each xs' body
  end.

(** A write through [threadInfo->...] to the descriptor registered as [n]. *)
Definition update_thread (n : string) (f : ThreadInfo → ThreadInfo) : M unit :=
  modify (λ s, set_threads (alter f n (threads_ s)) s).

(** [threadInfo->thread.join()]: returns once the thread function has run
    to its end, if it ever does. By then the thread has executed line 166,
    the decrement of [activeThreadCount_] (an [std::atomic<unsigned int>]:
    it wraps), and line 167, the store of [Stopped]; the [std::thread] is
    not joinable afterwards. *)
Definition join (n : string) : M unit :=
  match join_result n with
  | NeverEnds => λ _, Deadlock
  | Ends counted =>
      (if counted
       then modify (λ s, set_activeThreadCount
                           ((activeThreadCount_ s - 1) mod 2 ^ 32) s)
       else mret tt) ;;
      update_thread n (set_status Stopped) ;;
      update_thread n (set_joinable false) ;;
      emit (EvJoin n)
  end.

(** The stop sequence that [Shutdown] (lines 66-82) and [StopThread]
    (lines 201-217) both spell out for a descriptor that is not [Stopped]. *)
Definition stop_and_join (n : string) (threadInfo : ThreadInfo) : M unit :=
  update_thread n (set_shouldStop true) ;; emit (EvStoreStop n) ;;
  (if decide (status threadInfo = Paused)
   then update_thread n (set_isPaused false) ;; emit (EvSetPause n false) ;;
        emit (EvNotify n)
   else mret tt) ;;
  (if joinable threadInfo then join n else mret tt) ;;
  update_thread n (set_status Stopped) ;; emit (EvStoreStatus n Stopped).

(** [threads_.clear()]: every descriptor is destroyed, and with it its
    [std::thread]; destroying a joinable one calls [std::terminate]. *)
Definition clear_threads : M unit :=
  s ← get;
  if existsb (λ p, joinable p.2) (map_to_list (threads_ s)) then terminate
  else for_each (map_to_list (threads_ s)) (λ p, emit (EvDrop p.1)) ;;
       modify (set_threads ∅).

(** [threadPools_.clear()]. *)
Definition clear_threadPools : M unit :=
  s ← get;
  for_each (map_to_list (threadPools_ s)) (λ p, emit (EvDropPool p.1)) ;;
  modify (set_threadPools ∅).

(** [bool ThreadManager::Initialize(unsigned int maxThreads)];
    [hardware_concurrency] is what [std::thread::hardware_concurrency()]
    answers on the machine. *)
Definition Initialize (hardware_concurrency maxThreads : Z) : M bool :=
  lock_guard (
    s ← get;
    if initialized_ s then mret false
    else
      (if decide (maxThreads = 0)
       then modify (set_maxThreads hardware_concurrency) ;;
            s1 ← get;
            if decide (maxThreads_ s1 < 2)%Z then modify (set_maxThreads 2)
            else mret tt
       else modify (set_maxThreads maxThreads)) ;;
      modify (set_initialized true) ;;
      mret true).

(** Lines 62-84 of [Shutdown]: the loop over the worker table. *)
Definition stop_all : M unit :=
  s ← get;
  for_each (map_to_list (threads_ s)) (λ pair,
    let threadInfo := pair.2 in
    if decide (status threadInfo ≠ Stopped)
    then stop_and_join pair.1 threadInfo
    else mret tt).

(** [void ThreadManager::Shutdown()]. *)
Definition Shutdown : M unit :=
  lock_guard (
    s ← get;
    if negb (initialized_ s) then mret tt
    else
      stop_all ;;
      clear_threads ;;
      clear_threadPools ;;
      modify (set_activeThreadCount 0) ;;
      modify (set_initialized false)).

(** [bool ThreadManager::ThreadExists(const std::string& name) const]. *)
Definition ThreadExists (name : string) : M bool :=
  lock_guard (
    s ← get;
    mret (bool_decide (is_Some (threads_ s !! name)))).

(** [bool ThreadManager::CreateThread(name, function, priority)];
    [native_ok] is the answer of the platform call made by
    [SetNativeThreadPriority]. *)
Definition CreateThread (name : string) (function : Func)
    (priority : ThreadPriority) (native_ok : bool) : M bool :=
  lock_guard (
    s ← get;
    if negb (initialized_ s) then mret false
    else
      taken ← ThreadExists name;
      if (taken : bool) then mret false
      else
        s1 ← get;
        if decide (maxThreads_ s1 ≤ Z.of_nat (size (threads_ s1)))%Z
        then mret false
        else
          let threadInfo := mkThreadInfo false name priority Idle false false in
          (* threadInfo->thread = std::thread(threadFunction) *)
          let threadInfo := set_joinable true threadInfo in
          emit (EvSpawn name) ;;
          (* SetNativeThreadPriority: a failure is only logged *)
          emit (EvNativePriority name priority native_ok) ;;
          modify (λ s2, set_threads (<[name := threadInfo]> (threads_ s2)) s2) ;;
          mret true).

(** [bool ThreadManager::StopThread(const std::string& name)]. *)
Definition StopThread (name : string) : M bool :=
  lock_guard (
    s ← get;
    match threads_ s !! name with
    | None => mret false
    | Some threadInfo =>
        if decide (status threadInfo = Stopped) then mret true
        else stop_and_join name threadInfo ;; mret true
    end).

(** [bool ThreadManager::PauseThread(const std::string& name)]. *)
Definition PauseThread (name : string) : M bool :=
  lock_guard (
    s ← get;
    match threads_ s !! name with
    | None => mret false
    | Some threadInfo =>
        if decide (status threadInfo ≠ Running) then mret false
        else update_thread name (set_isPaused true) ;;
             emit (EvSetPause name true) ;; mret true
    end).

(** [bool ThreadManager::ResumeThread(const std::string& name)]. *)
Definition ResumeThread (name : string) : M bool :=
  lock_guard (
    s ← get;
    match threads_ s !! name with
    | None => mret false
    | Some threadInfo =>
        if decide (status threadInfo ≠ Paused) then mret false
        else update_thread name (set_isPaused false) ;;
             emit (EvSetPause name false) ;; emit (EvNotify name) ;; mret true
    end).

(** [ThreadStatus ThreadManager::GetThreadStatus(const std::string&) const]. *)
Definition GetThreadStatus (name : string) : M ThreadStatus :=
  lock_guard (
    s ← get;
    match threads_ s !! name with
    | None => mret Stopped
    | Some threadInfo => mret (status threadInfo)
    end).

(** [GetActiveThreadCount] and [GetMaxThreadCount] read without the lock. *)
Definition GetActiveThreadCount : M Z :=
  s ← get; mret (activeThreadCount_ s).

Definition GetMaxThreadCount : M Z :=
  s ← get; mret (maxThreads_ s).

End Registry.
Arguments State : clear implicits.
Arguments ThreadPoolInfo : clear implicits.
Arguments Outcome : clear implicits.
Arguments M : clear implicits.
Arguments Returned {Func A} a s trace.
Arguments Deadlock {Func A}.
Arguments Terminate {Func A}.
End ThreadManager.

(** ** core/ThreadManager.cpp, lines 121-168: the thread function *)

Module Wrapper.
#[local] Open Scope Z_scope.

(** Arithmetic on [std::atomic<unsigned int>]. *)
Definition wrap32 (z : Z) : Z := z mod 2 ^ 32.

(** Where a thread stands in [threadFunction]; each point is named after the
    statement it is about to execute. *)
Inductive Pc :=
| AtStoreRunning    (* 122: threadInfo->status = Running *)
| AtIncrement       (* 123: activeThreadCount_++ *)
| AtLoopTest        (* 128: while (!threadInfo->shouldStop) *)
| AtPauseTest       (* 132: if (threadInfo->isPaused), 133: status = Paused *)
| AtWait            (* 134: pauseCondition.wait(...), 137: status = Running *)
| AtStopTest        (* 140: if (threadInfo->shouldStop) break *)
| AtBody            (* 147: function() *)
| AtNameTest        (* 151: if (name.find("Worker") == npos) break *)
| AtStoreStopping   (* 163: threadInfo->status = Stopping *)
| AtDecrement       (* 166: activeThreadCount_-- *)
| AtStoreStopped    (* 167: threadInfo->status = Stopped *)
| Finished.

#[global] Instance Pc_eq_dec : EqDecision Pc.
Proof. solve_decision. Defined.

(** How one call of the wrapped [function()] ends. *)
Inductive BodyResult := BodyReturns | BodyThrows.

(** [threadInfo->name.find("Worker") != std::string::npos]. *)
Definition name_has_Worker (name : string) : bool :=
  match String.index 0 "Worker" name with
  | Some _ => true
  | None => false
  end.

(** A started thread: its descriptor and its place in [threadFunction]. *)
Record Worker := mkWorker {
  info : ThreadManager.ThreadInfo;
  pc : Pc
}.

(** One statement of [threadFunction], run on the descriptor [threadInfo]
    and on the registry's counter [count]. [None]: the thread cannot move
    (it is parked in [wait] with a false predicate, or it has ended). *)
Definition wrapper_step (r : BodyResult) (w : Worker) (count : Z)
    : option (Worker * Z) :=
  let threadInfo := info w in
  match pc w with
  | AtStoreRunning =>
      Some (mkWorker (ThreadManager.set_status ThreadManager.Running threadInfo)
                     AtIncrement, count)
  | AtIncrement =>
      Some (mkWorker threadInfo AtLoopTest, wrap32 (count + 1))
  | AtLoopTest =>
      if ThreadManager.shouldStop threadInfo
      then Some (mkWorker threadInfo AtStoreStopping, count)
      else Some (mkWorker threadInfo AtPauseTest, count)
  | AtPauseTest =>
      if ThreadManager.isPaused threadInfo
      then Some (mkWorker (ThreadManager.set_status ThreadManager.Paused threadInfo)
                          AtWait, count)
      else Some (mkWorker threadInfo AtBody, count)
  | AtWait =>
      if negb (ThreadManager.isPaused threadInfo)
         || ThreadManager.shouldStop threadInfo
      then Some (mkWorker (ThreadManager.set_status ThreadManager.Running threadInfo)
                          AtStopTest, count)
      else None
  | AtStopTest =>
      if ThreadManager.shouldStop threadInfo
      then Some (mkWorker threadInfo AtStoreStopping, count)
      else Some (mkWorker threadInfo AtBody, count)
  | AtBody =>
      match r with
      | BodyReturns => Some (mkWorker threadInfo AtNameTest, count)
      | BodyThrows => Some (mkWorker threadInfo AtStoreStopping, count)
      end
  | AtNameTest =>
      if name_has_Worker (ThreadManager.name threadInfo)
      then Some (mkWorker threadInfo AtLoopTest, count)
      else Some (mkWorker threadInfo AtStoreStopping, count)
  | AtStoreStopping =>
      Some (mkWorker (ThreadManager.set_status ThreadManager.Stopping threadInfo)
                     AtDecrement, count)
  | AtDecrement =>
      Some (mkWorker threadInfo AtStoreStopped, wrap32 (count - 1))
  | AtStoreStopped =>
      Some (mkWorker (ThreadManager.set_status ThreadManager.Stopped threadInfo)
                     Finished, count)
  | Finished => None
  end.

(** The registry seen by all its threads at once: the started workers and
    the shared counter. *)
Record System := mkSystem {
  workers : gmap string Worker;
  activeThreadCount_ : Z
}.

Definition write_info (n : string)
    (f : ThreadManager.ThreadInfo → ThreadManager.ThreadInfo) (s : System) : System :=
  mkSystem (alter (λ w, mkWorker (f (info w)) (pc w)) n (workers s))
           (activeThreadCount_ s).

(** The descriptor that [CreateThread] allocates (lines 113-118) and starts
    (line 171). *)
Definition spawned (n : string) (p : ThreadManager.ThreadPriority) : Worker :=
  mkWorker (ThreadManager.mkThreadInfo true n p ThreadManager.Idle false false)
           AtStoreRunning.

Section Interleaving.
(** [std::function<void()>]. *)
Context (Func : Type).

(** Interleavings: one statement of one thread function, or one write of a
    registry operation, at a time. A thread is started by line 171 of
    [CreateThread], which a call reaches exactly when it returns true: the
    call is made on a registry that has the system's workers in its table
    and the system's counter, whatever its cap, its pools, its initialized
    flag and the state of its mutex. The other writes of the registry are
    those of [PauseThread], [ResumeThread], of the stop sequence shared by
    [StopThread] and [Shutdown] (flag, unpark, join and the store of
    [Stopped]), and of the end of [Shutdown] (tables cleared, counter
    zeroed, once the loop has left every descriptor [Stopped]). A statement
    of [threadFunction] that writes neither the status nor the counter is
    taken together with the store that follows it (the test of line 132
    with line 133, the wake-up of line 134 with line 137). The exclusion
    that [pauseMutex] puts between the flag writes and lines 131-143 is not
    enforced, so the relation allows more interleavings of the writes than
    the program. *)
Inductive step (s : System) : System → Prop :=
| step_wrapper n w r w' c' :
    workers s !! n = Some w →
    wrapper_step r w (activeThreadCount_ s) = Some (w', c') →
    step s (mkSystem (<[n := w']> (workers s)) c')
| step_spawn n (function : Func) p native_ok
    (registry registry' : ThreadManager.State Func) tr :
    ThreadManager.threads_ registry = info <$> workers s →
    ThreadManager.activeThreadCount_ registry = activeThreadCount_ s →
    ThreadManager.CreateThread n function p native_ok registry
    = ThreadManager.Returned true registry' tr →
    step s (mkSystem (<[n := spawned n p]> (workers s)) (activeThreadCount_ s))
| step_pause n w :
    workers s !! n = Some w →
    ThreadManager.status (info w) = ThreadManager.Running →
    step s (write_info n (ThreadManager.set_isPaused true) s)
| step_resume n w :
    workers s !! n = Some w →
    ThreadManager.status (info w) = ThreadManager.Paused →
    step s (write_info n (ThreadManager.set_isPaused false) s)
| step_store_stop n w :
    workers s !! n = Some w →
    ThreadManager.status (info w) ≠ ThreadManager.Stopped →
    step s (write_info n (ThreadManager.set_shouldStop true) s)
| step_unpark n w :
    workers s !! n = Some w →
    ThreadManager.shouldStop (info w) = true →
    ThreadManager.status (info w) = ThreadManager.Paused →
    step s (write_info n (ThreadManager.set_isPaused false) s)
| step_join n w :
    workers s !! n = Some w →
    ThreadManager.shouldStop (info w) = true →
    pc w = Finished →
    step s (write_info n (λ ti, ThreadManager.set_status ThreadManager.Stopped
                                  (ThreadManager.set_joinable false ti)) s)
| step_shutdown_clear :
    (∀ n w, workers s !! n = Some w →
            ThreadManager.status (info w) = ThreadManager.Stopped) →
    step s (mkSystem ∅ 0).



End Interleaving.



End Wrapper.

(** ** core/GameEngine.h, core/GameEngine.cpp: the engine runtime *)

Module GameEngine.

(** [enum class GameState] (utils/Types.h). *)
Inductive GameState :=
| Uninitialized | Loading | MainMenu | RaceSetup
| Racing | Paused | RaceFinished | Exiting.

#[global] Instance GameState_eq_dec : EqDecision GameState.
Proof. solve_decision. Defined.

Definition GameState_to_nat (s : GameState) : nat :=
  match s with
  | Uninitialized => 0 | Loading => 1 | MainMenu => 2 | RaceSetup => 3
  | Racing => 4 | Paused => 5 | RaceFinished => 6 | Exiting => 7
  end.

Definition GameState_of_nat (n : nat) : GameState :=
  match n with
  | 0 => Uninitialized | 1 => Loading | 2 => MainMenu | 3 => RaceSetup
  | 4 => Racing | 5 => Paused | 6 => RaceFinished | _ => Exiting
  end.

#[global] Instance GameState_countable : Countable GameState.
Proof.
  apply (inj_countable' GameState_to_nat GameState_of_nat).
  intros []; reflexivity.
Defined.

(** [Constants::FIXED_TIMESTEP] and [Constants::MAX_TIMESTEP], in seconds. *)
Definition FIXED_TIMESTEP : Q := 1 # 60.
Definition MAX_TIMESTEP : Q := 1 # 30.

(** [a < b] on seconds. *)
Definition Qltb (a b : Q) : bool := negb (Qle_bool b a).

(** [std::max(a, b)]: [(a < b) ? b : a]. *)
Definition std_max (a b : Q) : Q := if Qltb a b then b else a.

(** The subsystems whose handles [ShutdownSubsystems] resets. *)
Inductive Subsystem :=
| RaceManager | InputManager | AudioEngine | AIManager
| RenderingEngine | PhysicsEngine | ThreadManagerHandle.

Section Engine.
(** [std::function<void()>], as registered for a state. *)
Context {Callback : Type}.

(** What the engine does to its collaborators, in program order. *)
Inductive Event :=
| EvProcessInput
| EvFixedUpdate (fixedDeltaTime : Q)
| EvUpdate (deltaTime : Q)
| EvRender
| EvSleep                               (* sleep_for(milliseconds(1)) *)
| EvStoreState (state : GameState)      (* gameState_ = state *)
| EvCallback (state : GameState) (cb : Callback)   (* it->second() *)
| EvShutdown                            (* GameEngine::Shutdown() entered *)
| EvThreadManagerShutdown               (* threadManager_->Shutdown() *)
| EvReset (sub : Subsystem)             (* <subsystem>_.reset() *)
| EvSaveReport                          (* Profiler::SaveReportToFile *)
| EvLoggerShutdown.

(** The data members of [class GameEngine] that the runtime reads or
    writes. [TimePoint]s and [double]s are seconds in [Q]; [frameCount_] is
    an [int] that the loop resets every second of frame time. *)
Record Engine := mkEngine {
  gameState_ : GameState;
  stateCallbacks_ : gmap GameState Callback;
  lastFrameTime_ : Q;
  deltaTime_ : Q;
  fixedTimeStep_ : Q;
  accumulator_ : Q;
  frameRateUpdateTimer_ : Q;
  frameCount_ : Z;
  currentFrameRate_ : Q;
  exitRequested_ : bool;
  exitCode_ : Z
}.

Definition set_gameState (x : GameState) (e : Engine) : Engine :=
  mkEngine x (stateCallbacks_ e) (lastFrameTime_ e) (deltaTime_ e)
    (fixedTimeStep_ e) (accumulator_ e) (frameRateUpdateTimer_ e)
    (frameCount_ e) (currentFrameRate_ e) (exitRequested_ e) (exitCode_ e).
Definition set_stateCallbacks (x : gmap GameState Callback) (e : Engine) : Engine :=
  mkEngine (gameState_ e) x (lastFrameTime_ e) (deltaTime_ e)
    (fixedTimeStep_ e) (accumulator_ e) (frameRateUpdateTimer_ e)
    (frameCount_ e) (currentFrameRate_ e) (exitRequested_ e) (exitCode_ e).
Definition set_lastFrameTime (x : Q) (e : Engine) : Engine :=
  mkEngine (gameState_ e) (stateCallbacks_ e) x (deltaTime_ e)
    (fixedTimeStep_ e) (accumulator_ e) (frameRateUpdateTimer_ e)
    (frameCount_ e) (currentFrameRate_ e) (exitRequested_ e) (exitCode_ e).
Definition set_deltaTime (x : Q) (e : Engine) : Engine :=
  mkEngine (gameState_ e) (stateCallbacks_ e) (lastFrameTime_ e) x
    (fixedTimeStep_ e) (accumulator_ e) (frameRateUpdateTimer_ e)
    (frameCount_ e) (currentFrameRate_ e) (exitRequested_ e) (exitCode_ e).
Definition set_fixedTimeStep (x : Q) (e : Engine) : Engine :=
  mkEngine (gameState_ e) (stateCallbacks_ e) (lastFrameTime_ e) (deltaTime_ e)
    x (accumulator_ e) (frameRateUpdateTimer_ e)
    (frameCount_ e) (currentFrameRate_ e) (exitRequested_ e) (exitCode_ e).
Definition set_accumulator (x : Q) (e : Engine) : Engine :=
  mkEngine (gameState_ e) (stateCallbacks_ e) (lastFrameTime_ e) (deltaTime_ e)
    (fixedTimeStep_ e) x (frameRateUpdateTimer_ e)
    (frameCount_ e) (currentFrameRate_ e) (exitRequested_ e) (exitCode_ e).
Definition set_frameRateUpdateTimer (x : Q) (e : Engine) : Engine :=
  mkEngine (gameState_ e) (stateCallbacks_ e) (lastFrameTime_ e) (deltaTime_ e)
    (fixedTimeStep_ e) (accumulator_ e) x
    (frameCount_ e) (currentFrameRate_ e) (exitRequested_ e) (exitCode_ e).
Definition set_frameCount (x : Z) (e : Engine) : Engine :=
  mkEngine (gameState_ e) (stateCallbacks_ e) (lastFrameTime_ e) (deltaTime_ e)
    (fixedTimeStep_ e) (accumulator_ e) (frameRateUpdateTimer_ e)
    x (currentFrameRate_ e) (exitRequested_ e) (exitCode_ e).
Definition set_currentFrameRate (x : Q) (e : Engine) : Engine :=
  mkEngine (gameState_ e) (stateCallbacks_ e) (lastFrameTime_ e) (deltaTime_ e)
    (fixedTimeStep_ e) (accumulator_ e) (frameRateUpdateTimer_ e)
    (frameCount_ e) x (exitRequested_ e) (exitCode_ e).
Definition set_exitRequested (x : bool) (e : Engine) : Engine :=
  mkEngine (gameState_ e) (stateCallbacks_ e) (lastFrameTime_ e) (deltaTime_ e)
    (fixedTimeStep_ e) (accumulator_ e) (frameRateUpdateTimer_ e)
    (frameCount_ e) (currentFrameRate_ e) x (exitCode_ e).
Definition set_exitCode (x : Z) (e : Engine) : Engine :=
  mkEngine (gameState_ e) (stateCallbacks_ e) (lastFrameTime_ e) (deltaTime_ e)
    (fixedTimeStep_ e) (accumulator_ e) (frameRateUpdateTimer_ e)
    (frameCount_ e) (currentFrameRate_ e) (exitRequested_ e) x.

(** [GameEngine::GameEngine()]; the clock origin is set by [Initialize]. *)
Definition constructed : Engine :=
  mkEngine Uninitialized ∅ 0 0 FIXED_TIMESTEP 0 0 0 0 false 0.

(** What running a registered callback does to the engine: callbacks are
    arbitrary code with access to the engine's public interface. *)
Context (invoke : Callback → Engine → Engine).

(** [void GameEngine::SetGameState(GameState state)]. *)
Definition SetGameState (state : GameState) (e : Engine) : Engine * list Event :=
  let oldState := gameState_ e in
  if decide (oldState = state) then (e, [])
  else
    let e1 := set_gameState state e in
    match stateCallbacks_ e1 !! state with
    | Some callback =>
        (invoke callback e1, [EvStoreState state; EvCallback state callback])
    | None => (e1, [EvStoreState state])
    end.

(** [void GameEngine::RegisterStateCallback(GameState, std::function<void()>)]. *)
Definition RegisterStateCallback (state : GameState) (callback : Callback)
    (e : Engine) : Engine :=
  set_stateCallbacks (<[state := callback]> (stateCallbacks_ e)) e.

(** [void GameEngine::RequestExit(int exitCode)]. *)
Definition RequestExit (exitCode : Z) (e : Engine) : Engine :=
  set_exitCode exitCode (set_exitRequested true e).

(** [void GameEngine::SetFixedTimeStep(double timeStep)]. *)
Definition SetFixedTimeStep (timeStep : Q) (e : Engine) : Engine :=
  set_fixedTimeStep (std_max (1 # 1000) timeStep) e.

(** [void GameEngine::Update(double deltaTime)]: every case of the switch
    is a placeholder. *)
Definition Update (deltaTime : Q) (e : Engine) : Engine * list Event :=
  (match gameState_ e with
   | Loading => e
   | MainMenu => e
   | RaceSetup => e
   | Racing => e
   | Paused => e
   | RaceFinished => e
   | Exiting => e
   | Uninitialized => e
   end, [EvUpdate deltaTime]).

(** [void GameEngine::FixedUpdate(double fixedDeltaTime)]: the physics call
    inside the [Racing] test is a placeholder. *)
Definition FixedUpdate (fixedDeltaTime : Q) (e : Engine) : Engine * list Event :=
  (if decide (gameState_ e = Racing) then e else e,
   [EvFixedUpdate fixedDeltaTime]).

(** [void GameEngine::Render()] and [void GameEngine::ProcessInput()]:
    both return early in [Exiting] and are placeholders otherwise. *)
Definition Render (e : Engine) : Engine * list Event :=
  (if decide (gameState_ e = Exiting) then e else e, [EvRender]).

Definition ProcessInput (e : Engine) : Engine * list Event :=
  (if decide (gameState_ e = Exiting) then e else e, [EvProcessInput]).

(** Lines 144-166 of [Run]: delta time, its cap, the frame-rate window.
    [currentTime] is what [high_resolution_clock::now()] returns. *)
Definition measure_frame (currentTime : Q) (e : Engine) : Engine :=
  let e := set_deltaTime (currentTime - lastFrameTime_ e) e in
  let e := set_lastFrameTime currentTime e in
  let e := if Qltb MAX_TIMESTEP (deltaTime_ e)
           then set_deltaTime MAX_TIMESTEP e else e in
  let e := set_frameRateUpdateTimer (frameRateUpdateTimer_ e + deltaTime_ e) e in
  let e := set_frameCount (frameCount_ e + 1) e in
  if Qle_bool 1 (frameRateUpdateTimer_ e)
  then
    let e := set_currentFrameRate
               (inject_Z (frameCount_ e) / frameRateUpdateTimer_ e) e in
    let e := set_frameCount 0 e in
    set_frameRateUpdateTimer 0 e
  else e.

(** Lines 180-183 of [Run]:
    [while (accumulator_ >= fixedTimeStep_) { FixedUpdate(fixedTimeStep_);
    accumulator_ -= fixedTimeStep_; }], in exact arithmetic; the loop on
    doubles is [DoubleLoop.fixed_loop]. [None]: the loop has not ended
    within [fuel] iterations. *)
Fixpoint fixed_loop (fuel : nat) (e : Engine) : option (Engine * list Event) :=
  match fuel with
  | O => None
  | S fuel' =>
      if Qle_bool (fixedTimeStep_ e) (accumulator_ e)
      then
        let '(e1, tr1) := FixedUpdate (fixedTimeStep_ e) e in
        let e2 := set_accumulator (accumulator_ e1 - fixedTimeStep_ e1) e1 in
        match fixed_loop fuel' e2 with
        | Some (e3, tr3) => Some (e3, tr1 ++ tr3)
        | None => None
        end
      else Some (e, [])
  end.

(** The body of [while (!exitRequested_)] in [Run], lines 141-201. *)
Definition loop_body (fuel : nat) (currentTime : Q) (e : Engine)
    : option (Engine * list Event) :=
  let e := measure_frame currentTime e in
  let '(e, tr_input) := ProcessInput e in
  let e := set_accumulator (accumulator_ e + deltaTime_ e) e in
  match fixed_loop fuel e with
  | None => None
  | Some (e, tr_fixed) =>
      let '(e, tr_update) := Update (deltaTime_ e) e in
      let '(e, tr_render) := Render e in
      Some (e, tr_input ++ tr_fixed ++ tr_update ++ tr_render
               ++ (if Qltb (deltaTime_ e) (1 # 1000) then [EvSleep] else []))
  end.

(** Calls into the engine's public interface made by other threads while
    the loop runs (the input handlers, the demo driver of main.cpp). *)
Inductive ExternalCall :=
| ExtRequestExit (exitCode : Z)
| ExtSetGameState (state : GameState)
| ExtSetFixedTimeStep (timeStep : Q)
| ExtRegisterStateCallback (state : GameState) (callback : Callback).

Definition external (c : ExternalCall) (e : Engine) : Engine :=
  match c with
  | ExtRequestExit exitCode => RequestExit exitCode e
  | ExtSetGameState state => (SetGameState state e).1
  | ExtSetFixedTimeStep timeStep => SetFixedTimeStep timeStep e
  | ExtRegisterStateCallback state callback =>
      RegisterStateCallback state callback e
  end.

(** One iteration as the environment shapes it: the clock reading of the
    iteration and the calls of other threads that take effect before the
    loop condition is read again. *)
Record Frame := mkFrame {
  clock : Q;
  others : list ExternalCall
}.

(** How far the loop got on the frames it was given. *)
Inductive LoopEnd := Exited | StillRunning.

(** [while (!exitRequested_) { ... }] over the given frames. [None]: an
    inner fixed-step loop did not end within [fuel]. *)
Fixpoint main_loop (fuel : nat) (frames : list Frame) (e : Engine)
    : option (LoopEnd * Engine * list Event) :=
  if exitRequested_ e then Some (Exited, e, [])
  else
    match frames with
    | [] => Some (StillRunning, e, [])
    | f :: frames' =>
        match loop_body fuel (clock f) e with
        | None => None
        | Some (e1, tr1) =>
            let e2 := foldl (λ e c, external c e) e1 (others f) in
            match main_loop fuel frames' e2 with
            | None => None
            | Some (r, e3, tr3) => Some (r, e3, tr1 ++ tr3)
            end
        end
    end.

End Engine.
Arguments Event : clear implicits.
Arguments Engine : clear implicits.
Arguments ExternalCall : clear implicits.
Arguments Frame : clear implicits.
End GameEngine.

(** ** Vocabulary of the statements *)

Module Vocabulary.
#[local] Open Scope Z_scope.

(** What the stop sequence ([ThreadManager.stop_and_join]) leaves of a
    descriptor that it found as [threadInfo]: the thread joined, the stop
    flag set, the pause flag cleared if the status was [Paused], the status
    [Stopped]. *)
Definition stopped (threadInfo : ThreadManager.ThreadInfo)
    : ThreadManager.ThreadInfo :=
  ThreadManager.mkThreadInfo false (ThreadManager.name threadInfo)
    (ThreadManager.priority threadInfo) ThreadManager.Stopped true
    (if decide (ThreadManager.status threadInfo = ThreadManager.Paused)
     then false else ThreadManager.isPaused threadInfo).

(** The writes of the stop sequence to the descriptor, the joined thread's
    last store among them, one after the other. *)
Definition stop_writes (threadInfo : ThreadManager.ThreadInfo)
    : ThreadManager.ThreadInfo → ThreadManager.ThreadInfo :=
  ThreadManager.set_status ThreadManager.Stopped
  ∘ (if ThreadManager.joinable threadInfo
     then ThreadManager.set_joinable false
          ∘ ThreadManager.set_status ThreadManager.Stopped
     else id)
  ∘ (if decide (ThreadManager.status threadInfo = ThreadManager.Paused)
     then ThreadManager.set_isPaused false else id)
  ∘ ThreadManager.set_shouldStop true.

(** What the stop sequence does, in order: the stop flag, the unparking of
    a paused worker, the join of a joinable thread, the final status. *)
Definition stop_trace (n : string) (threadInfo : ThreadManager.ThreadInfo)
    : list ThreadManager.Event :=
  [ThreadManager.EvStoreStop n]
  ++ (if decide (ThreadManager.status threadInfo = ThreadManager.Paused)
      then [ThreadManager.EvSetPause n false; ThreadManager.EvNotify n]
      else [])
  ++ (if ThreadManager.joinable threadInfo then [ThreadManager.EvJoin n] else [])
  ++ [ThreadManager.EvStoreStatus n ThreadManager.Stopped].

Section Joins.
Context {joins : ThreadManager.Joins}.

(** The stop sequence waits for a thread that does not end. *)
Definition never_joined (n : string) (threadInfo : ThreadManager.ThreadInfo)
    : bool :=
  ThreadManager.joinable threadInfo
  && match ThreadManager.join_result n with
     | ThreadManager.NeverEnds => true
     | ThreadManager.Ends _ => false
     end.

(** [activeThreadCount_] after the stop sequence: the decrement of a
    joined thread that was counted. *)
Definition count_after_stop (n : string) (threadInfo : ThreadManager.ThreadInfo)
    (count : Z) : Z :=
  if ThreadManager.joinable threadInfo
  then match ThreadManager.join_result n with
       | ThreadManager.Ends true => (count - 1) mod 2 ^ 32
       | _ => count
       end
  else count.

(** One round of the loop of [ThreadManager::Shutdown] on one descriptor. *)
Definition shutdown_round_info (threadInfo : ThreadManager.ThreadInfo)
    : ThreadManager.ThreadInfo :=
  if decide (ThreadManager.status threadInfo ≠ ThreadManager.Stopped)
  then stopped threadInfo else threadInfo.

Definition shutdown_round_trace (pair : string * ThreadManager.ThreadInfo)
    : list ThreadManager.Event :=
  if decide (ThreadManager.status pair.2 ≠ ThreadManager.Stopped)
  then stop_trace pair.1 pair.2 else [].

Definition shutdown_round_waits (pair : string * ThreadManager.ThreadInfo)
    : bool :=
  bool_decide (ThreadManager.status pair.2 ≠ ThreadManager.Stopped)
  && never_joined pair.1 pair.2.

(** The descriptors and the counter after the loop of [Shutdown] has
    visited the pairs [l]. *)
Definition shutdown_rounds (l : list (string * ThreadManager.ThreadInfo))
    (m : gmap string ThreadManager.ThreadInfo) : gmap string ThreadManager.ThreadInfo :=
  foldl (λ m pair,
           if decide (ThreadManager.status pair.2 ≠ ThreadManager.Stopped)
           then alter (stop_writes pair.2) pair.1 m else m) m l.

Definition shutdown_count (l : list (string * ThreadManager.ThreadInfo))
    (count : Z) : Z :=
  foldl (λ count pair,
           if decide (ThreadManager.status pair.2 ≠ ThreadManager.Stopped)
           then count_after_stop pair.1 pair.2 count else count) count l.

End Joins.

End Vocabulary.

(** ** Vocabulary of the statements about the main loop *)

Module LoopVocabulary.
#[local] Open Scope Q_scope.

(** The frame delta that lines 145-151 of [Run] compute from the time
    elapsed since the previous frame. *)
Definition clamp (elapsed : Q) : Q :=
  if GameEngine.Qltb GameEngine.MAX_TIMESTEP elapsed
  then GameEngine.MAX_TIMESTEP else elapsed.

(** The clamped deltas of successive iterations, from the clock readings. *)
Fixpoint clamped_deltas (lastFrameTime : Q) (clocks : list Q) : list Q :=
  match clocks with
  | [] => []
  | currentTime :: clocks' =>
      clamp (currentTime - lastFrameTime) :: clamped_deltas currentTime clocks'
  end.


(** Iterations during which no other thread calls into the engine. *)
Definition quiet {Callback} (clocks : list Q) : list (GameEngine.Frame Callback) :=
  (λ currentTime, GameEngine.mkFrame currentTime []) <$> clocks.

(** The arguments of the [FixedUpdate] calls of a trace, their number, and
    the arguments of its [Update] calls. *)
Fixpoint fixed_update_steps {Callback} (tr : list (GameEngine.Event Callback))
    : list Q :=
  match tr with
  | [] => []
  | GameEngine.EvFixedUpdate fixedDeltaTime :: tr' =>
      fixedDeltaTime :: fixed_update_steps tr'
  | _ :: tr' => fixed_update_steps tr'
  end.

Definition fixed_updates {Callback} (tr : list (GameEngine.Event Callback)) : nat :=
  length (fixed_update_steps tr).

Fixpoint update_deltas {Callback} (tr : list (GameEngine.Event Callback)) : list Q :=
  match tr with
  | [] => []
  | GameEngine.EvUpdate deltaTime :: tr' => deltaTime :: update_deltas tr'
  | _ :: tr' => update_deltas tr'
  end.

End LoopVocabulary.

(** ** Sample inputs *)

Module Samples.
#[local] Open Scope Z_scope.

(** A registry after [Initialize(4)], with no worker. *)
Definition fresh_registry : ThreadManager.State unit :=
  ThreadManager.mkState ∅ ∅ false 4 true 0.

(** A registry with a paused worker, a running worker, and a worker that
    [StopThread] has stopped and joined. *)
Definition busy_registry : ThreadManager.State unit :=
  ThreadManager.mkState
    (<["Physics" := ThreadManager.mkThreadInfo true "Physics" ThreadManager.High
                      ThreadManager.Paused false true]>
       (<["Audio" := ThreadManager.mkThreadInfo true "Audio" ThreadManager.Normal
                       ThreadManager.Running false false]>
          (<["Loader" := ThreadManager.mkThreadInfo false "Loader" ThreadManager.Low
                           ThreadManager.Stopped true false]> ∅)))
    ∅ false 4 true 2.

(** The threads of the sample registries: each of them ends when it is
    joined, and was counted, except a thread registered as "Stuck", which
    never ends. *)
Definition sample_joins : ThreadManager.Joins :=
  λ n, if decide (n = "Stuck") then ThreadManager.NeverEnds
       else ThreadManager.Ends true.
#[global] Existing Instance sample_joins.

Definition busy_registry_shutdown_trace : list ThreadManager.Event :=
  [ThreadManager.EvStoreStop "Audio"; ThreadManager.EvJoin "Audio";
   ThreadManager.EvStoreStatus "Audio" ThreadManager.Stopped;
   ThreadManager.EvStoreStop "Physics";
   ThreadManager.EvSetPause "Physics" false;
   ThreadManager.EvNotify "Physics"; ThreadManager.EvJoin "Physics";
   ThreadManager.EvStoreStatus "Physics" ThreadManager.Stopped;
   ThreadManager.EvDrop "Audio"; ThreadManager.EvDrop "Loader";
   ThreadManager.EvDrop "Physics"].

(** An engine in the main menu and an engine in a race, as [SetGameState]
    leaves an engine that has just been constructed, with no callback
    registered; [idle] is what running a callback does when callbacks do
    not touch the engine. *)
Definition idle (_ : unit) (e : GameEngine.Engine unit) : GameEngine.Engine unit := e.

(** Callbacks that call [RequestExit] with a code of their own, and the
    engine in the main menu for them. *)
Definition exit_with (code : Z) (e : GameEngine.Engine Z) : GameEngine.Engine Z :=
  GameEngine.RequestExit code e.

Definition menu_engine_with_codes : GameEngine.Engine Z :=
  GameEngine.mkEngine GameEngine.MainMenu ∅ 0 0 GameEngine.FIXED_TIMESTEP
    0 0 0 0 false 0.

Definition menu_engine : GameEngine.Engine unit :=
  GameEngine.mkEngine GameEngine.MainMenu ∅ 0 0 GameEngine.FIXED_TIMESTEP
    0 0 0 0 false 0.

Definition racing_engine : GameEngine.Engine unit :=
  GameEngine.mkEngine GameEngine.Racing ∅ 0 0 GameEngine.FIXED_TIMESTEP
    0 0 0 0 false 0.

(** Two iterations; during the second another thread calls
    [RequestExit(5)]. *)
Definition exit_frames : list (GameEngine.Frame unit) :=
  [GameEngine.mkFrame (1 # 100) [];
   GameEngine.mkFrame (2 # 100) [GameEngine.ExtRequestExit 5]].

(** Four iterations 1/120 s apart, then one after a stall of 7/15 s. *)
Definition clock_readings : list Q :=
  [1 # 120; 2 # 120; 3 # 120; 4 # 120; 1 # 2].

End Samples.

(** ** core/ThreadManager.cpp: pools, priorities, affinity *)

Module ThreadPools.
#[local] Open Scope Z_scope.

(** Scheduling policies are [int]s; the values of the three POSIX
    constants are those of Linux. *)
Definition Policy : Type := Z.
Definition SCHED_OTHER : Policy := 0.
Definition SCHED_FIFO : Policy := 1.
Definition SCHED_RR : Policy := 2.

(** [SetNativeThreadPriority], POSIX branch. [sched_min] and [sched_max] are
    [sched_get_priority_min] and [sched_get_priority_max]; [policy] is the
    policy that [pthread_getschedparam] reports for the thread. The result
    is the policy and the priority handed to [pthread_setschedparam].
    [int] division truncates; the sum of lines 438-439 is taken in [Z], the
    priorities of a policy being far from the ends of [int]. *)

Definition posix_sched_request (sched_min sched_max : Policy → Z)
    (policy : Policy) (priority : ThreadManager.ThreadPriority) : Policy * Z :=
  match priority with
  | ThreadManager.Low => (policy, sched_min policy)
  | ThreadManager.Normal =>
      (policy, (sched_min policy + sched_max policy) ÷ 2)
  | ThreadManager.High => (policy, sched_max policy - 1)
  | ThreadManager.RealTime => (SCHED_RR, sched_max SCHED_RR)
  end.

(** [SetNativeThreadPriority], Windows branch: the constant handed to
    [::SetThreadPriority]. *)
Inductive WindowsPriority :=
| THREAD_PRIORITY_BELOW_NORMAL | THREAD_PRIORITY_NORMAL
| THREAD_PRIORITY_ABOVE_NORMAL | THREAD_PRIORITY_HIGHEST.

Definition windows_priority (priority : ThreadManager.ThreadPriority)
    : WindowsPriority :=
  match priority with
  | ThreadManager.Low => THREAD_PRIORITY_BELOW_NORMAL
  | ThreadManager.Normal => THREAD_PRIORITY_NORMAL
  | ThreadManager.High => THREAD_PRIORITY_ABOVE_NORMAL
  | ThreadManager.RealTime => THREAD_PRIORITY_HIGHEST
  end.

(** [SetNativeThreadAffinity], POSIX branch, lines 465-472: the [cpu_set_t]
    handed to [pthread_setaffinity_np]. [coreMask] is a [uint64_t]. *)
Definition cpuset_of_mask (coreMask : Z) : gset nat :=
  foldl (λ (cpuset : gset nat) (i : nat),
           if decide (Z.land coreMask (Z.shiftl 1 (Z.of_nat i)) ≠ 0)
           then {[i]} ∪ cpuset else cpuset)
        ∅ (seq 0 64).

Section Pools.
Context {Func : Type}.

Context {joins : ThreadManager.Joins}.

(** The lambda of line 327: [[this, poolName, i]() {
    WorkerThreadFunction(poolName, i); }]. *)
Context (worker_body : string → nat → Func).

(** [bool ThreadManager::SetThreadPriority(name, priority)]; [native_ok] is
    the answer of [SetNativeThreadPriority]. *)
Definition SetThreadPriority (name : string)
    (priority : ThreadManager.ThreadPriority) (native_ok : bool)
    : ThreadManager.M Func bool :=
  ThreadManager.lock_guard (
    s ← ThreadManager.get;
    match ThreadManager.threads_ s !! name with
    | None => mret false
    | Some threadInfo =>
        ThreadManager.emit (ThreadManager.EvNativePriority name priority native_ok) ;;
        if negb native_ok then mret false
        else ThreadManager.update_thread name (ThreadManager.set_priority priority) ;;
             mret true
    end).

(** [bool ThreadManager::SetThreadAffinity(name, coreMask)]; [native_ok] is
    the answer of [SetNativeThreadAffinity]. *)
Definition SetThreadAffinity (name : string) (coreMask : Z) (native_ok : bool)
    : ThreadManager.M Func bool :=
  ThreadManager.lock_guard (
    s ← ThreadManager.get;
    match ThreadManager.threads_ s !! name with
    | None => mret false
    | Some threadInfo => if negb native_ok then mret false else mret true
    end).

(** [bool ThreadManager::SubmitTask(poolName, task)]. *)
Definition SubmitTask (poolName : string) (task : Func)
    : ThreadManager.M Func bool :=
  ThreadManager.lock_guard (
    s ← ThreadManager.get;
    match ThreadManager.threadPools_ s !! poolName with
    | None => mret false
    | Some poolInfo =>
        ThreadManager.modify (λ s1,
          ThreadManager.set_threadPools
            (alter (λ poolInfo,
                      ThreadManager.mkThreadPoolInfo
                        (ThreadManager.threadNames poolInfo)
                        (ThreadSafeQueue.Push task
                           (ThreadManager.taskQueue poolInfo)))
                   poolName (ThreadManager.threadPools_ s1)) s1) ;;
        mret true
    end).

(** The loop of [CreateThreadPool], lines 323-338, from index [i] with
    [remaining] workers still to create; [threadNames] is
    [poolInfo->threadNames]. [None]: a [CreateThread] failed, the workers
    created so far have been stopped, and [CreateThreadPool] returns false. *)
Fixpoint create_workers (poolName : string)
    (priority : ThreadManager.ThreadPriority) (native_ok : bool)
    (i remaining : nat) (threadNames : list string)
    : ThreadManager.M Func (option (list string)) :=
  match remaining with
  | O => mret (Some threadNames)
  | S remaining' =>
      let threadName := poolName +:+ "_Worker" +:+ pretty i in
      created ← ThreadManager.CreateThread threadName (worker_body poolName i)
                  priority native_ok;
      if (created : bool)
      then create_workers poolName priority native_ok (S i) remaining'
             (threadNames ++ [threadName])
      else ThreadManager.for_each threadNames
             (λ name, ThreadManager.StopThread name ;; mret tt) ;;
           mret None
  end.

(** [bool ThreadManager::CreateThreadPool(poolName, threadCount, priority)].
    The sum of line 315 is a [size_t]: it does not wrap. *)
Definition CreateThreadPool (poolName : string) (threadCount : nat)
    (priority : ThreadManager.ThreadPriority) (native_ok : bool)
    : ThreadManager.M Func bool :=
  ThreadManager.lock_guard (
    s ← ThreadManager.get;
    if negb (ThreadManager.initialized_ s) then mret false
    else if bool_decide (is_Some (ThreadManager.threadPools_ s !! poolName))
    then mret false
    else if decide (ThreadManager.maxThreads_ s
                    < Z.of_nat (size (ThreadManager.threads_ s))
                      + Z.of_nat threadCount)
    then mret false
    else
      created ← create_workers poolName priority native_ok 0 threadCount [];
      match created with
      | None => mret false
      | Some threadNames =>
          ThreadManager.modify (λ s1,
            ThreadManager.set_threadPools
              (<[poolName := ThreadManager.mkThreadPoolInfo threadNames
                               ThreadSafeQueue.empty_queue]>
                 (ThreadManager.threadPools_ s1)) s1) ;;
          mret true
      end).

(** A registry with no worker, not inside any operation. *)
Definition no_worker (s : ThreadManager.State Func) : Prop :=
  ThreadManager.threads_ s = ∅
  ∧ ThreadManager.mutex_ s = false
  ∧ ThreadManager.activeThreadCount_ s = 0.

(** The public operations of the registry, as calls. *)
Inductive Call :=
| CallInitialize (hardware_concurrency maxThreads : Z)
| CallShutdown
| CallCreateThread (name : string) (function : Func)
    (priority : ThreadManager.ThreadPriority) (native_ok : bool)
| CallStopThread (name : string)
| CallPauseThread (name : string)
| CallResumeThread (name : string)
| CallGetThreadStatus (name : string)
| CallThreadExists (name : string)
| CallCreateThreadPool (poolName : string) (threadCount : nat)
    (priority : ThreadManager.ThreadPriority) (native_ok : bool)
| CallSubmitTask (poolName : string) (task : Func)
| CallSetThreadPriority (name : string)
    (priority : ThreadManager.ThreadPriority) (native_ok : bool)
| CallSetThreadAffinity (name : string) (coreMask : Z) (native_ok : bool).

(** The state a call leaves when it returns; [None] when it does not. *)
Definition after (c : Call) (s : ThreadManager.State Func)
    : option (ThreadManager.State Func) :=
  let state_of {A} (o : ThreadManager.Outcome Func A) :=
    match o with
    | ThreadManager.Returned _ s' _ => Some s'
    | _ => None
    end in
  match c with
  | CallInitialize hw maxThreads =>
      state_of (ThreadManager.Initialize hw maxThreads s)
  | CallShutdown => state_of (ThreadManager.Shutdown s)
  | CallCreateThread name function priority native_ok =>
      state_of (ThreadManager.CreateThread name function priority native_ok s)
  | CallStopThread name => state_of (ThreadManager.StopThread name s)
  | CallPauseThread name => state_of (ThreadManager.PauseThread name s)
  | CallResumeThread name => state_of (ThreadManager.ResumeThread name s)
  | CallGetThreadStatus name => state_of (ThreadManager.GetThreadStatus name s)
  | CallThreadExists name => state_of (ThreadManager.ThreadExists name s)
  | CallCreateThreadPool poolName threadCount priority native_ok =>
      state_of (CreateThreadPool poolName threadCount priority native_ok s)
  | CallSubmitTask poolName task => state_of (SubmitTask poolName task s)
  | CallSetThreadPriority name priority native_ok =>
      state_of (SetThreadPriority name priority native_ok s)
  | CallSetThreadAffinity name coreMask native_ok =>
      state_of (SetThreadAffinity name coreMask native_ok s)
  end.

(** A program that calls the registry from one thread: the calls in order,
    each made after the previous one has returned. *)
Fixpoint after_all (calls : list Call) (s : ThreadManager.State Func)
    : option (ThreadManager.State Func) :=
  match calls with
  | [] => Some s
  | c :: calls' =>
      match after c s with
      | Some s' => after_all calls' s'
      | None => None
      end
  end.

End Pools.
End ThreadPools.

(** ** utils/Logger.h *)

Module LogLevel.
(** [enum class LogLevel], in declaration order. *)
Inductive t := Debug | Info | Warning | Error | Fatal.

#[global] Instance t_eq_dec : EqDecision t.
Proof. solve_decision. Defined.

(** The enumerators' values: [level < minLevel_] compares them. *)
Definition value (level : t) : Z :=
  match level with
  | Debug => 0 | Info => 1 | Warning => 2 | Error => 3 | Fatal => 4
  end%Z.
End LogLevel.

Module Logger.
#[local] Open Scope Z_scope.

(** [std::ofstream logFile_], as far as the logger uses it: whether a file
    is attached, the stream's [failbit], and the path of the attached
    file. *)
Record ofstream := mkOfstream {
  is_open : bool;
  failbit : bool;
  attached : string
}.

(** What the logger hands to the outside, in program order. *)
Inductive Output :=
| ToConsole (level : LogLevel.t) (logMessage : string)
    (* SetConsoleColor(level); std::cout << logMessage << std::endl;
       ResetConsoleColor() *)
| ToFile (path logMessage : string)
    (* logFile_ << logMessage << std::endl; logFile_.flush() *)
| ToCerr (text : string).

Record t := mkLogger {
  initialized_ : bool;
  logToConsole_ : bool;
  logToFile_ : bool;
  minLevel_ : LogLevel.t;
  logFile_ : ofstream;
  mutex_ : bool            (* std::mutex, not recursive: is it held *)
}.

Definition set_initialized (x : bool) (l : t) : t :=
  mkLogger x (logToConsole_ l) (logToFile_ l) (minLevel_ l) (logFile_ l)
    (mutex_ l).
Definition set_logToConsole (x : bool) (l : t) : t :=
  mkLogger (initialized_ l) x (logToFile_ l) (minLevel_ l) (logFile_ l)
    (mutex_ l).
Definition set_logToFile (x : bool) (l : t) : t :=
  mkLogger (initialized_ l) (logToConsole_ l) x (minLevel_ l) (logFile_ l)
    (mutex_ l).
Definition set_minLevel (x : LogLevel.t) (l : t) : t :=
  mkLogger (initialized_ l) (logToConsole_ l) (logToFile_ l) x (logFile_ l)
    (mutex_ l).
Definition set_logFile (x : ofstream) (l : t) : t :=
  mkLogger (initialized_ l) (logToConsole_ l) (logToFile_ l) (minLevel_ l) x
    (mutex_ l).
Definition set_mutex (x : bool) (l : t) : t :=
  mkLogger (initialized_ l) (logToConsole_ l) (logToFile_ l) (minLevel_ l)
    (logFile_ l) x.

(** [Logger()]: the constructor's initializer list; the stream is default
    constructed. *)
Definition constructed : t :=
  mkLogger false true false LogLevel.Debug (mkOfstream false false "") false.

(** A call returns, with the logger it leaves and what it has put out, or
    the calling thread blocks for ever on a mutex that it holds itself. *)
Inductive Outcome (A : Type) :=
| Returned (a : A) (l : t) (out : list Output)
| Deadlock.
Arguments Returned {A} a l out.
Arguments Deadlock {A}.

Definition M (A : Type) : Type := t → Outcome A.

#[global] Instance M_ret : MRet M := λ A a l, Returned a l [].
#[global] Instance M_bind : MBind M := λ A B f m l,
  match m l with
  | Returned a l1 out1 =>
      match f a l1 with
      | Returned b l2 out2 => Returned b l2 (out1 ++ out2)
      | Deadlock => Deadlock
      end
  | Deadlock => Deadlock
  end.

Definition get : M t := λ l, Returned l l [].
Definition modify (f : t → t) : M unit := λ l, Returned tt (f l) [].
Definition put_out (o : Output) : M unit := λ l, Returned tt l [o].

(** [std::lock_guard<std::mutex> lock(mutex_);] followed by the rest of
    the scope. *)
Definition lock_guard {A} (body : M A) : M A := λ l,
  if mutex_ l then Deadlock
  else
    match body (set_mutex true l) with
    | Returned a l1 out => Returned a (set_mutex false l1) out
    | Deadlock => Deadlock
    end.

(** [LogLevelToString]. *)
Definition LogLevelToString (level : LogLevel.t) : string :=
  match level with
  | LogLevel.Debug => "DEBUG"
  | LogLevel.Info => "INFO "
  | LogLevel.Warning => "WARN "
  | LogLevel.Error => "ERROR"
  | LogLevel.Fatal => "FATAL"
  end.

(** The text that lines 104-108 of [Log] build; [timestamp] is what
    [GetTimestamp()] returns. *)
Definition logMessage (timestamp : string) (level : LogLevel.t)
    (tag message : string) : string :=
  timestamp +:+ " [" +:+ LogLevelToString level +:+ "] "
    +:+ "[" +:+ tag +:+ "] " +:+ message.

(** [logFile_ << logMessage << std::endl; logFile_.flush();]: a stream
    whose [failbit] is set writes nothing. *)
Definition write_line (line : string) : M unit :=
  l ← get;
  if failbit (logFile_ l) then mret tt
  else put_out (ToFile (attached (logFile_ l)) line).

(** [void Log(LogLevel level, const std::string& tag,
    const std::string& message)]. *)
Definition Log (level : LogLevel.t) (tag message timestamp : string) : M unit :=
  l ← get;
  if negb (initialized_ l)
     || bool_decide (LogLevel.value level < LogLevel.value (minLevel_ l))
  then mret tt
  else
    lock_guard (
      let line := logMessage timestamp level tag message in
      l ← get;
      (if logToConsole_ l then put_out (ToConsole level line) else mret tt) ;;
      l ← get;
      if logToFile_ l && is_open (logFile_ l) then write_line line
      else mret tt).

(** [Debug], [Info], [Warning], [Error], [Fatal]. *)
Definition Debug := Log LogLevel.Debug.
Definition Info := Log LogLevel.Info.
Definition Warning := Log LogLevel.Warning.
Definition Error := Log LogLevel.Error.
Definition Fatal := Log LogLevel.Fatal.

Section Files.
(** Whether the operating system opens the file at a path for appending. *)
Context (can_open : string → bool).

(** [logFile_.open(logFilePath, std::ios::out | std::ios::app)]: on a
    stream that has a file attached the call fails, sets [failbit] and
    leaves the file attached; otherwise success clears the state bits and
    failure sets [failbit]. *)
Definition open (logFilePath : string) (f : ofstream) : ofstream :=
  if is_open f then mkOfstream true true (attached f)
  else if can_open logFilePath then mkOfstream true false logFilePath
  else mkOfstream false true (attached f).

(** [logFile_.close()] on a stream that has a file attached. *)
Definition close (f : ofstream) : ofstream :=
  mkOfstream false (failbit f) (attached f).

(** [void Initialize(bool logToConsole, bool logToFile,
    const std::string& logFilePath, LogLevel minLevel)]. *)
Definition Initialize (logToConsole logToFile : bool) (logFilePath : string)
    (minLevel : LogLevel.t) (timestamp : string) : M unit :=
  lock_guard (
    modify (set_logToConsole logToConsole) ;;
    modify (set_logToFile logToFile) ;;
    modify (set_minLevel minLevel) ;;
    l ← get;
    (if logToFile_ l
     then modify (set_logFile (open logFilePath (logFile_ l))) ;;
          l ← get;
          if negb (is_open (logFile_ l))
          then put_out (ToCerr ("Failed to open log file: " +:+ logFilePath)) ;;
               modify (set_logToFile false)
          else mret tt
     else mret tt) ;;
    modify (set_initialized true) ;;
    Log LogLevel.Info "Logger" "Logging system initialized" timestamp).

(** [void Shutdown()]. *)
Definition Shutdown (timestamp : string) : M unit :=
  lock_guard (
    l ← get;
    if initialized_ l
    then Log LogLevel.Info "Logger" "Logging system shutting down" timestamp ;;
         l ← get;
         (if logToFile_ l && is_open (logFile_ l)
          then modify (set_logFile (close (logFile_ l)))
          else mret tt) ;;
         modify (set_initialized false)
    else mret tt).

End Files.

(** One [Log] call, with the time stamp it reads. *)
Record Entry := mkEntry {
  level : LogLevel.t;
  tag : string;
  message : string;
  timestamp : string
}.

(** [Log] calls made one after the other. *)
Fixpoint log_all (entries : list Entry) : M unit :=
  match entries with
  | [] => mret tt
  | e :: entries' =>
      Log (level e) (tag e) (message e) (timestamp e) ;; log_all entries'
  end.

(** The lines a list of calls leaves on the console of a logger with the
    given threshold: those at or above it, in call order. *)
Definition passing (minLevel : LogLevel.t) (entries : list Entry) : list Entry :=
  filter (λ e, LogLevel.value minLevel ≤ LogLevel.value (level e)) entries.

Definition console_line (e : Entry) : Output :=
  ToConsole (level e) (logMessage (timestamp e) (level e) (tag e) (message e)).

Definition file_line (path : string) (e : Entry) : Output :=
  ToFile path (logMessage (timestamp e) (level e) (tag e) (message e)).

End Logger.

(** ** Vocabulary of the statements about the logger *)

Module LoggerVocabulary.
#[local] Open Scope Z_scope.

(** What one [Log] call at or above the threshold hands out on a logger
    with the settings [l]: a console line if the console is on, a file
    line if file logging is on and the stream has a file and is good. *)
Definition delivered (l : Logger.t) (e : Logger.Entry) : list Logger.Output :=
  (if Logger.logToConsole_ l then [Logger.console_line e] else [])
  ++ (if Logger.logToFile_ l && Logger.is_open (Logger.logFile_ l)
         && negb (Logger.failbit (Logger.logFile_ l))
      then [Logger.file_line (Logger.attached (Logger.logFile_ l)) e]
      else []).

Definition is_file_line (o : Logger.Output) : bool :=
  match o with Logger.ToFile _ _ => true | _ => false end.

End LoggerVocabulary.

(** ** utils/Profiler.h *)

Module Profiler.
#[local] Open Scope Z_scope.

(** [struct ProfileData]. [startTimes] is a stack: the head of the list is
    the back of the vector. Clock readings are ticks of
    [high_resolution_clock]; the times are [int64_t] microseconds and the
    counts [uint32_t]. *)
Record ProfileData := mkProfileData {
  startTimes : list Z;
  totalTime : Z;
  minTime : Z;
  maxTime : Z;
  callCount : Z;
  activeCount : Z
}.

(** A value-initialized [ProfileData], as [profileData_[name]] creates
    it. *)
Definition fresh : ProfileData := mkProfileData [] 0 0 0 0 0.

Record t := mkProfiler {
  enabled_ : bool;
  profileData_ : gmap string ProfileData
}.

(** No member function calls another one while it holds [mutex_]: each
    is one atomic step on the data. *)
Definition constructed : t := mkProfiler false ∅.

(** [void Initialize(bool enabled)]. *)
Definition Initialize (enabled : bool) (p : t) : t := mkProfiler enabled ∅.

(** [void Reset()], [void SetEnabled(bool)], [bool IsEnabled()]. *)
Definition Reset (p : t) : t := mkProfiler (enabled_ p) ∅.
Definition SetEnabled (enabled : bool) (p : t) : t :=
  mkProfiler enabled (profileData_ p).
Definition IsEnabled (p : t) : bool := enabled_ p.

(** [void BeginProfile(const std::string& name)]; [now] is the clock
    reading of line 58. *)
Definition BeginProfile (name : string) (now : Z) (p : t) : t :=
  if negb (enabled_ p) then p
  else
    let data := default fresh (profileData_ p !! name) in
    let data :=
      mkProfileData (now :: startTimes data) (totalTime data) (minTime data)
        (maxTime data) (callCount data)
        (Wrapper.wrap32 (activeCount data + 1)) in
    mkProfiler (enabled_ p) (<[name := data]> (profileData_ p)).

Section Clock.
(** [duration_cast<microseconds>(d).count()] for a difference [d] of two
    clock readings. *)
Context (microseconds : Z → Z).

(** [void EndProfile(const std::string& name)]; [endTime] is the clock
    reading of line 69. *)
Definition EndProfile (name : string) (endTime : Z) (p : t) : t :=
  if negb (enabled_ p) then p
  else
    match profileData_ p !! name with
    | None => p
    | Some data =>
        if decide (activeCount data = 0) then p
        else
          match startTimes data with
          | [] => p
          | startTime :: rest =>
              let duration := microseconds (endTime - startTime) in
              let calls := Wrapper.wrap32 (callCount data + 1) in
              let data :=
                mkProfileData rest (totalTime data + duration)
                  (if decide (calls = 1) then duration
                   else Z.min (minTime data) duration)
                  (if decide (calls = 1) then duration
                   else Z.max (maxTime data) duration)
                  calls
                  (Wrapper.wrap32 (activeCount data - 1)) in
              mkProfiler (enabled_ p) (<[name := data]> (profileData_ p))
          end
    end.

(** [ScopedProfiler]: [BeginProfile] when the scope is entered,
    [EndProfile] when it is left; [inner] is what the scope does to the
    profiler in between. *)
Definition scoped (name : string) (entered exited : Z) (inner : t → t) (p : t)
    : t :=
  EndProfile name exited (inner (BeginProfile name entered p)).

(** The public operations, as calls with the clock readings they take. *)
Inductive Call :=
| CallInitialize (enabled : bool)
| CallBeginProfile (name : string) (now : Z)
| CallEndProfile (name : string) (endTime : Z)
| CallReset
| CallSetEnabled (enabled : bool).

Definition call (c : Call) (p : t) : t :=
  match c with
  | CallInitialize enabled => Initialize enabled p
  | CallBeginProfile name now => BeginProfile name now p
  | CallEndProfile name endTime => EndProfile name endTime p
  | CallReset => Reset p
  | CallSetEnabled enabled => SetEnabled enabled p
  end.

Definition run (calls : list Call) (p : t) : t := foldl (λ p c, call c p) p calls.

(** A section measured over and over, each measurement ended before the
    next begins: the pairs are the clock readings at entry and exit. *)
Definition measure (name : string) (intervals : list (Z * Z)) (p : t) : t :=
  foldl (λ p i, scoped name i.1 i.2 id p) p intervals.

Definition durations (intervals : list (Z * Z)) : list Z :=
  (λ i, microseconds (i.2 - i.1)) <$> intervals.

End Clock.
End Profiler.

(** ** Vocabulary of the statements about the profiler *)

Module ProfilerVocabulary.
#[local] Open Scope Z_scope.

Definition total (l : list Z) : Z := foldr Z.add 0 l.

(** The section's record after one more completed measurement of the given
    duration, its pending starts left alone. *)
Definition recorded (duration : Z) (data : Profiler.ProfileData)
    : Profiler.ProfileData :=
  let calls := Wrapper.wrap32 (Profiler.callCount data + 1) in
  Profiler.mkProfileData (Profiler.startTimes data)
    (Profiler.totalTime data + duration)
    (if decide (calls = 1) then duration
     else Z.min (Profiler.minTime data) duration)
    (if decide (calls = 1) then duration
     else Z.max (Profiler.maxTime data) duration)
    calls (Profiler.activeCount data).

End ProfilerVocabulary.

(** ** utils/AtomicState.h *)

Module AtomicState.
Section State.
Context {StateEnum : Type} `{EqDecision StateEnum}.

(** [std::atomic<underlying_type> state_]: the enumerator whose value is
    stored (the two casts are inverse to each other). Each member function
    is one atomic operation on it. *)
Definition t := StateEnum.

(** [explicit AtomicState(StateEnum initialState)]. *)
Definition make (initialState : StateEnum) : t := initialState.

(** [void SetState(StateEnum newState)]. *)
Definition SetState (newState : StateEnum) (state_ : t) : t := newState.

(** [StateEnum GetState() const]. *)
Definition GetState (state_ : t) : StateEnum := state_.

(** [bool CompareAndSwap(StateEnum expected, StateEnum desired)]:
    [compare_exchange_strong]. *)
Definition CompareAndSwap (expected desired : StateEnum) (state_ : t) : bool * t :=
  if decide (state_ = expected) then (true, desired) else (false, state_).

(** [CompareAndSwap] calls of several threads, in the order in which the
    atomic operations take effect; the result is the list of their return
    values and the final state. *)
Fixpoint swaps (calls : list (StateEnum * StateEnum)) (state_ : t)
    : list bool * t :=
  match calls with
  | [] => ([], state_)
  | (expected, desired) :: calls' =>
      let '(changed, state1) := CompareAndSwap expected desired state_ in
      let '(results, state2) := swaps calls' state1 in
      (changed :: results, state2)
  end.

End State.
End AtomicState.

(** ** utils/DoubleBuffer.h *)

Module DoubleBuffer.
Section Buffer.
Context {T : Type}.

(** The two objects that the constructor allocates; a [T*] handed out by
    the class is the address of one of them. *)
Inductive Address := FirstObject | SecondObject.

#[global] Instance Address_eq_dec : EqDecision Address.
Proof. solve_decision. Defined.

Record t := mkDoubleBuffer {
  heap : Address → T;          (* what the two objects hold *)
  frontBuffer_ : Address;      (* std::unique_ptr<T> *)
  backBuffer_ : Address
}.

(** [explicit DoubleBuffer(const T& initialData)]. *)
Definition make (initialData : T) : t :=
  mkDoubleBuffer (λ _, initialData) FirstObject SecondObject.

(** [void Swap()]: [std::swap(frontBuffer_, backBuffer_)]. *)
Definition Swap (b : t) : t :=
  mkDoubleBuffer (heap b) (backBuffer_ b) (frontBuffer_ b).

(** [const T* GetFrontBuffer() const] and [T* GetBackBufferForWriting()]. *)
Definition GetFrontBuffer (b : t) : Address := frontBuffer_ b.
Definition GetBackBufferForWriting (b : t) : Address := backBuffer_ b.

(** [void ModifyBackBuffer(Func&& func)]: [func] is run on the object that
    [backBuffer_] points to, and is given by what it makes of that
    object. *)
Definition ModifyBackBuffer (func : T → T) (b : t) : t :=
  mkDoubleBuffer
    (λ a, if decide (a = backBuffer_ b) then func (heap b a) else heap b a)
    (frontBuffer_ b) (backBuffer_ b).

(** [*p] for a pointer [p] that the class has handed out. *)
Definition read (b : t) (p : Address) : T := heap b p.

(** The public operations, as calls. *)
Inductive Call :=
| CallSwap
| CallModifyBackBuffer (func : T → T).

Definition call (c : Call) (b : t) : t :=
  match c with
  | CallSwap => Swap b
  | CallModifyBackBuffer func => ModifyBackBuffer func b
  end.

Definition run (calls : list Call) (b : t) : t := foldl (λ b c, call c b) b calls.

(** A writer's frame: write the back buffer, then publish it. *)
Definition publish (func : T → T) (b : t) : t := Swap (ModifyBackBuffer func b).

End Buffer.
Arguments t : clear implicits.
Arguments Call : clear implicits.
End DoubleBuffer.

(** ** utils/Types.h: vectors, quaternions, transforms

    [float] components are kept in [Q]: the formulas are read as exact
    arithmetic. [Magnitude], [Normalized] and [FromAxisAngle] need square
    roots and trigonometry and are not modelled. *)

Module Vector3.
#[local] Open Scope Q_scope.

Record t := mk { x : Q; y : Q; z : Q }.

(** [Vector3()]. *)
Definition zero : t := mk 0 0 0.

(** [operator+], [operator-], [operator*(float)], [operator/(float)]. *)
Definition add (a other : t) : t :=
  mk (x a + x other) (y a + y other) (z a + z other).
Definition sub (a other : t) : t :=
  mk (x a - x other) (y a - y other) (z a - z other).
Definition mul (a : t) (scalar : Q) : t :=
  mk (x a * scalar) (y a * scalar) (z a * scalar).
Definition div (a : t) (scalar : Q) : t :=
  mk (x a / scalar) (y a / scalar) (z a / scalar).

(** [float Dot(const Vector3& other) const]. *)
Definition Dot (a other : t) : Q :=
  x a * x other + y a * y other + z a * z other.

(** [Vector3 Cross(const Vector3& other) const]. *)
Definition Cross (a other : t) : t :=
  mk (y a * z other - z a * y other)
     (z a * x other - x a * z other)
     (x a * y other - y a * x other).

(** Equality of the components as numbers. *)
Definition equiv (a b : t) : Prop := x a == x b ∧ y a == y b ∧ z a == z b.

End Vector3.

Module Quaternion.
#[local] Open Scope Q_scope.

Record t := mk { w : Q; x : Q; y : Q; z : Q }.

(** [Quaternion()]: the members' default initializers. *)
Definition identity : t := mk 1 0 0 0.

(** [Quaternion operator*(const Quaternion& other) const]. *)
Definition mul (q other : t) : t :=
  mk (w q * w other - x q * x other - y q * y other - z q * z other)
     (w q * x other + x q * w other + y q * z other - z q * y other)
     (w q * y other - x q * z other + y q * w other + z q * x other)
     (w q * z other + x q * y other - y q * x other + z q * w other).

(** [Vector3 RotateVector(const Vector3& v) const]. *)
Definition RotateVector (q : t) (v : Vector3.t) : Vector3.t :=
  let vecQuat := mk 0 (Vector3.x v) (Vector3.y v) (Vector3.z v) in
  let qInv := mk (- w q) (x q) (y q) (z q) in
  let result := mul (mul q vecQuat) qInv in
  Vector3.mk (x result) (y result) (z result).

Definition equiv (p q : t) : Prop :=
  w p == w q ∧ x p == x q ∧ y p == y q ∧ z p == z q.

End Quaternion.

Module Transform.
#[local] Open Scope Q_scope.

Record t := mk {
  position : Vector3.t;
  rotation : Quaternion.t;
  scale : Vector3.t
}.

(** [Transform()]: the members' default initializers. *)
Definition default : t :=
  mk Vector3.zero Quaternion.identity (Vector3.mk 1 1 1).

(** [Vector3 TransformPoint(const Vector3& point) const]. *)
Definition TransformPoint (t0 : t) (point : Vector3.t) : Vector3.t :=
  let scaled :=
    Vector3.mk (Vector3.x point * Vector3.x (scale t0))
               (Vector3.y point * Vector3.y (scale t0))
               (Vector3.z point * Vector3.z (scale t0)) in
  let rotated := Quaternion.RotateVector (rotation t0) scaled in
  Vector3.add rotated (position t0).

(** [Transform Combine(const Transform& other) const]. *)
Definition Combine (t0 other : t) : t :=
  mk (TransformPoint t0 (position other))
     (Quaternion.mul (rotation t0) (rotation other))
     (Vector3.mk (Vector3.x (scale t0) * Vector3.x (scale other))
                 (Vector3.y (scale t0) * Vector3.y (scale other))
                 (Vector3.z (scale t0) * Vector3.z (scale other))).

End Transform.

(** ** Vocabulary of the statements about rotations *)

Module RotationVocabulary.
#[local] Open Scope Q_scope.

(** The conjugate, which is the inverse of a quaternion of norm 1. *)
Definition conjugate (q : Quaternion.t) : Quaternion.t :=
  Quaternion.mk (Quaternion.w q) (- Quaternion.x q) (- Quaternion.y q)
    (- Quaternion.z q).

Definition norm2 (q : Quaternion.t) : Q :=
  Quaternion.w q * Quaternion.w q + Quaternion.x q * Quaternion.x q
  + Quaternion.y q * Quaternion.y q + Quaternion.z q * Quaternion.z q.

(** The rotation of [v] by [q] that the comment of [RotateVector] names:
    the vector part of [q * v * q^-1]. *)
Definition rotation (q : Quaternion.t) (v : Vector3.t) : Vector3.t :=
  let vecQuat :=
    Quaternion.mk 0 (Vector3.x v) (Vector3.y v) (Vector3.z v) in
  let result := Quaternion.mul (Quaternion.mul q vecQuat) (conjugate q) in
  Vector3.mk (Quaternion.x result) (Quaternion.y result) (Quaternion.z result).

Definition opposite (v : Vector3.t) : Vector3.t :=
  Vector3.mk (- Vector3.x v) (- Vector3.y v) (- Vector3.z v).

(** Componentwise product, as [TransformPoint] scales a point. *)
Definition scaled (s v : Vector3.t) : Vector3.t :=
  Vector3.mk (Vector3.x v * Vector3.x s) (Vector3.y v * Vector3.y s)
    (Vector3.z v * Vector3.z s).

End RotationVocabulary.

(** ** core/GameEngine.cpp, lines 174-184: the fixed phase in double precision *)

Module DoubleLoop.

(** A [double] is an IEEE 754 binary64 number: [PrimFloat.float], whose
    operations round to nearest, ties to even, as the source's do. *)
Definition double : Set := PrimFloat.float.

(** [Constants::FIXED_TIMESTEP = 1.0 / 60.0] and
    [Constants::MAX_TIMESTEP = 1.0 / 30.0] (utils/Types.h). *)
Definition FIXED_TIMESTEP : double := PrimFloat.div 1 60.
Definition MAX_TIMESTEP : double := PrimFloat.div 1 30.

(** The literals [0.001], [0.005], [0.006] and [0.02]: the doubles nearest
    to the decimal fractions. *)
Definition milliseconds (n : PrimFloat.float) : double := PrimFloat.div n 1000.

(** [void GameEngine::SetFixedTimeStep(double timeStep)]:
    [fixedTimeStep_ = std::max(0.001, timeStep)], where [std::max(a, b)] is
    [(a < b) ? b : a]. *)
Definition SetFixedTimeStep (timeStep : double) : double :=
  if PrimFloat.ltb (milliseconds 1) timeStep then timeStep else milliseconds 1.

(** Lines 180-183:
    [while (accumulator_ >= fixedTimeStep_) { FixedUpdate(fixedTimeStep_);
    accumulator_ -= fixedTimeStep_; }]. The result is the accumulator that
    the loop leaves and the arguments of its [FixedUpdate] calls, in order;
    [FixedUpdate] itself changes nothing. [None]: the loop has not ended
    within [fuel] iterations. *)
Fixpoint fixed_loop (fuel : nat) (fixedTimeStep_ accumulator_ : double)
    : option (double * list double) :=
  match fuel with
  | O => None
  | S fuel' =>
      if PrimFloat.leb fixedTimeStep_ accumulator_
      then
        match fixed_loop fuel' fixedTimeStep_
                (PrimFloat.sub accumulator_ fixedTimeStep_) with
        | Some (accumulator', calls) => Some (accumulator', fixedTimeStep_ :: calls)
        | None => None
        end
      else Some (accumulator_, [])
  end.

(** Lines 178-183 of one iteration of the main loop:
    [accumulator_ += deltaTime_], then the loop above. *)
Definition fixed_phase (fuel : nat) (fixedTimeStep_ accumulator_ deltaTime_ : double)
    : option (double * list double) :=
  fixed_loop fuel fixedTimeStep_ (PrimFloat.add accumulator_ deltaTime_).

(** The fixed phases of successive iterations, one per clamped delta. *)
Fixpoint frames (fuel : nat) (fixedTimeStep_ accumulator_ : double)
    (deltas : list double) : option (double * list double) :=
  match deltas with
  | [] => Some (accumulator_, [])
  | deltaTime_ :: deltas' =>
      match fixed_phase fuel fixedTimeStep_ accumulator_ deltaTime_ with
      | None => None
      | Some (accumulator1, calls1) =>
          match frames fuel fixedTimeStep_ accumulator1 deltas' with
          | None => None
          | Some (accumulator2, calls2) => Some (accumulator2, calls1 ++ calls2)
          end
      end
  end.

(** The rational number that a finite double stands for; 0 for the
    infinities and for a NaN. *)
Definition value (x : double) : Q :=
  match Prim2SF x with
  | S754_finite sign mantissa exponent =>
      (if sign then -1 else 1) * inject_Z (Z.pos mantissa) * 2 ^ exponent
  | _ => 0
  end.





End DoubleLoop.

(** ** core/GameEngine.cpp: start-up, shutdown and [Run] *)

Module Startup.

(** Whether a registered callback, run on an engine, ends by throwing;
    [invoke] gives what it has done to the engine by then. *)
Class Throws (Callback : Type) :=
  throws : Callback → GameEngine.Engine Callback → bool.

Section Startup.
Context {Func Callback : Type}.
Context {joins : ThreadManager.Joins}.
Context {callback_throws : Throws Callback}.
(** The closure [[this, poolName, i]() { WorkerThreadFunction(poolName, i); }]. *)
Context (worker_body : string → nat → Func).
Context (invoke : Callback → GameEngine.Engine Callback → GameEngine.Engine Callback).
(** Whether the operating system opens the file at a path for appending. *)
Context (can_open : string → bool).

(** [bool GameEngine::InitializeSubsystems()], lines 331-369, on the
    thread manager that line 335 creates: [Initialize()] with its default
    argument, then the pool "GeneralPool" of two workers. The lines that
    follow (347-368) only log. [hardware_concurrency] is what
    [std::thread::hardware_concurrency()] answers and [native_ok] whether
    the platform accepts the priority of a new worker. *)
Definition InitializeSubsystems (hardware_concurrency : Z) (native_ok : bool)
    : ThreadManager.Outcome Func bool :=
  (ok ← ThreadManager.Initialize hardware_concurrency 0;
   if negb ok then mret false
   else
     ok ← ThreadPools.CreateThreadPool worker_body "GeneralPool" 2
            ThreadManager.Normal native_ok;
     if negb ok then mret false
     else mret true) ThreadManager.constructed.

(** The engine together with what its start-up and shutdown touch besides
    the members modelled in [GameEngine.Engine]: the application settings,
    the thread manager it owns ([None]: the [std::unique_ptr] is null, as
    the constructor leaves it), and the two singletons. *)
Record Application := mkApplication {
  engine : GameEngine.Engine Callback;
  appName_ : string;
  windowWidth_ : Z;
  windowHeight_ : Z;
  fullscreen_ : bool;
  threadManager_ : option (ThreadManager.State Func);
  logger : Logger.t;          (* Utils::Logger::GetInstance() *)
  profiler : Profiler.t       (* Utils::Profiler::GetInstance() *)
}.

Definition set_engine (x : GameEngine.Engine Callback) (a : Application)
    : Application :=
  mkApplication x (appName_ a) (windowWidth_ a) (windowHeight_ a)
    (fullscreen_ a) (threadManager_ a) (logger a) (profiler a).
Definition set_threadManager (x : option (ThreadManager.State Func))
    (a : Application) : Application :=
  mkApplication (engine a) (appName_ a) (windowWidth_ a) (windowHeight_ a)
    (fullscreen_ a) x (logger a) (profiler a).
Definition set_logger (x : Logger.t) (a : Application) : Application :=
  mkApplication (engine a) (appName_ a) (windowWidth_ a) (windowHeight_ a)
    (fullscreen_ a) (threadManager_ a) x (profiler a).

(** How a call of a member function of the engine ends. It returns a
    result, leaving the application in a state, with the engine's events
    and what the logger's initialization or shutdown has put out; or it
    does not return; or an exception thrown by a state callback leaves it
    (no member function of the engine catches); or it calls a member
    function through the null [threadManager_], which is undefined
    behaviour; or the registry calls [std::terminate]. *)
Inductive Outcome (A : Type) :=
| Returned (result : A) (a : Application)
    (events : list (GameEngine.Event Callback)) (out : list Logger.Output)
| Blocked
| Thrown (a : Application) (events : list (GameEngine.Event Callback))
| NullDereference (a : Application) (events : list (GameEngine.Event Callback))
| Terminated.
Arguments Returned {A} result a events out.
Arguments Blocked {A}.
Arguments Thrown {A} a events.
Arguments NullDereference {A} a events.
Arguments Terminated {A}.

(** [SetGameState(state)] called by the thread that runs the engine: the
    callback's exception, if it throws, leaves [SetGameState] at line 238,
    after the store of line 229. *)
Definition SetGameState (state : GameEngine.GameState) (a : Application)
    : Outcome unit :=
  let '(engine1, events) := GameEngine.SetGameState invoke state (engine a) in
  let thrown :=
    if decide (GameEngine.gameState_ (engine a) = state) then false
    else match GameEngine.stateCallbacks_ (engine a) !! state with
         | Some callback =>
             throws callback (GameEngine.set_gameState state (engine a))
         | None => false
         end in
  if thrown then Thrown (set_engine engine1 a) events
  else Returned tt (set_engine engine1 a) events [].

(** [void GameEngine::ShutdownSubsystems()], lines 371-398: the handles of
    the six subsystems that are never created are reset; then
    [threadManager_->Shutdown()] is called through [threadManager_]
    (line 396), and [threadManager_.reset()] runs [~ThreadManager()], which
    calls [Shutdown()] once more (ThreadManager.cpp, lines 22-24). *)
Definition ShutdownSubsystems (a : Application) : Outcome unit :=
  let resets :=
    [GameEngine.EvReset GameEngine.RaceManager;
     GameEngine.EvReset GameEngine.InputManager;
     GameEngine.EvReset GameEngine.AudioEngine;
     GameEngine.EvReset GameEngine.AIManager;
     GameEngine.EvReset GameEngine.RenderingEngine;
     GameEngine.EvReset GameEngine.PhysicsEngine] in
  match threadManager_ a with
  | None => NullDereference a resets
  | Some manager =>
      match ThreadManager.Shutdown manager with
      | ThreadManager.Returned _ manager1 _ =>
          match ThreadManager.Shutdown manager1 with
          | ThreadManager.Returned _ _ _ =>
              Returned tt (set_threadManager None a)
                (resets ++ [GameEngine.EvThreadManagerShutdown;
                            GameEngine.EvReset GameEngine.ThreadManagerHandle])
                []
          | ThreadManager.Deadlock => Blocked
          | ThreadManager.Terminate => Terminated
          end
      | ThreadManager.Deadlock => Blocked
      | ThreadManager.Terminate => Terminated
      end
  end.

(** [void GameEngine::Shutdown()], lines 99-127. [timestamp] is what
    [GetTimestamp()] reads in the logger's shutdown. *)
Definition Shutdown (timestamp : string) (a : Application) : Outcome unit :=
  if decide (GameEngine.gameState_ (engine a) = GameEngine.Uninitialized)
  then Returned tt a [GameEngine.EvShutdown] []
  else
    match SetGameState GameEngine.Exiting a with
    | Returned _ a1 events1 _ =>
        match ShutdownSubsystems a1 with
        | Returned _ a2 events2 _ =>
            let engine3 :=
              GameEngine.set_exitCode 0
                (GameEngine.set_exitRequested false
                   (GameEngine.set_gameState GameEngine.Uninitialized
                      (engine a2))) in
            let a3 := set_engine engine3 a2 in
            let events3 :=
              if Profiler.IsEnabled (profiler a3)
              then [GameEngine.EvSaveReport] else [] in
            match Logger.Shutdown timestamp (logger a3) with
            | Logger.Returned _ logger4 out =>
                Returned tt (set_logger logger4 a3)
                  (GameEngine.EvShutdown :: events1 ++ events2 ++ events3
                     ++ [GameEngine.EvLoggerShutdown]) out
            | Logger.Deadlock => Blocked
            end
        | Blocked => Blocked
        | Thrown a2 events2 =>
            Thrown a2 (GameEngine.EvShutdown :: events1 ++ events2)
        | NullDereference a2 events2 =>
            NullDereference a2 (GameEngine.EvShutdown :: events1 ++ events2)
        | Terminated => Terminated
        end
    | Blocked => Blocked
    | Thrown a1 events1 => Thrown a1 (GameEngine.EvShutdown :: events1)
    | NullDereference a1 events1 =>
        NullDereference a1 (GameEngine.EvShutdown :: events1)
    | Terminated => Terminated
    end.

(** [int GameEngine::Run()], lines 129-210: the loop of
    [GameEngine.main_loop], then [Shutdown()], then [return exitCode_].
    [None]: the loop has not exited on the given frames, so [Run] is
    still in it. *)
Definition Run (timestamp : string) (fuel : nat)
    (frames : list (GameEngine.Frame Callback)) (a : Application)
    : option (Outcome Z) :=
  if decide (GameEngine.gameState_ (engine a) = GameEngine.Uninitialized)
  then Some (Returned (-1)%Z a [] [])
  else
    match GameEngine.main_loop invoke fuel frames (engine a) with
    | Some (GameEngine.Exited, engine1, events1) =>
        Some
          match Shutdown timestamp (set_engine engine1 a) with
          | Returned _ a2 events2 out =>
              Returned (GameEngine.exitCode_ (engine a2)) a2
                (events1 ++ events2) out
          | Blocked => Blocked
          | Thrown a2 events2 => Thrown a2 (events1 ++ events2)
          | NullDereference a2 events2 =>
              NullDereference a2 (events1 ++ events2)
          | Terminated => Terminated
          end
    | _ => None
    end.

(** [bool GameEngine::Initialize(appName, windowWidth, windowHeight,
    fullscreen)], lines 60-97. [now] is the clock reading of line 82 and
    [timestamp] what [GetTimestamp()] reads in the logger's initialization
    and shutdown. *)
Definition Initialize (appName : string) (windowWidth windowHeight : Z)
    (fullscreen : bool) (now : Q) (hardware_concurrency : Z) (native_ok : bool)
    (timestamp : string) (a : Application) : Outcome bool :=
  if decide (GameEngine.gameState_ (engine a) ≠ GameEngine.Uninitialized)
  then Returned false a [] []
  else
    match Logger.Initialize can_open true true "game.log" LogLevel.Debug
            timestamp (logger a) with
    | Logger.Deadlock => Blocked
    | Logger.Returned _ logger1 out =>
        let profiler1 := Profiler.Initialize true (profiler a) in
        let engine1 := GameEngine.set_lastFrameTime now (engine a) in
        match InitializeSubsystems hardware_concurrency native_ok with
        | ThreadManager.Returned ok manager _ =>
            let a1 :=
              mkApplication engine1 appName windowWidth windowHeight
                fullscreen (Some manager) logger1 profiler1 in
            if ok
            then
              match SetGameState GameEngine.Loading a1 with
              | Returned _ a2 events _ => Returned true a2 events out
              | Blocked => Blocked
              | Thrown a2 events => Thrown a2 events
              | NullDereference a2 events => NullDereference a2 events
              | Terminated => Terminated
              end
            else
              match Shutdown timestamp a1 with
              | Returned _ a2 events out2 =>
                  Returned false a2 events (out ++ out2)
              | Blocked => Blocked
              | Thrown a2 events => Thrown a2 events
              | NullDereference a2 events => NullDereference a2 events
              | Terminated => Terminated
              end
        | ThreadManager.Deadlock => Blocked
        | ThreadManager.Terminate => Terminated
        end
    end.

End Startup.
Arguments Application : clear implicits.
Arguments Outcome : clear implicits.
Arguments Returned {Func Callback A} result a events out.
Arguments Blocked {Func Callback A}.
Arguments Thrown {Func Callback A} a events.
Arguments NullDereference {Func Callback A} a events.
Arguments Terminated {Func Callback A}.
End Startup.

(** ** core/ThreadManager.cpp, lines 121-168: the thread function left alone *)

Module ThreadFunction.
#[local] Open Scope Z_scope.

(** [steps] statements of [threadFunction] on a worker whose flags no
    registry operation writes meanwhile and whose [function()] returns
    every time it is called. The result is the worker, the registry's
    counter, and the number of calls of [function()] made so far. *)
Fixpoint run (steps : nat) (w : Wrapper.Worker) (count : Z) (calls : nat)
    : Wrapper.Worker * Z * nat :=
  match steps with
  | O => (w, count, calls)
  | S steps' =>
      match Wrapper.wrapper_step Wrapper.BodyReturns w count with
      | None => (w, count, calls)
      | Some (w', count') =>
          run steps' w' count'
            (if decide (Wrapper.pc w = Wrapper.AtBody) then S calls else calls)
      end
  end.

End ThreadFunction.

(** ** Further sample inputs *)

Module MoreSamples.
#[local] Open Scope Z_scope.

(** The running worker of [Samples.busy_registry]. *)
Definition audio_worker : ThreadManager.ThreadInfo :=
  ThreadManager.mkThreadInfo true "Audio" ThreadManager.Normal
    ThreadManager.Running false false.

(** A registry whose one worker waits for a task that never comes. *)
Definition stuck_worker : ThreadManager.ThreadInfo :=
  ThreadManager.mkThreadInfo true "Stuck" ThreadManager.Normal
    ThreadManager.Running false false.

Definition stuck_registry : ThreadManager.State unit :=
  ThreadManager.mkState (<["Stuck" := stuck_worker]> ∅) ∅ false 4 true 1.

(** An initialized registry with no worker and one pool, "Jobs", that
    holds one task; tasks are told apart by a number. *)
Definition jobs_pool : ThreadManager.ThreadPoolInfo nat :=
  ThreadManager.mkThreadPoolInfo [] [7%nat].

Definition pool_registry : ThreadManager.State nat :=
  ThreadManager.mkState ∅ (<["Jobs" := jobs_pool]> ∅) false 4 true 0.

Definition numbered_worker (poolName : string) (threadIndex : nat) : nat :=
  threadIndex.

(** Scheduling ranges as Linux reports them: 1..99 for the two real-time
    policies, 0..0 for the others. *)
Definition linux_min (p : ThreadPools.Policy) : Z :=
  if (p =? ThreadPools.SCHED_FIFO) || (p =? ThreadPools.SCHED_RR) then 1 else 0.

Definition linux_max (p : ThreadPools.Policy) : Z :=
  if (p =? ThreadPools.SCHED_FIFO) || (p =? ThreadPools.SCHED_RR) then 99 else 0.

(** A use of the registry by one thread. *)
Definition registry_calls : list (ThreadPools.Call (Func := nat)) :=
  [ThreadPools.CallInitialize 8 4;
   ThreadPools.CallCreateThreadPool "Jobs" 0 ThreadManager.Normal true;
   ThreadPools.CallSubmitTask "Jobs" 1%nat;
   ThreadPools.CallStopThread "Jobs_Worker0";
   ThreadPools.CallShutdown].

(** A file system on which every file can be opened. *)
Definition every_file (path : string) : bool := true.

(** A logger as [Initialize(true, true, "car_racing.log",
    LogLevel::Warning)] leaves it when the file can be opened. *)
Definition warning_logger : Logger.t :=
  Logger.mkLogger true true true LogLevel.Warning
    (Logger.mkOfstream true false "car_racing.log") false.

Definition entries : list Logger.Entry :=
  [Logger.mkEntry LogLevel.Info "Main" "Entered main menu" "12:00:00.000";
   Logger.mkEntry LogLevel.Error "GameEngine" "Failed to initialize subsystems"
     "12:00:00.250";
   Logger.mkEntry LogLevel.Debug "Main" "tick" "12:00:00.500";
   Logger.mkEntry LogLevel.Warning "GameEngine" "Already initialized"
     "12:00:01.000"].

(** A clock that ticks in nanoseconds: [duration_cast<microseconds>]
    divides by 1000 and truncates. *)
Definition nanosecond_clock (d : Z) : Z := d ÷ 1000.

(** A recursion of depth two in the section "Update", the inner call
    ended. *)
Definition profiler_calls : list Profiler.Call :=
  [Profiler.CallInitialize true;
   Profiler.CallBeginProfile "Update" 1000;
   Profiler.CallBeginProfile "Update" 2500;
   Profiler.CallEndProfile "Update" 4000].

(** An enabled profiler in which one measurement of "Render" is open. *)
Definition profiling : Profiler.t :=
  Profiler.BeginProfile "Render" 100000 (Profiler.Initialize true Profiler.constructed).

(** Entry and exit readings of three measurements. *)
Definition intervals : list (Z * Z) :=
  [(0, 2000); (5000, 6000); (9000, 12500)].

(** A consumer that polls a queue holding one task, with two pushes in
    between. *)
Definition polling : list (ThreadSafeQueue.Call Z) :=
  [ThreadSafeQueue.CallTryPop; ThreadSafeQueue.CallPush 2;
   ThreadSafeQueue.CallPush 3; ThreadSafeQueue.CallTryPop;
   ThreadSafeQueue.CallTryPop; ThreadSafeQueue.CallTryPop].

(** The application before [main] has initialized anything. *)
Definition fresh_application : Startup.Application nat unit :=
  Startup.mkApplication GameEngine.constructed "Car Racing Simulation" 1280 720
    false None Logger.constructed Profiler.constructed.

(** State callbacks that do not throw. *)
Definition sample_throws : Startup.Throws unit := λ _ _, false.
#[global] Existing Instance sample_throws.

(** An engine that has been constructed and moved to the main menu by
    [SetGameState(MainMenu)], without [Initialize]: no thread manager, the
    singletons as constructed. *)
Definition menu_application : Startup.Application nat unit :=
  Startup.mkApplication Samples.menu_engine "Car Racing Simulation" 1280 720
    false None Logger.constructed Profiler.constructed.

(** An application whose engine owns a thread manager without workers, in
    the main menu with [RequestExit(5)] called. *)
Definition managed_application : Startup.Application nat unit :=
  Startup.mkApplication (GameEngine.RequestExit 5 Samples.menu_engine)
    "Car Racing Simulation" 1280 720 false
    (Some (ThreadManager.mkState ∅ ∅ false 4 true 0))
    Logger.constructed Profiler.constructed.

(** The same engine once [RequestExit(5)] has been called. *)
Definition exit_requested_application : Startup.Application nat unit :=
  Startup.mkApplication (GameEngine.RequestExit 5 Samples.menu_engine)
    "Car Racing Simulation" 1280 720 false None Logger.constructed
    Profiler.constructed.

End MoreSamples.

(* ===================================================================== *)
(** * Part II: properties                                                 *)
(* ===================================================================== *)

(** ** The thread-safe queue *)

Section QueueFacts.
Context {T : Type}.
Implicit Types (q : ThreadSafeQueue.t T) (calls : list (ThreadSafeQueue.Call T)).

Lemma Push_snoc item q :
  ThreadSafeQueue.Push item q = q ++ [item].
Proof. reflexivity. Qed.

Lemma TryPop_empty_iff q :
  (ThreadSafeQueue.TryPop q).1 = None ↔ ThreadSafeQueue.Empty q = true.
Proof. destruct q; simpl; split; congruence. Qed.

Lemma TryPop_empty_unchanged q :
  ThreadSafeQueue.Empty q = true →
  ThreadSafeQueue.TryPop q = (None, q).
Proof. destruct q; simpl; [reflexivity | discriminate]. Qed.

(** What was in the queue, followed by what was pushed, is what came out,
    followed by what is left. *)
Lemma run_conserves calls : ∀ q q' out,
  ThreadSafeQueue.run calls q = Some (q', out) →
  q ++ ThreadSafeQueue.pushed calls = out ++ q'.
Proof.
  induction calls as [|c calls IH]; intros q q' out Hrun; simpl in Hrun.
  - inversion Hrun; subst. simpl. by rewrite app_nil_r.
  - destruct c as [item| |]; simpl.
    + apply IH in Hrun. by rewrite <- Hrun, Push_snoc, <- app_assoc.
    + destruct q as [|x rest]; simpl in Hrun; [discriminate|].
      destruct (ThreadSafeQueue.run calls rest) as [[q o]|] eqn:E; [|discriminate].
      inversion Hrun; subst. apply IH in E. simpl. by rewrite E.
    + destruct q as [|x rest]; simpl in Hrun.
      * by apply IH in Hrun.
      * destruct (ThreadSafeQueue.run calls rest) as [[q o]|] eqn:E; [|discriminate].
        inversion Hrun; subst. apply IH in E. simpl. by rewrite E.
Qed.

(** C9. When one producer and one consumer use the queue one call at a time,
    starting from the empty queue, the items returned by [Pop] and [TryPop]
    are the items passed to [Push], in the same order: they are the pushed
    sequence without the items still queued, and the whole pushed sequence
    once the queue is empty again. [TryPop] returns the empty optional
    exactly when the queue is empty, and then leaves the queue as it was. *)
Theorem queue_fifo_roundtrip calls q' out :
  ThreadSafeQueue.run calls ThreadSafeQueue.empty_queue = Some (q', out) →
  ThreadSafeQueue.pushed calls = out ++ q'
  ∧ (ThreadSafeQueue.Empty q' = true → out = ThreadSafeQueue.pushed calls)
  ∧ (∀ q, (ThreadSafeQueue.TryPop q).1 = None
               ↔ ThreadSafeQueue.Empty q = true)
  ∧ (∀ q, ThreadSafeQueue.Empty q = true →
               ThreadSafeQueue.TryPop q = (None, q)).
Proof.
  intros Hrun. apply run_conserves in Hrun. simpl in Hrun.
  split; [exact Hrun|]. split.
  - destruct q'; simpl; [|discriminate]. intros _.
    by rewrite Hrun, app_nil_r.
  - split; [apply TryPop_empty_iff | apply TryPop_empty_unchanged].
Qed.

End QueueFacts.

Lemma queue_fifo_roundtrip_witness :
  let calls := [ThreadSafeQueue.CallPush 1%Z; ThreadSafeQueue.CallPush 2%Z;
                ThreadSafeQueue.CallTryPop; ThreadSafeQueue.CallPush 3%Z;
                ThreadSafeQueue.CallPop; ThreadSafeQueue.CallPop;
                ThreadSafeQueue.CallTryPop] in
  ThreadSafeQueue.run calls ThreadSafeQueue.empty_queue
    = Some ([], [1%Z; 2%Z; 3%Z])
  ∧ ThreadSafeQueue.pushed calls = [1%Z; 2%Z; 3%Z] ++ [].
Proof.
  split; [reflexivity|].
  refine (proj1 (queue_fifo_roundtrip
           [ThreadSafeQueue.CallPush 1%Z; ThreadSafeQueue.CallPush 2%Z;
            ThreadSafeQueue.CallTryPop; ThreadSafeQueue.CallPush 3%Z;
            ThreadSafeQueue.CallPop; ThreadSafeQueue.CallPop;
            ThreadSafeQueue.CallTryPop] [] [1%Z; 2%Z; 3%Z] _)).
  reflexivity.
Defined.

(** ** The thread registry, one caller at a time *)

Section RegistryFacts.
Context {Func : Type}.
Context {joins : ThreadManager.Joins}.
Implicit Types (s : ThreadManager.State Func) (n : string).

#[local] Open Scope Z_scope.

Lemma set_mutex_release s :
  ThreadManager.mutex_ s = false →
  ThreadManager.set_mutex false (ThreadManager.set_mutex true s) = s.
Proof. destruct s; simpl; intros ->; reflexivity. Qed.

(** C7. [Initialize(maxThreads)] on a registry that is not initialized
    returns true and sets the cap: to the hardware concurrency, raised to 2
    when that is below 2, for [maxThreads = 0], and to [maxThreads] itself
    for any other argument. On a registry that is already initialized it
    returns false and changes nothing, the cap included. *)
Theorem Initialize_sets_cap (hardware_concurrency maxThreads : Z) s :
  ThreadManager.mutex_ s = false →
  (ThreadManager.initialized_ s = false →
     ThreadManager.Initialize hardware_concurrency maxThreads s
     = ThreadManager.Returned true
         (ThreadManager.set_initialized true
            (ThreadManager.set_maxThreads
               (if decide (maxThreads = 0)
                then (if decide (hardware_concurrency < 2) then 2
                      else hardware_concurrency)
                else maxThreads) s)) [])
  ∧ (ThreadManager.initialized_ s = true →
     ThreadManager.Initialize hardware_concurrency maxThreads s
     = ThreadManager.Returned false s []).
Proof.
  intros Hm. destruct s as [th po mu mx ini ac]; simpl in Hm; subst mu.
  split; simpl; intros ->.
  - unfold ThreadManager.Initialize, ThreadManager.lock_guard; simpl.
    unfold mbind, ThreadManager.M_bind; simpl.
    destruct (decide (maxThreads = 0)) as [->|Hne]; simpl.
    + unfold mbind, ThreadManager.M_bind; simpl.
      destruct (decide (hardware_concurrency < 2)); reflexivity.
    + reflexivity.
  - reflexivity.
Qed.

(** C10. [GetThreadStatus(name)] answers [Stopped] for a name that is not in
    the worker table, and leaves the registry as it was. A registered worker
    whose status is [Stopped] gets the same answer, so the query does not
    tell the two apart. *)
Theorem GetThreadStatus_unknown_is_Stopped n s :
  ThreadManager.mutex_ s = false →
  (ThreadManager.threads_ s !! n = None →
     ThreadManager.GetThreadStatus n s
     = ThreadManager.Returned ThreadManager.Stopped s [])
  ∧ (∀ threadInfo,
       ThreadManager.threads_ s !! n = Some threadInfo →
       ThreadManager.status threadInfo = ThreadManager.Stopped →
       ThreadManager.GetThreadStatus n s
       = ThreadManager.Returned ThreadManager.Stopped s []).
Proof.
  intros Hm.
  unfold ThreadManager.GetThreadStatus, ThreadManager.lock_guard.
  rewrite Hm. unfold mbind, ThreadManager.M_bind; simpl. split.
  - intros ->. simpl. by rewrite set_mutex_release.
  - intros ti -> Hst. simpl. by rewrite Hst, set_mutex_release.
Qed.


(** C4. [CreateThread] returns false on a registry that is not initialized.
    On an initialized registry it takes [mutex_] (line 96) and then calls
    [ThreadExists] (line 103), which takes the same non-recursive mutex
    (line 289): the call never returns, whatever the name, the cap and the
    answer of the platform are. No descriptor is registered and no thread
    is started. *)
Theorem CreateThread_locks_twice n (function : Func)
    (priority : ThreadManager.ThreadPriority) (native_ok : bool) s :
  ThreadManager.mutex_ s = false →
  (ThreadManager.initialized_ s = false →
     ThreadManager.CreateThread n function priority native_ok s
     = ThreadManager.Returned false s [])
  ∧ (ThreadManager.initialized_ s = true →
     ThreadManager.CreateThread n function priority native_ok s
     = ThreadManager.Deadlock).
Proof.
  intros Hm. destruct s as [th po mu mx ini ac]; simpl in Hm; subst mu.
  split; simpl; intros ->; reflexivity.
Qed.

(** [ThreadExists] on its own, called from outside the registry, answers. *)
Lemma ThreadExists_outside n s :
  ThreadManager.mutex_ s = false →
  ThreadManager.ThreadExists n s
  = ThreadManager.Returned
      (bool_decide (is_Some (ThreadManager.threads_ s !! n))) s [].
Proof.
  intros Hm. unfold ThreadManager.ThreadExists, ThreadManager.lock_guard.
  rewrite Hm. unfold mbind, ThreadManager.M_bind; simpl.
  by rewrite set_mutex_release.
Qed.

(** Called while the caller owns [mutex_], it does not. *)
Lemma ThreadExists_inside n s :
  ThreadManager.mutex_ s = true →
  ThreadManager.ThreadExists n s = ThreadManager.Deadlock.
Proof.
  intros Hm. unfold ThreadManager.ThreadExists, ThreadManager.lock_guard.
  by rewrite Hm.
Qed.

(** *** Evaluating the member functions *)

Lemma bind_Returned {A B} (m : ThreadManager.M Func A)
    (k : A → ThreadManager.M Func B) s a s1 tr1 :
  m s = ThreadManager.Returned a s1 tr1 →
  (m ≫= k) s = match k a s1 with
               | ThreadManager.Returned b s2 tr2 =>
                   ThreadManager.Returned b s2 (tr1 ++ tr2)
               | ThreadManager.Deadlock => ThreadManager.Deadlock
               | ThreadManager.Terminate => ThreadManager.Terminate
               end.
Proof. intros H. unfold mbind, ThreadManager.M_bind. by rewrite H. Qed.

Lemma update_thread_eval n f s :
  ThreadManager.update_thread n f s
  = ThreadManager.Returned tt
      (ThreadManager.set_threads (alter f n (ThreadManager.threads_ s)) s) [].
Proof. reflexivity. Qed.

Lemma for_each_emit {X} (l : list X) (f : X → ThreadManager.Event) s :
  ThreadManager.for_each l (λ x, ThreadManager.emit (f x)) s
  = ThreadManager.Returned tt s (f <$> l).
Proof.
  induction l as [|x l IH]; simpl; [reflexivity|].
  unfold mbind, ThreadManager.M_bind. simpl. by rewrite IH.
Qed.

Lemma bind_Deadlock {A B} (m : ThreadManager.M Func A)
    (k : A → ThreadManager.M Func B) s :
  m s = ThreadManager.Deadlock → (m ≫= k) s = ThreadManager.Deadlock.
Proof. intros H. unfold mbind, ThreadManager.M_bind. by rewrite H. Qed.

Lemma stop_writes_self threadInfo :
  Vocabulary.stop_writes threadInfo threadInfo = Vocabulary.stopped threadInfo.
Proof.
  unfold Vocabulary.stop_writes, Vocabulary.stopped.
  destruct threadInfo as [jo na pr st ss ip]; simpl.
  destruct jo; destruct (decide (st = ThreadManager.Paused)); reflexivity.
Qed.

(** The stop sequence: it waits for ever in the join of a thread that does
    not end; otherwise it returns, with the writes and the trace spelled
    out in [Vocabulary]. *)
Lemma stop_and_join_eval n threadInfo s :
  ThreadManager.stop_and_join n threadInfo s
  = if Vocabulary.never_joined n threadInfo then ThreadManager.Deadlock
    else ThreadManager.Returned tt
           (ThreadManager.mkState
              (alter (Vocabulary.stop_writes threadInfo) n
                 (ThreadManager.threads_ s))
              (ThreadManager.threadPools_ s) (ThreadManager.mutex_ s)
              (ThreadManager.maxThreads_ s) (ThreadManager.initialized_ s)
              (Vocabulary.count_after_stop n threadInfo
                 (ThreadManager.activeThreadCount_ s)))
           (Vocabulary.stop_trace n threadInfo).
Proof.
  destruct s as [th po mu mx ini ac].
  unfold ThreadManager.stop_and_join, Vocabulary.stop_writes,
    Vocabulary.stop_trace, Vocabulary.never_joined,
    Vocabulary.count_after_stop, ThreadManager.join.
  destruct (decide (ThreadManager.status threadInfo = ThreadManager.Paused));
    destruct (ThreadManager.joinable threadInfo);
    [destruct (ThreadManager.join_result n) as [|[|]]| |
     destruct (ThreadManager.join_result n) as [|[|]]|];
    unfold mbind, ThreadManager.M_bind; simpl;
    unfold ThreadManager.set_threads; simpl;
    rewrite <- ?alter_alter_eq, ?(alter_id id) by done; reflexivity.
Qed.

(** The loop of [Shutdown] over any list of pairs. *)
Lemma shutdown_loop_eval (l : list (string * ThreadManager.ThreadInfo)) : ∀ s,
  ThreadManager.for_each l (λ pair,
      let threadInfo := pair.2 in
      if decide (ThreadManager.status threadInfo ≠ ThreadManager.Stopped)
      then ThreadManager.stop_and_join pair.1 threadInfo
      else mret tt) s
  = if existsb Vocabulary.shutdown_round_waits l then ThreadManager.Deadlock
    else ThreadManager.Returned tt
           (ThreadManager.mkState
              (Vocabulary.shutdown_rounds l (ThreadManager.threads_ s))
              (ThreadManager.threadPools_ s) (ThreadManager.mutex_ s)
              (ThreadManager.maxThreads_ s) (ThreadManager.initialized_ s)
              (Vocabulary.shutdown_count l (ThreadManager.activeThreadCount_ s)))
           (concat (Vocabulary.shutdown_round_trace <$> l)).
Proof.
  induction l as [|[n ti] l IH]; intros s.
  - destruct s; reflexivity.
  - cbn [ThreadManager.for_each existsb fmap list_fmap concat
         Vocabulary.shutdown_rounds Vocabulary.shutdown_count foldl].
    unfold Vocabulary.shutdown_round_trace at 1.
    unfold Vocabulary.shutdown_round_waits at 1.
    cbn [fst snd].
    destruct (decide (ThreadManager.status ti ≠ ThreadManager.Stopped)) as [Hs|Hs].
    + rewrite bool_decide_eq_true_2 by done. cbn [andb].
      pose proof (stop_and_join_eval n ti s) as Hev.
      destruct (Vocabulary.never_joined n ti).
      * cbn [orb]. by apply bind_Deadlock.
      * cbn [orb]. erewrite bind_Returned by exact Hev. rewrite IH.
        fold (Vocabulary.shutdown_rounds l).
        fold (Vocabulary.shutdown_count l).
        by destruct (existsb _ l).
    + rewrite bool_decide_eq_false_2 by done. cbn [andb orb].
      erewrite bind_Returned by reflexivity. rewrite IH.
      fold (Vocabulary.shutdown_rounds l).
      fold (Vocabulary.shutdown_count l).
      destruct (existsb _ l); [done|]. by destruct s.
Qed.

(** After the loop every descriptor of the table has gone through one
    round, and no name has been added or removed. *)
Lemma shutdown_rounds_lookup (l : list (string * ThreadManager.ThreadInfo)) :
  ∀ (m : gmap string ThreadManager.ThreadInfo) k,
  NoDup l.*1 →
  Vocabulary.shutdown_rounds l m !! k
  = match list_find (λ pair, pair.1 = k) l with
    | Some (_, p) =>
        (if decide (ThreadManager.status p.2 ≠ ThreadManager.Stopped)
         then Vocabulary.stop_writes p.2 else id) <$> m !! k
    | None => m !! k
    end.
Proof.
  induction l as [|[n ti] l IH]; intros m k Hnd; simpl; [reflexivity|].
  apply NoDup_cons in Hnd as [Hn Hnd].
  rewrite IH by done. unfold Vocabulary.shutdown_rounds; simpl.
  destruct (decide (n = k)) as [->|Hne]; simpl.
  - assert (list_find (λ pair : string * ThreadManager.ThreadInfo, pair.1 = k) l
            = None) as ->.
    { apply list_find_None, Forall_forall. intros [k' v] Hin Heq.
      simpl in Heq; subst. apply Hn, list_elem_of_fmap. by exists (k, v). }
    destruct (decide (ThreadManager.status ti ≠ ThreadManager.Stopped)).
    + by rewrite lookup_alter_eq.
    + by destruct (m !! k).
  - destruct (list_find _ l) as [[i p]|]; simpl.
    + destruct (decide (ThreadManager.status ti ≠ ThreadManager.Stopped));
        [by rewrite lookup_alter_ne|done].
    + destruct (decide (ThreadManager.status ti ≠ ThreadManager.Stopped));
        [by rewrite lookup_alter_ne|done].
Qed.

Lemma shutdown_rounds_map (m : gmap string ThreadManager.ThreadInfo) :
  Vocabulary.shutdown_rounds (map_to_list m) m = Vocabulary.shutdown_round_info <$> m.
Proof.
  apply map_eq. intros k.
  rewrite shutdown_rounds_lookup by apply NoDup_fst_map_to_list.
  rewrite lookup_fmap.
  destruct (list_find _ _) as [[i [k' v]]|] eqn:E.
  - apply list_find_Some in E as (Hi & Hk & _). simpl in Hk; subst k'.
    apply list_elem_of_lookup_2, elem_of_map_to_list in Hi. rewrite Hi. simpl.
    unfold Vocabulary.shutdown_round_info.
    destruct (decide (ThreadManager.status v ≠ ThreadManager.Stopped));
      [by rewrite stop_writes_self|done].
  - destruct (m !! k) as [v|] eqn:Hk; [|done].
    exfalso. eapply list_find_None, Forall_forall in E.
    2: { apply elem_of_map_to_list, Hk. }
    by apply E.
Qed.

(** Lines 62-84 of [Shutdown]. *)
Lemma stop_all_eval s :
  ThreadManager.stop_all s
  = if existsb Vocabulary.shutdown_round_waits
         (map_to_list (ThreadManager.threads_ s))
    then ThreadManager.Deadlock
    else ThreadManager.Returned tt
           (ThreadManager.mkState
              (Vocabulary.shutdown_round_info <$> ThreadManager.threads_ s)
              (ThreadManager.threadPools_ s) (ThreadManager.mutex_ s)
              (ThreadManager.maxThreads_ s) (ThreadManager.initialized_ s)
              (Vocabulary.shutdown_count
                 (map_to_list (ThreadManager.threads_ s))
                 (ThreadManager.activeThreadCount_ s)))
           (concat (Vocabulary.shutdown_round_trace
                      <$> map_to_list (ThreadManager.threads_ s))).
Proof.
  unfold ThreadManager.stop_all.
  erewrite bind_Returned by reflexivity.
  rewrite shutdown_loop_eval, shutdown_rounds_map.
  by destruct (existsb _ _).
Qed.

Lemma bind_Terminate {A B} (m : ThreadManager.M Func A)
    (k : A → ThreadManager.M Func B) s :
  m s = ThreadManager.Terminate → (m ≫= k) s = ThreadManager.Terminate.
Proof. intros H. unfold mbind, ThreadManager.M_bind. by rewrite H. Qed.

Lemma clear_threads_eval s :
  ThreadManager.clear_threads s
  = if existsb (λ p, ThreadManager.joinable p.2)
         (map_to_list (ThreadManager.threads_ s))
    then ThreadManager.Terminate
    else ThreadManager.Returned tt (ThreadManager.set_threads ∅ s)
           ((λ p, ThreadManager.EvDrop p.1)
              <$> map_to_list (ThreadManager.threads_ s)).
Proof.
  unfold ThreadManager.clear_threads.
  erewrite bind_Returned by reflexivity.
  destruct (existsb _ _); [reflexivity|].
  erewrite bind_Returned by apply for_each_emit.
  simpl. by rewrite app_nil_r.
Qed.

Lemma clear_threadPools_eval s :
  ThreadManager.clear_threadPools s
  = ThreadManager.Returned tt (ThreadManager.set_threadPools ∅ s)
      ((λ p, ThreadManager.EvDropPool p.1)
         <$> map_to_list (ThreadManager.threadPools_ s)).
Proof.
  unfold ThreadManager.clear_threadPools.
  erewrite bind_Returned by reflexivity.
  erewrite bind_Returned by apply for_each_emit.
  simpl. by rewrite app_nil_r.
Qed.

(** [Shutdown] on an initialized registry, called from outside. *)
Lemma Shutdown_eval s :
  ThreadManager.mutex_ s = false →
  ThreadManager.initialized_ s = true →
  ThreadManager.Shutdown s
  = if existsb Vocabulary.shutdown_round_waits
         (map_to_list (ThreadManager.threads_ s))
    then ThreadManager.Deadlock
    else if existsb (λ p, ThreadManager.joinable p.2)
              (map_to_list (Vocabulary.shutdown_round_info
                              <$> ThreadManager.threads_ s))
    then ThreadManager.Terminate
    else ThreadManager.Returned tt
           (ThreadManager.mkState ∅ ∅ false (ThreadManager.maxThreads_ s) false 0)
           (concat (Vocabulary.shutdown_round_trace
                      <$> map_to_list (ThreadManager.threads_ s))
            ++ ((λ p, ThreadManager.EvDrop p.1)
                  <$> map_to_list (Vocabulary.shutdown_round_info
                                     <$> ThreadManager.threads_ s))
            ++ ((λ p, ThreadManager.EvDropPool p.1)
                  <$> map_to_list (ThreadManager.threadPools_ s))).
Proof.
  intros Hm Hi. destruct s as [th po mu mx ini ac]; simpl in *; subst.
  unfold ThreadManager.Shutdown, ThreadManager.lock_guard; simpl.
  erewrite bind_Returned by reflexivity. simpl.
  match goal with
  | |- context [(ThreadManager.stop_all ≫= ?k) ?s0] =>
      pose proof (stop_all_eval s0) as Hl; simpl in Hl;
      destruct (existsb Vocabulary.shutdown_round_waits _);
      [ rewrite (bind_Deadlock _ k s0 Hl); reflexivity
      | rewrite (bind_Returned _ k s0 _ _ _ Hl) ]
  end.
  match goal with
  | |- context [(ThreadManager.clear_threads ≫= ?k) ?s1] =>
      pose proof (clear_threads_eval s1) as Hc; simpl in Hc;
      destruct (existsb _ _) eqn:Hex;
      [ rewrite (bind_Terminate _ k s1 Hc); reflexivity
      | rewrite (bind_Returned _ k s1 _ _ _ Hc) ]
  end.
  erewrite bind_Returned by apply clear_threadPools_eval. simpl.
  by rewrite app_nil_r.
Qed.

Lemma Shutdown_uninitialized s :
  ThreadManager.mutex_ s = false →
  ThreadManager.initialized_ s = false →
  ThreadManager.Shutdown s = ThreadManager.Returned tt s [].
Proof.
  intros Hm Hi. destruct s as [th po mu mx ini ac]; simpl in *; subst.
  reflexivity.
Qed.

Lemma EvDrop_not_in_round n (pair : string * ThreadManager.ThreadInfo) :
  ThreadManager.EvDrop n ∉ Vocabulary.shutdown_round_trace pair.
Proof.
  unfold Vocabulary.shutdown_round_trace, Vocabulary.stop_trace.
  destruct (decide (ThreadManager.status pair.2 ≠ ThreadManager.Stopped));
    [|apply not_elem_of_nil].
  destruct (decide (ThreadManager.status pair.2 = ThreadManager.Paused));
    destruct (ThreadManager.joinable pair.2); simpl;
    rewrite ?elem_of_cons, elem_of_nil; intros H;
    repeat (destruct H as [H|H]; [discriminate|]); exact H.
Qed.

Lemma EvDrop_not_in_rounds n (l : list (string * ThreadManager.ThreadInfo)) :
  ThreadManager.EvDrop n ∉ concat (Vocabulary.shutdown_round_trace <$> l).
Proof.
  induction l as [|p l IH]; simpl; [apply not_elem_of_nil|].
  rewrite elem_of_app. intros [H|H]; [by apply EvDrop_not_in_round in H|done].
Qed.

(** No round of the loop waits for ever exactly when every thread that the
    loop joins ends. *)
Lemma no_round_waits (m : gmap string ThreadManager.ThreadInfo) :
  existsb Vocabulary.shutdown_round_waits (map_to_list m) = false
  ↔ ∀ n threadInfo,
      m !! n = Some threadInfo →
      ThreadManager.status threadInfo ≠ ThreadManager.Stopped →
      ThreadManager.joinable threadInfo = true →
      ThreadManager.join_result n ≠ ThreadManager.NeverEnds.
Proof.
  split.
  - intros Hex n ti Hn Hst Hjo Hnever.
    apply not_true_iff_false in Hex. apply Hex, existsb_exists.
    exists (n, ti). split; [by apply list_elem_of_In, elem_of_map_to_list|].
    unfold Vocabulary.shutdown_round_waits, Vocabulary.never_joined. simpl.
    by rewrite bool_decide_eq_true_2, Hjo, Hnever.
  - intros H. apply not_true_iff_false. intros Hex.
    apply existsb_exists in Hex as ([n ti] & Hin & Hw).
    apply list_elem_of_In, elem_of_map_to_list in Hin.
    unfold Vocabulary.shutdown_round_waits, Vocabulary.never_joined in Hw.
    simpl in Hw. apply andb_true_iff in Hw as [Hst Hw].
    apply andb_true_iff in Hw as [Hjo Hw]. apply bool_decide_eq_true_1 in Hst.
    apply (H n ti Hin Hst Hjo).
    by destruct (ThreadManager.join_result n).
Qed.

(** No descriptor is destroyed with a joinable thread exactly when every
    descriptor that is already [Stopped] has had its thread joined. *)
Lemma no_thread_left (m : gmap string ThreadManager.ThreadInfo) :
  existsb (λ p : string * ThreadManager.ThreadInfo, ThreadManager.joinable p.2)
    (map_to_list (Vocabulary.shutdown_round_info <$> m)) = false
  ↔ ∀ n threadInfo,
      m !! n = Some threadInfo →
      ThreadManager.status threadInfo = ThreadManager.Stopped →
      ThreadManager.joinable threadInfo = false.
Proof.
  split.
  - intros Hex n ti Hn Hst. apply not_true_iff_false. intros Hjo.
    apply not_true_iff_false in Hex. apply Hex, existsb_exists.
    exists (n, ti). split; [|done].
    apply list_elem_of_In, elem_of_map_to_list. rewrite lookup_fmap, Hn. simpl.
    unfold Vocabulary.shutdown_round_info.
    by rewrite decide_False by (intros H; by apply H).
  - intros H. apply not_true_iff_false. intros Hex.
    apply existsb_exists in Hex as ([n ti'] & Hin & Hjo).
    apply list_elem_of_In, elem_of_map_to_list in Hin.
    rewrite lookup_fmap in Hin.
    destruct (m !! n) as [ti|] eqn:Hn; [|done].
    simpl in Hin. injection Hin as <-. simpl in Hjo.
    unfold Vocabulary.shutdown_round_info in Hjo.
    destruct (decide (ThreadManager.status ti ≠ ThreadManager.Stopped)) as [Hs|Hs].
    + done.
    + apply dec_stable in Hs. rewrite (H n ti Hn Hs) in Hjo. done.
Qed.

(** C5. When [Shutdown] returns on an initialized registry, the worker table
    and the pool table are empty, [activeThreadCount_] is 0 and the registry
    is no longer initialized. Before anything is dropped, the loop of lines
    62-84 has run under the lock, and it has left every worker that was not
    already [Stopped] with its stop flag set, its pause flag cleared if its
    status was [Paused], its thread joined and its status [Stopped]; a
    thread that was joinable has ended. For each such worker the trace of
    the loop contains, in this order: the store of its stop flag; if its
    status was [Paused], the clearing of its pause flag and the signal on
    its condition variable; the join of its thread if it was joinable; the
    store of [Stopped]. The descriptor is dropped afterwards, not during the
    loop.

    Called with the mutex free, [Shutdown] returns exactly when every
    joinable thread of the table belongs to a worker that is not [Stopped]
    and ends when it is joined: it waits for ever in the join of a thread
    that does not end, and a joinable thread of a worker that is already
    [Stopped] is destroyed without a join. *)
Theorem Shutdown_stops_joins_then_clears s :
  ThreadManager.initialized_ s = true →
  (∀ s' tr,
     ThreadManager.Shutdown s = ThreadManager.Returned tt s' tr →
     s' = ThreadManager.mkState ∅ ∅ false (ThreadManager.maxThreads_ s) false 0
     ∧ ∃ table count pre post,
         ThreadManager.stop_all (ThreadManager.set_mutex true s)
         = ThreadManager.Returned tt
             (ThreadManager.mkState table (ThreadManager.threadPools_ s) true
                (ThreadManager.maxThreads_ s) true count) pre
         ∧ tr = pre ++ post
         ∧ ∀ n threadInfo,
             ThreadManager.threads_ s !! n = Some threadInfo →
             ThreadManager.status threadInfo ≠ ThreadManager.Stopped →
             table !! n
             = Some (ThreadManager.mkThreadInfo false
                       (ThreadManager.name threadInfo)
                       (ThreadManager.priority threadInfo)
                       ThreadManager.Stopped true
                       (if decide (ThreadManager.status threadInfo
                                   = ThreadManager.Paused)
                        then false else ThreadManager.isPaused threadInfo))
             ∧ (ThreadManager.joinable threadInfo = true →
                ∃ counted,
                  ThreadManager.join_result n = ThreadManager.Ends counted)
             ∧ (∃ before after,
                  pre = before
                        ++ ([ThreadManager.EvStoreStop n]
                            ++ (if decide (ThreadManager.status threadInfo
                                           = ThreadManager.Paused)
                                then [ThreadManager.EvSetPause n false;
                                      ThreadManager.EvNotify n]
                                else [])
                            ++ (if ThreadManager.joinable threadInfo
                                then [ThreadManager.EvJoin n] else [])
                            ++ [ThreadManager.EvStoreStatus n ThreadManager.Stopped])
                        ++ after)
             ∧ (ThreadManager.EvDrop n ∉ pre)
             ∧ (ThreadManager.EvDrop n ∈ post))
  ∧ (ThreadManager.mutex_ s = false →
     (∃ s' tr, ThreadManager.Shutdown s = ThreadManager.Returned tt s' tr)
     ↔ ∀ n threadInfo,
         ThreadManager.threads_ s !! n = Some threadInfo →
         ThreadManager.joinable threadInfo = true →
         ThreadManager.status threadInfo ≠ ThreadManager.Stopped
         ∧ ThreadManager.join_result n ≠ ThreadManager.NeverEnds).
Proof.
  intros Hi. split.
  - intros s' tr Hret.
    destruct (ThreadManager.mutex_ s) eqn:Hm.
    { unfold ThreadManager.Shutdown, ThreadManager.lock_guard in Hret.
      by rewrite Hm in Hret. }
    rewrite Shutdown_eval in Hret by done.
    destruct (existsb Vocabulary.shutdown_round_waits _) eqn:Hwait;
      [discriminate|].
    match type of Hret with
    | context [if ?b then ThreadManager.Terminate else _] =>
        destruct b; [discriminate|]
    end.
    injection Hret as <- <-. split; [reflexivity|].
    exists (Vocabulary.shutdown_round_info <$> ThreadManager.threads_ s),
      (Vocabulary.shutdown_count (map_to_list (ThreadManager.threads_ s))
         (ThreadManager.activeThreadCount_ s)).
    eexists _, _. split; [|split; [reflexivity|]].
    { rewrite stop_all_eval. destruct s; simpl in *. rewrite Hwait, Hi.
      reflexivity. }
    intros n ti Hn Hst. split; [|split; [|split; [|split]]].
    + rewrite lookup_fmap, Hn. simpl. unfold Vocabulary.shutdown_round_info.
      by rewrite decide_True.
    + intros Hjo. pose proof (proj1 (no_round_waits _) Hwait n ti Hn Hst Hjo).
      destruct (ThreadManager.join_result n) as [|counted]; [done|by eexists].
    + apply elem_of_map_to_list, list_elem_of_split in Hn as (l1 & l2 & Hl).
      rewrite Hl, fmap_app, concat_app. simpl.
      exists (concat (Vocabulary.shutdown_round_trace <$> l1)). eexists.
      f_equal. unfold Vocabulary.shutdown_round_trace at 1; simpl.
      rewrite decide_True by done. unfold Vocabulary.stop_trace.
      rewrite <- !app_assoc. reflexivity.
    + apply EvDrop_not_in_rounds.
    + rewrite !elem_of_app. left.
      apply list_elem_of_fmap.
      exists (n, Vocabulary.shutdown_round_info ti). split; [done|].
      apply elem_of_map_to_list. by rewrite lookup_fmap, Hn.
  - intros Hm. rewrite Shutdown_eval by done. split.
    + intros (s' & tr & Hret) n ti Hn Hjo.
      destruct (existsb Vocabulary.shutdown_round_waits _) eqn:Hwait;
        [discriminate|].
      match type of Hret with
      | context [if ?b then ThreadManager.Terminate else _] =>
          destruct b eqn:Hleft; [discriminate|]
      end.
      assert (ThreadManager.status ti ≠ ThreadManager.Stopped) as Hst.
      { intros Hst.
        pose proof (proj1 (no_thread_left _) Hleft n ti Hn Hst). congruence. }
      split; [done|]. by apply (proj1 (no_round_waits _) Hwait n ti).
    + intros H.
      assert (existsb Vocabulary.shutdown_round_waits
                (map_to_list (ThreadManager.threads_ s)) = false) as ->.
      { apply no_round_waits. intros n ti Hn _ Hjo. by apply (H n ti). }
      assert (existsb (λ p : string * ThreadManager.ThreadInfo,
                         ThreadManager.joinable p.2)
                (map_to_list (Vocabulary.shutdown_round_info
                                <$> ThreadManager.threads_ s)) = false) as ->.
      { apply no_thread_left. intros n ti Hn Hst.
        apply not_true_iff_false. intros Hjo.
        by destruct (H n ti Hn Hjo). }
      eauto.
Qed.

End RegistryFacts.

Lemma Initialize_sets_cap_witness :
  ThreadManager.Initialize (Func := unit) 1 0 ThreadManager.constructed
  = ThreadManager.Returned true
      (ThreadManager.mkState ∅ ∅ false 2 true 0) []
  ∧ ThreadManager.Initialize (Func := unit) 8 0 ThreadManager.constructed
  = ThreadManager.Returned true
      (ThreadManager.mkState ∅ ∅ false 8 true 0) []
  ∧ ThreadManager.Initialize (Func := unit) 8 3 ThreadManager.constructed
  = ThreadManager.Returned true
      (ThreadManager.mkState ∅ ∅ false 3 true 0) []
  ∧ ThreadManager.Initialize (Func := unit) 8 5
      (ThreadManager.mkState ∅ ∅ false 3 true 0)
  = ThreadManager.Returned false
      (ThreadManager.mkState ∅ ∅ false 3 true 0) [].
Proof.
  split; [|split; [|split]].
  - apply (proj1 (Initialize_sets_cap (Func := unit) 1 0
                    ThreadManager.constructed eq_refl) eq_refl).
  - apply (proj1 (Initialize_sets_cap (Func := unit) 8 0
                    ThreadManager.constructed eq_refl) eq_refl).
  - apply (proj1 (Initialize_sets_cap (Func := unit) 8 3
                    ThreadManager.constructed eq_refl) eq_refl).
  - apply (proj2 (Initialize_sets_cap (Func := unit) 8 5
                    (ThreadManager.mkState ∅ ∅ false 3 true 0) eq_refl) eq_refl).
Defined.

Lemma GetThreadStatus_unknown_is_Stopped_witness :
  ThreadManager.GetThreadStatus (Func := unit) "Physics"
    Samples.fresh_registry
  = ThreadManager.Returned ThreadManager.Stopped
      Samples.fresh_registry [].
Proof.
  apply (proj1 (GetThreadStatus_unknown_is_Stopped (Func := unit) "Physics"
                  Samples.fresh_registry eq_refl)).
  reflexivity.
Defined.

Lemma CreateThread_locks_twice_witness :
  ThreadManager.CreateThread "Physics" tt ThreadManager.High true
    Samples.fresh_registry
  = ThreadManager.Deadlock
  ∧ ThreadManager.CreateThread "Physics" tt ThreadManager.High true
      ThreadManager.constructed
    = ThreadManager.Returned false ThreadManager.constructed [].
Proof.
  split.
  - apply (proj2 (CreateThread_locks_twice "Physics" tt ThreadManager.High true
                    Samples.fresh_registry eq_refl) eq_refl).
  - apply (proj1 (CreateThread_locks_twice "Physics" tt ThreadManager.High true
                    ThreadManager.constructed eq_refl) eq_refl).
Defined.

Lemma Shutdown_stops_joins_then_clears_witness :
  ThreadManager.Shutdown Samples.busy_registry
  = ThreadManager.Returned tt
      (ThreadManager.mkState ∅ ∅ false 4 false 0)
      Samples.busy_registry_shutdown_trace
  ∧ ∃ table count pre post,
      ThreadManager.stop_all
        (ThreadManager.set_mutex true Samples.busy_registry)
      = ThreadManager.Returned tt
          (ThreadManager.mkState table ∅ true 4 true count) pre
      ∧ Samples.busy_registry_shutdown_trace = pre ++ post
      ∧ table !! "Physics"
        = Some (ThreadManager.mkThreadInfo false "Physics" ThreadManager.High
                  ThreadManager.Stopped true false)
      ∧ (∃ before after,
           pre = before
                 ++ [ThreadManager.EvStoreStop "Physics";
                     ThreadManager.EvSetPause "Physics" false;
                     ThreadManager.EvNotify "Physics";
                     ThreadManager.EvJoin "Physics";
                     ThreadManager.EvStoreStatus "Physics" ThreadManager.Stopped]
                 ++ after)
      ∧ (ThreadManager.EvDrop "Physics" ∉ pre)
      ∧ (ThreadManager.EvDrop "Physics" ∈ post).
Proof.
  assert (ThreadManager.Shutdown Samples.busy_registry
          = ThreadManager.Returned tt
              (ThreadManager.mkState ∅ ∅ false 4 false 0)
              Samples.busy_registry_shutdown_trace) as Hrun
    by (vm_compute; reflexivity).
  split; [exact Hrun|].
  destruct (proj1 (Shutdown_stops_joins_then_clears Samples.busy_registry
                     eq_refl) _ _ Hrun)
    as (_ & table & count & pre & post & Hloop & Htr & Hw).
  exists table, count, pre, post. split; [exact Hloop|]. split; [exact Htr|].
  destruct (Hw "Physics"
              (ThreadManager.mkThreadInfo true "Physics" ThreadManager.High
                 ThreadManager.Paused false true))
    as (Htable & _ & Hseq & Hpre & Hpost).
  - vm_compute; reflexivity.
  - discriminate.
  - repeat split; assumption.
Defined.

(** ** The engine runtime *)

Section EngineFacts.
Context {Callback : Type} (invoke : Callback → GameEngine.Engine Callback →
                                   GameEngine.Engine Callback).
Implicit Types (e : GameEngine.Engine Callback) (state : GameEngine.GameState).

(** C6. [SetGameState(s)] with [s] equal to the current state changes
    nothing and runs no callback. With any other [s] it stores [s] in the
    state cell, leaving every other member as it was, and then, if a
    callback is registered for [s], runs that callback, once, before it
    returns: the callback runs on the engine that already holds [s], and the
    engine that the call returns is the one the callback left. With no
    callback registered for [s] the call only stores. The callback run is
    the one last registered for [s]. *)
Theorem SetGameState_fires_callback_once state e :
  let stored callbacks :=
    GameEngine.mkEngine state callbacks (GameEngine.lastFrameTime_ e)
      (GameEngine.deltaTime_ e) (GameEngine.fixedTimeStep_ e)
      (GameEngine.accumulator_ e) (GameEngine.frameRateUpdateTimer_ e)
      (GameEngine.frameCount_ e) (GameEngine.currentFrameRate_ e)
      (GameEngine.exitRequested_ e) (GameEngine.exitCode_ e) in
  (state = GameEngine.gameState_ e →
     GameEngine.SetGameState invoke state e = (e, []))
  ∧ (state ≠ GameEngine.gameState_ e →
     GameEngine.SetGameState invoke state e
     = match GameEngine.stateCallbacks_ e !! state with
       | Some callback =>
           (invoke callback (stored (GameEngine.stateCallbacks_ e)),
            [GameEngine.EvStoreState state; GameEngine.EvCallback state callback])
       | None =>
           (stored (GameEngine.stateCallbacks_ e), [GameEngine.EvStoreState state])
       end)
  ∧ (∀ callback,
       state ≠ GameEngine.gameState_ e →
       GameEngine.SetGameState invoke state
         (GameEngine.RegisterStateCallback state callback e)
       = (invoke callback
            (stored (<[state := callback]> (GameEngine.stateCallbacks_ e))),
          [GameEngine.EvStoreState state; GameEngine.EvCallback state callback])).
Proof.
  intros stored. unfold GameEngine.SetGameState. split; [|split].
  - intros ->. by rewrite decide_True.
  - intros Hne. rewrite decide_False by congruence. reflexivity.
  - intros cb Hne. simpl. rewrite decide_False by congruence.
    by rewrite lookup_insert_eq.
Qed.

(** *** Seconds *)

#[local] Open Scope Q_scope.

Lemma Qltb_lt (a b : Q) : GameEngine.Qltb a b = true ↔ a < b.
Proof.
  unfold GameEngine.Qltb. rewrite negb_true_iff. split.
  - intros H. apply Qnot_le_lt. intros Hle.
    apply Qle_bool_iff in Hle. congruence.
  - intros H. destruct (Qle_bool b a) eqn:E; [|reflexivity].
    apply Qle_bool_iff in E. exfalso. exact (Qlt_not_le _ _ H E).
Qed.

Lemma Qltb_ge (a b : Q) : GameEngine.Qltb a b = false ↔ b <= a.
Proof.
  unfold GameEngine.Qltb. rewrite negb_false_iff. apply Qle_bool_iff.
Qed.

Lemma clamp_le_MAX elapsed :
  LoopVocabulary.clamp elapsed <= GameEngine.MAX_TIMESTEP.
Proof.
  unfold LoopVocabulary.clamp.
  destruct (GameEngine.Qltb _ _) eqn:E; [apply Qle_refl|].
  by apply Qltb_ge in E.
Qed.

Lemma clamp_nonneg elapsed : 0 <= elapsed → 0 <= LoopVocabulary.clamp elapsed.
Proof.
  intros H. unfold LoopVocabulary.clamp.
  destruct (GameEngine.Qltb _ _); [discriminate|exact H].
Qed.

(** [SetFixedTimeStep] keeps the fixed step at one millisecond or more. *)
Lemma SetFixedTimeStep_floor timeStep e :
  (1 # 1000) <= GameEngine.fixedTimeStep_ (GameEngine.SetFixedTimeStep timeStep e).
Proof.
  unfold GameEngine.SetFixedTimeStep, GameEngine.std_max. simpl.
  destruct (GameEngine.Qltb _ _) eqn:E; [|apply Qle_refl].
  apply Qltb_lt in E. by apply Qlt_le_weak.
Qed.

(** The integer part is pinned down by the unit interval it lies in. *)
Lemma Qfloor_unique (x : Q) (k : Z) :
  inject_Z k <= x → x < inject_Z (k + 1) → Qfloor x = k.
Proof.
  intros Hlo Hhi.
  apply Qfloor_resp_le in Hlo. rewrite Qfloor_Z in Hlo.
  assert (Qfloor x < k + 1)%Z; [|lia].
  rewrite Zlt_Qlt. eapply Qle_lt_trans; [apply Qfloor_le|exact Hhi].
Qed.


(** *** One iteration of the loop *)

Lemma measure_frame_fields currentTime e :
  let e1 := GameEngine.measure_frame currentTime e in
  GameEngine.deltaTime_ e1
    = LoopVocabulary.clamp (currentTime - GameEngine.lastFrameTime_ e)
  ∧ GameEngine.lastFrameTime_ e1 = currentTime
  ∧ GameEngine.accumulator_ e1 = GameEngine.accumulator_ e
  ∧ GameEngine.fixedTimeStep_ e1 = GameEngine.fixedTimeStep_ e
  ∧ GameEngine.exitRequested_ e1 = GameEngine.exitRequested_ e
  ∧ GameEngine.exitCode_ e1 = GameEngine.exitCode_ e
  ∧ GameEngine.gameState_ e1 = GameEngine.gameState_ e.
Proof.
  unfold GameEngine.measure_frame, LoopVocabulary.clamp. simpl.
  destruct (GameEngine.Qltb _ _); simpl;
    destruct (Qle_bool _ _); simpl; done.
Qed.

Lemma FixedUpdate_eval fixedDeltaTime e :
  GameEngine.FixedUpdate fixedDeltaTime e
  = (e, [GameEngine.EvFixedUpdate fixedDeltaTime]).
Proof. unfold GameEngine.FixedUpdate. by case_decide. Qed.

Lemma Update_eval deltaTime e :
  GameEngine.Update deltaTime e = (e, [GameEngine.EvUpdate deltaTime]).
Proof. unfold GameEngine.Update. by destruct (GameEngine.gameState_ e). Qed.

Lemma Render_eval e : GameEngine.Render e = (e, [GameEngine.EvRender]).
Proof. unfold GameEngine.Render. by case_decide. Qed.

Lemma ProcessInput_eval e :
  GameEngine.ProcessInput e = (e, [GameEngine.EvProcessInput]).
Proof. unfold GameEngine.ProcessInput. by case_decide. Qed.

(** The fixed-step loop only moves the accumulator; it issues one
    [FixedUpdate(fixedTimeStep_)] per subtraction and stops below the step. *)
Lemma fixed_loop_spec fuel : ∀ e e' tr,
  GameEngine.fixed_loop fuel e = Some (e', tr) →
  e' = GameEngine.set_accumulator (GameEngine.accumulator_ e') e
  ∧ tr = replicate (length tr) (GameEngine.EvFixedUpdate (GameEngine.fixedTimeStep_ e))
  ∧ GameEngine.accumulator_ e'
    == GameEngine.accumulator_ e
       - inject_Z (Z.of_nat (length tr)) * GameEngine.fixedTimeStep_ e
  ∧ GameEngine.accumulator_ e' < GameEngine.fixedTimeStep_ e
  ∧ (0 <= GameEngine.fixedTimeStep_ e → 0 <= GameEngine.accumulator_ e →
     0 <= GameEngine.accumulator_ e').
Proof.
  induction fuel as [|fuel IH]; intros e e' tr H;
    cbn [GameEngine.fixed_loop] in H; [discriminate|].
  destruct (Qle_bool _ _) eqn:E.
  - rewrite FixedUpdate_eval in H.
    destruct (GameEngine.fixed_loop fuel _) as [[e3 tr3]|] eqn:E3; [|discriminate].
    injection H as <- <-. apply IH in E3 as (He & Htr & Hacc & Hlt & Hnn).
    apply Qle_bool_iff in E. simpl in *.
    split; [|split; [|split; [|split]]].
    + rewrite He at 1. by destruct e.
    + by rewrite <- Htr.
    + rewrite Hacc. rewrite Nat2Z.inj_succ, <- Z.add_1_r, inject_Z_plus.
      change (inject_Z 1) with 1.
      generalize (inject_Z (Z.of_nat (length tr3))). intros x. lra.
    + exact Hlt.
    + intros H0 _. apply Hnn; [done|]. lra.
  - injection H as <- <-.
    assert (GameEngine.accumulator_ e < GameEngine.fixedTimeStep_ e) as Hlt.
    { apply Qltb_lt. unfold GameEngine.Qltb. by rewrite E. }
    split; [by destruct e|]. split; [done|].
    split; [|split; [exact Hlt|done]].
    change (inject_Z (Z.of_nat (length []))) with 0. lra.
Qed.

Lemma fixed_loop_S fuel e :
  GameEngine.fixed_loop (S fuel) e
  = if Qle_bool (GameEngine.fixedTimeStep_ e) (GameEngine.accumulator_ e)
    then match GameEngine.fixed_loop fuel
                 (GameEngine.set_accumulator
                    (GameEngine.accumulator_ e - GameEngine.fixedTimeStep_ e) e) with
         | Some (e3, tr3) =>
             Some (e3, GameEngine.EvFixedUpdate (GameEngine.fixedTimeStep_ e) :: tr3)
         | None => None
         end
    else Some (e, []).
Proof.
  cbn [GameEngine.fixed_loop]. rewrite FixedUpdate_eval.
  destruct (Qle_bool _ _); [|reflexivity].
  by destruct (GameEngine.fixed_loop fuel _) as [[e3 tr3]|].
Qed.

Lemma fixed_loop_mono fuel : ∀ e r fuel',
  GameEngine.fixed_loop fuel e = Some r → (fuel ≤ fuel')%nat →
  GameEngine.fixed_loop fuel' e = Some r.
Proof.
  induction fuel as [|fuel IH]; intros e r fuel' H Hle;
    cbn [GameEngine.fixed_loop] in H; [discriminate|].
  destruct fuel' as [|fuel']; [lia|]. cbn [GameEngine.fixed_loop].
  destruct (Qle_bool _ _); [|exact H].
  destruct (GameEngine.FixedUpdate _ e) as [e1 tr1].
  destruct (GameEngine.fixed_loop fuel _) as [[e3 tr3]|] eqn:E3; [|discriminate].
  rewrite (IH _ _ fuel' E3) by lia. exact H.
Qed.

Lemma Qfloor_pred (x : Q) : Qfloor (x - 1) = (Qfloor x - 1)%Z.
Proof.
  apply Qfloor_unique.
  - unfold Zminus. rewrite inject_Z_plus, inject_Z_opp.
    change (inject_Z 1) with 1.
    pose proof (Qfloor_le x). generalize dependent (inject_Z (Qfloor x)).
    intros y Hy. lra.
  - replace (Qfloor x - 1 + 1)%Z with (Qfloor x) by lia.
    pose proof (Qlt_floor x) as H. rewrite inject_Z_plus in H.
    change (inject_Z 1) with 1 in H. generalize dependent (inject_Z (Qfloor x)).
    intros y Hy. lra.
Qed.

(** With a positive fixed step the fixed-step loop ends: every subtraction
    lowers the integer part of [accumulator_ / fixedTimeStep_] by one. *)
Lemma fixed_loop_terminates_within (n : nat) : ∀ e,
  0 < GameEngine.fixedTimeStep_ e →
  (Qfloor (GameEngine.accumulator_ e / GameEngine.fixedTimeStep_ e) < Z.of_nat n)%Z →
  ∃ r, GameEngine.fixed_loop (S n) e = Some r.
Proof.
  induction n as [|n IH]; intros e Hfs Hfl; rewrite fixed_loop_S;
    destruct (Qle_bool _ _) eqn:E; try by eexists.
  - exfalso. apply Qle_bool_iff in E.
    assert (1 <= GameEngine.accumulator_ e / GameEngine.fixedTimeStep_ e) as H1.
    { apply Qle_shift_div_l; [done|]. lra. }
    apply Qfloor_resp_le in H1. change (Qfloor 1) with 1%Z in H1. lia.
  - destruct (IH (GameEngine.set_accumulator
                    (GameEngine.accumulator_ e - GameEngine.fixedTimeStep_ e) e))
      as [[e3 tr3] Hr].
    + by destruct e.
    + assert (GameEngine.accumulator_
                (GameEngine.set_accumulator
                   (GameEngine.accumulator_ e - GameEngine.fixedTimeStep_ e) e)
              / GameEngine.fixedTimeStep_
                  (GameEngine.set_accumulator
                     (GameEngine.accumulator_ e - GameEngine.fixedTimeStep_ e) e)
              == GameEngine.accumulator_ e / GameEngine.fixedTimeStep_ e - 1) as ->.
      { destruct e; simpl in *. field. intros H0. rewrite H0 in Hfs.
        by apply Qlt_irrefl in Hfs. }
      rewrite Qfloor_pred. lia.
    + rewrite Hr. by eexists.
Qed.

Lemma fixed_loop_terminates e :
  0 < GameEngine.fixedTimeStep_ e →
  ∃ fuel0 r, ∀ fuel, (fuel0 ≤ fuel)%nat → GameEngine.fixed_loop fuel e = Some r.
Proof.
  intros Hfs.
  set (n := Z.to_nat
              (Qfloor (GameEngine.accumulator_ e / GameEngine.fixedTimeStep_ e) + 1)).
  destruct (fixed_loop_terminates_within n e Hfs) as [r Hr]; [lia|].
  exists (S n), r. intros fuel Hle. by eapply fixed_loop_mono.
Qed.

(** One iteration: what it issues and what it leaves in the engine. *)
Lemma loop_body_spec fuel currentTime e e' tr :
  GameEngine.loop_body fuel currentTime e = Some (e', tr) →
  let deltaTime :=
    LoopVocabulary.clamp (currentTime - GameEngine.lastFrameTime_ e) in
  ∃ ticks : nat,
    tr = [GameEngine.EvProcessInput]
         ++ replicate ticks (GameEngine.EvFixedUpdate (GameEngine.fixedTimeStep_ e))
         ++ [GameEngine.EvUpdate deltaTime; GameEngine.EvRender]
         ++ (if GameEngine.Qltb deltaTime (1 # 1000)
             then [GameEngine.EvSleep] else [])
    ∧ GameEngine.accumulator_ e'
      == GameEngine.accumulator_ e + deltaTime
         - inject_Z (Z.of_nat ticks) * GameEngine.fixedTimeStep_ e
    ∧ GameEngine.accumulator_ e' < GameEngine.fixedTimeStep_ e
    ∧ (0 <= GameEngine.fixedTimeStep_ e →
       0 <= GameEngine.accumulator_ e + deltaTime →
       0 <= GameEngine.accumulator_ e')
    ∧ GameEngine.fixedTimeStep_ e' = GameEngine.fixedTimeStep_ e
    ∧ GameEngine.lastFrameTime_ e' = currentTime
    ∧ GameEngine.exitRequested_ e' = GameEngine.exitRequested_ e
    ∧ GameEngine.exitCode_ e' = GameEngine.exitCode_ e
    ∧ GameEngine.gameState_ e' = GameEngine.gameState_ e.
Proof.
  unfold GameEngine.loop_body. rewrite ProcessInput_eval.
  destruct (measure_frame_fields currentTime e)
    as (Hd & Hl & Ha & Hf & Hx & Hc & Hg).
  set (e1 := GameEngine.measure_frame currentTime e) in *.
  destruct (GameEngine.fixed_loop fuel _) as [[e2 tr2]|] eqn:E2; [|discriminate].
  rewrite Update_eval, Render_eval. intros H. injection H as <- <-.
  apply fixed_loop_spec in E2 as (He2 & Htr & Hacc & Hlt & Hnn).
  simpl in *. exists (length tr2).
  assert (GameEngine.deltaTime_ e2 = GameEngine.deltaTime_ e1) as Hd2
    by (rewrite He2; by destruct e1).
  rewrite Hd2, Hd, Hf in *. rewrite Ha in *.
  split; [by rewrite <- Htr|].
  split; [exact Hacc|]. split; [exact Hlt|]. split; [exact Hnn|].
  rewrite He2. destruct e1; simpl in *. done.
Qed.

Lemma loop_body_terminates currentTime e :
  0 < GameEngine.fixedTimeStep_ e →
  ∃ fuel0 r, ∀ fuel, (fuel0 ≤ fuel)%nat →
    GameEngine.loop_body fuel currentTime e = Some r.
Proof.
  intros Hfs. unfold GameEngine.loop_body. rewrite ProcessInput_eval.
  destruct (measure_frame_fields currentTime e) as (_ & _ & _ & Hf & _).
  set (e1 := GameEngine.set_accumulator _ _).
  destruct (fixed_loop_terminates e1) as (fuel0 & [e2 tr2] & Hr).
  { subst e1. simpl. by rewrite Hf. }
  exists fuel0. eexists. intros fuel Hle. rewrite (Hr fuel Hle).
  rewrite Update_eval, Render_eval. reflexivity.
Qed.

(** *** Reading traces *)

Lemma update_deltas_app (tr1 tr2 : list (GameEngine.Event Callback)) :
  LoopVocabulary.update_deltas (tr1 ++ tr2)
  = LoopVocabulary.update_deltas tr1 ++ LoopVocabulary.update_deltas tr2.
Proof.
  induction tr1 as [|ev tr1 IH]; [reflexivity|].
  destruct ev; simpl; by rewrite ?IH.
Qed.

Lemma fixed_update_steps_app (tr1 tr2 : list (GameEngine.Event Callback)) :
  LoopVocabulary.fixed_update_steps (tr1 ++ tr2)
  = LoopVocabulary.fixed_update_steps tr1 ++ LoopVocabulary.fixed_update_steps tr2.
Proof.
  induction tr1 as [|ev tr1 IH]; [reflexivity|].
  destruct ev; simpl; by rewrite ?IH.
Qed.

Lemma update_deltas_ticks (ticks : nat) (step : Q) :
  LoopVocabulary.update_deltas
    (replicate ticks (GameEngine.EvFixedUpdate (Callback := Callback) step)) = [].
Proof. induction ticks; simpl; done. Qed.

Lemma fixed_update_steps_ticks (ticks : nat) (step : Q) :
  LoopVocabulary.fixed_update_steps
    (replicate ticks (GameEngine.EvFixedUpdate (Callback := Callback) step))
  = replicate ticks step.
Proof. induction ticks; simpl; [done|by f_equal]. Qed.

(** What one iteration contributes to the readings of a trace. *)
Lemma loop_body_readings fuel currentTime e e' tr :
  GameEngine.loop_body fuel currentTime e = Some (e', tr) →
  LoopVocabulary.update_deltas tr
  = [LoopVocabulary.clamp (currentTime - GameEngine.lastFrameTime_ e)]
  ∧ ∃ ticks : nat,
      LoopVocabulary.fixed_update_steps tr
      = replicate ticks (GameEngine.fixedTimeStep_ e)
      ∧ GameEngine.accumulator_ e'
        == GameEngine.accumulator_ e
           + LoopVocabulary.clamp (currentTime - GameEngine.lastFrameTime_ e)
           - inject_Z (Z.of_nat ticks) * GameEngine.fixedTimeStep_ e.
Proof.
  intros H. apply loop_body_spec in H as (ticks & -> & Hacc & _).
  rewrite !update_deltas_app, !fixed_update_steps_app.
  rewrite update_deltas_ticks, fixed_update_steps_ticks.
  split.
  - simpl. by destruct (GameEngine.Qltb _ _).
  - exists ticks. split; [|exact Hacc].
    simpl. destruct (GameEngine.Qltb _ _); simpl; by rewrite app_nil_r.
Qed.

(** C8. Each iteration of the main loop calls [Update] once, with the time
    elapsed since the previous iteration capped at [MAX_TIMESTEP]; so in any
    run of the loop, whatever the clock readings, the callbacks and the
    calls made by other threads, no [Update] receives more than
    [MAX_TIMESTEP], which is 1/30 s. *)
Theorem Update_delta_is_clamped :
  GameEngine.MAX_TIMESTEP == 1 / 30
  ∧ (∀ fuel currentTime e e' tr,
       GameEngine.loop_body fuel currentTime e = Some (e', tr) →
       LoopVocabulary.update_deltas tr
       = [if GameEngine.Qltb GameEngine.MAX_TIMESTEP
               (currentTime - GameEngine.lastFrameTime_ e)
          then GameEngine.MAX_TIMESTEP
          else currentTime - GameEngine.lastFrameTime_ e])
  ∧ (∀ fuel frames e r e' tr,
       GameEngine.main_loop invoke fuel frames e = Some (r, e', tr) →
       ∀ deltaTime,
         GameEngine.EvUpdate deltaTime ∈ tr →
         deltaTime <= GameEngine.MAX_TIMESTEP).
Proof.
  split; [reflexivity|]. split.
  - intros fuel currentTime e e' tr H.
    by apply loop_body_readings in H as [-> _].
  - intros fuel frames. induction frames as [|f frames IH];
      intros e r e' tr H deltaTime Hin; simpl in H.
    + destruct (GameEngine.exitRequested_ e); injection H as <- <- <-;
        by apply elem_of_nil in Hin.
    + destruct (GameEngine.exitRequested_ e).
      { injection H as <- <- <-. by apply elem_of_nil in Hin. }
      destruct (GameEngine.loop_body fuel _ e) as [[e1 tr1]|] eqn:E1; [|discriminate].
      destruct (GameEngine.main_loop _ _ _ _) as [[[r3 e3] tr3]|] eqn:E3;
        [|discriminate].
      injection H as <- <- <-. apply elem_of_app in Hin as [Hin|Hin].
      * apply loop_body_spec in E1 as (ticks & -> & _).
        rewrite !elem_of_app, !elem_of_cons in Hin.
        destruct Hin as [[Hin|Hin]|[Hin|[[Hin|[Hin|Hin]]|Hin]]].
        -- discriminate.
        -- by apply elem_of_nil in Hin.
        -- apply elem_of_replicate in Hin as [Hin _]. discriminate.
        -- injection Hin as ->. apply clamp_le_MAX.
        -- discriminate.
        -- by apply elem_of_nil in Hin.
        -- destruct (GameEngine.Qltb _ _); [|by apply elem_of_nil in Hin].
           apply elem_of_cons in Hin as [Hin|Hin]; [discriminate|].
           by apply elem_of_nil in Hin.
      * by eapply IH.
Qed.

(** *** Iterations without calls of other threads *)

Lemma main_loop_quiet_cons fuel currentTime clocks e :
  GameEngine.exitRequested_ e = false →
  GameEngine.main_loop invoke fuel
    (LoopVocabulary.quiet (currentTime :: clocks)) e
  = match GameEngine.loop_body fuel currentTime e with
    | None => None
    | Some (e1, tr1) =>
        match GameEngine.main_loop invoke fuel (LoopVocabulary.quiet clocks) e1 with
        | None => None
        | Some (r, e3, tr3) => Some (r, e3, tr1 ++ tr3)
        end
    end.
Proof. intros Hx. simpl. by rewrite Hx. Qed.

(** Over any stretch of iterations the accumulator holds what has been
    added to it less one fixed step per [FixedUpdate], and is back below
    the fixed step at the end of every iteration. *)

End EngineFacts.

Lemma SetGameState_fires_callback_once_witness :
  GameEngine.SetGameState Samples.exit_with GameEngine.Racing
    (GameEngine.RegisterStateCallback GameEngine.Racing 7%Z
       Samples.menu_engine_with_codes)
  = (GameEngine.mkEngine GameEngine.Racing {[GameEngine.Racing := 7%Z]} 0 0
       (1 # 60) 0 0 0 0 true 7,
     [GameEngine.EvStoreState GameEngine.Racing;
      GameEngine.EvCallback GameEngine.Racing 7%Z])
  ∧ GameEngine.SetGameState Samples.exit_with GameEngine.Paused
      Samples.menu_engine_with_codes
    = (GameEngine.mkEngine GameEngine.Paused ∅ 0 0 (1 # 60) 0 0 0 0 false 0,
       [GameEngine.EvStoreState GameEngine.Paused])
  ∧ GameEngine.SetGameState Samples.exit_with GameEngine.MainMenu
      (GameEngine.RegisterStateCallback GameEngine.MainMenu 7%Z
         Samples.menu_engine_with_codes)
    = (GameEngine.mkEngine GameEngine.MainMenu {[GameEngine.MainMenu := 7%Z]}
         0 0 (1 # 60) 0 0 0 0 false 0, []).
Proof.
  split; [|split].
  - apply (proj2 (proj2 (SetGameState_fires_callback_once Samples.exit_with
                           GameEngine.Racing Samples.menu_engine_with_codes))
             7%Z).
    discriminate.
  - apply (proj1 (proj2 (SetGameState_fires_callback_once Samples.exit_with
                           GameEngine.Paused Samples.menu_engine_with_codes))).
    discriminate.
  - apply (proj1 (SetGameState_fires_callback_once Samples.exit_with
                    GameEngine.MainMenu
                    (GameEngine.RegisterStateCallback GameEngine.MainMenu 7%Z
                       Samples.menu_engine_with_codes))).
    reflexivity.
Defined.

(** C1, at concrete runs. An engine is constructed and moved to the main
    menu by [SetGameState(MainMenu)]; [threadManager_] is null, as the
    constructor leaves it. In the first run [RequestExit(5)] is called
    before [Run]; in the second the loop makes two iterations and another
    thread calls [RequestExit(5)] during the second. Either way the loop
    ends with [exitCode_ = 5] and [Run] calls [Shutdown], which moves the
    engine to [Exiting], resets the handles of the six subsystems and then
    calls [Shutdown()] through the null [threadManager_] (line 396): [Run]
    does not return 5. On an [Uninitialized] engine [Run] returns -1 without
    running the loop. *)
Theorem Run_after_RequestExit_5 :
  Startup.Run Samples.idle "12:00:03.000" 8 []
    MoreSamples.exit_requested_application
  = Some (Startup.NullDereference
            (Startup.mkApplication
               (GameEngine.mkEngine GameEngine.Exiting ∅ 0 0 (1 # 60) 0 0 0 0
                  true 5)
               "Car Racing Simulation" 1280 720 false None Logger.constructed
               Profiler.constructed)
            [GameEngine.EvShutdown;
             GameEngine.EvStoreState GameEngine.Exiting;
             GameEngine.EvReset GameEngine.RaceManager;
             GameEngine.EvReset GameEngine.InputManager;
             GameEngine.EvReset GameEngine.AudioEngine;
             GameEngine.EvReset GameEngine.AIManager;
             GameEngine.EvReset GameEngine.RenderingEngine;
             GameEngine.EvReset GameEngine.PhysicsEngine])
  ∧ (∃ e1 tr1,
       GameEngine.main_loop Samples.idle 8 Samples.exit_frames
         Samples.menu_engine
       = Some (GameEngine.Exited, e1, tr1)
       ∧ GameEngine.gameState_ e1 = GameEngine.MainMenu
       ∧ GameEngine.exitRequested_ e1 = true
       ∧ GameEngine.exitCode_ e1 = 5%Z
       ∧ Startup.Run Samples.idle "12:00:03.000" 8 Samples.exit_frames
           MoreSamples.menu_application
         = Some (Startup.NullDereference
                   (Startup.mkApplication
                      (GameEngine.mkEngine GameEngine.Exiting
                         (GameEngine.stateCallbacks_ e1)
                         (GameEngine.lastFrameTime_ e1)
                         (GameEngine.deltaTime_ e1)
                         (GameEngine.fixedTimeStep_ e1)
                         (GameEngine.accumulator_ e1)
                         (GameEngine.frameRateUpdateTimer_ e1)
                         (GameEngine.frameCount_ e1)
                         (GameEngine.currentFrameRate_ e1) true 5)
                      "Car Racing Simulation" 1280 720 false None
                      Logger.constructed Profiler.constructed)
                   (tr1
                    ++ [GameEngine.EvShutdown;
                        GameEngine.EvStoreState GameEngine.Exiting;
                        GameEngine.EvReset GameEngine.RaceManager;
                        GameEngine.EvReset GameEngine.InputManager;
                        GameEngine.EvReset GameEngine.AudioEngine;
                        GameEngine.EvReset GameEngine.AIManager;
                        GameEngine.EvReset GameEngine.RenderingEngine;
                        GameEngine.EvReset GameEngine.PhysicsEngine])))
  ∧ Startup.Run Samples.idle "12:00:03.000" 8 Samples.exit_frames
      MoreSamples.fresh_application
    = Some (Startup.Returned (-1)%Z MoreSamples.fresh_application [] []).
Proof.
  split; [vm_compute; reflexivity|]. split; [|vm_compute; reflexivity].
  eexists _, _. split; [vm_compute; reflexivity|].
  repeat (split; [reflexivity|]). vm_compute. reflexivity.
Qed.

Lemma Update_delta_is_clamped_witness :
  ∃ e' tr,
    GameEngine.main_loop Samples.idle 8
      (LoopVocabulary.quiet Samples.clock_readings) Samples.racing_engine
    = Some (GameEngine.StillRunning, e', tr)
    ∧ LoopVocabulary.update_deltas tr
      = LoopVocabulary.clamped_deltas 0 Samples.clock_readings
    ∧ ∀ deltaTime, GameEngine.EvUpdate deltaTime ∈ tr →
                   (deltaTime <= GameEngine.MAX_TIMESTEP)%Q.
Proof.
  eexists _, _. split; [vm_compute; reflexivity|].
  split; [vm_compute; reflexivity|].
  refine (proj2 (proj2 (Update_delta_is_clamped Samples.idle)) 8%nat
            (LoopVocabulary.quiet Samples.clock_readings)
            Samples.racing_engine GameEngine.StillRunning _ _ _).
  vm_compute. reflexivity.
Defined.

(** ** The thread function interleaved with the registry *)

Section WrapperFacts.
Context (Func : Type).
#[local] Open Scope Z_scope.
Implicit Types (s : Wrapper.System) (w : Wrapper.Worker) (n : string).





End WrapperFacts.


(* ===================================================================== *)
(** * Part III: further properties of the code                            *)
(* ===================================================================== *)

(** ** The registry's operations on one worker *)

Section WorkerOperations.
Context {Func : Type}.
Context {joins : ThreadManager.Joins}.
Implicit Types (s : ThreadManager.State Func) (n : string).
#[local] Open Scope Z_scope.

Lemma lock_guard_Returned {A} (body : ThreadManager.M Func A) s a s1 tr :
  ThreadManager.mutex_ s = false →
  body (ThreadManager.set_mutex true s) = ThreadManager.Returned a s1 tr →
  ThreadManager.lock_guard body s
  = ThreadManager.Returned a (ThreadManager.set_mutex false s1) tr.
Proof. intros Hm Hb. unfold ThreadManager.lock_guard. by rewrite Hm, Hb. Qed.

Lemma StopThread_Stopped n s threadInfo :
  ThreadManager.mutex_ s = false →
  ThreadManager.threads_ s !! n = Some threadInfo →
  ThreadManager.status threadInfo = ThreadManager.Stopped →
  ThreadManager.StopThread n s = ThreadManager.Returned true s [].
Proof.
  intros Hm Hn Hst. unfold ThreadManager.StopThread.
  erewrite lock_guard_Returned; [|done|].
  2: { erewrite bind_Returned by reflexivity.
       destruct s; simpl in *. rewrite Hn.
       rewrite decide_True by done. reflexivity. }
  by rewrite set_mutex_release.
Qed.

Lemma GetThreadStatus_known n s threadInfo :
  ThreadManager.mutex_ s = false →
  ThreadManager.threads_ s !! n = Some threadInfo →
  ThreadManager.GetThreadStatus n s
  = ThreadManager.Returned (ThreadManager.status threadInfo) s [].
Proof.
  intros Hm Hn. unfold ThreadManager.GetThreadStatus.
  erewrite lock_guard_Returned; [|done|].
  2: { erewrite bind_Returned by reflexivity.
       destruct s; simpl in *. rewrite Hn. reflexivity. }
  by rewrite set_mutex_release.
Qed.

(** X1. [StopThread] on a name that is not registered returns false and
    changes nothing. On a worker that is not [Stopped] it sets the stop
    flag, unparks the worker if its status was [Paused], and joins its
    thread if that is joinable. When that thread never ends, the call does
    not return. Otherwise it returns true: the descriptor then has its stop
    flag set, its pause flag cleared if it was [Paused], no joinable thread
    and the status [Stopped]; [activeThreadCount_] is one less (modulo
    2^32) when the joined thread was counted, and unchanged otherwise;
    nothing else in the registry has changed. The status query then answers
    [Stopped], and a second [StopThread] returns true without doing
    anything more. *)
Theorem StopThread_stops_once n s :
  ThreadManager.mutex_ s = false →
  (ThreadManager.threads_ s !! n = None →
     ThreadManager.StopThread n s = ThreadManager.Returned false s [])
  ∧ (∀ threadInfo,
       ThreadManager.threads_ s !! n = Some threadInfo →
       ThreadManager.status threadInfo ≠ ThreadManager.Stopped →
       (ThreadManager.joinable threadInfo = true →
        ThreadManager.join_result n = ThreadManager.NeverEnds →
        ThreadManager.StopThread n s = ThreadManager.Deadlock)
       ∧ (ThreadManager.joinable threadInfo = false
          ∨ (∃ counted,
               ThreadManager.join_result n = ThreadManager.Ends counted) →
          let count :=
            if ThreadManager.joinable threadInfo
            then match ThreadManager.join_result n with
                 | ThreadManager.Ends true =>
                     (ThreadManager.activeThreadCount_ s - 1) mod 2 ^ 32
                 | _ => ThreadManager.activeThreadCount_ s
                 end
            else ThreadManager.activeThreadCount_ s in
          let s' :=
            ThreadManager.mkState
              (<[n := ThreadManager.mkThreadInfo false
                        (ThreadManager.name threadInfo)
                        (ThreadManager.priority threadInfo)
                        ThreadManager.Stopped true
                        (if decide (ThreadManager.status threadInfo
                                    = ThreadManager.Paused)
                         then false else ThreadManager.isPaused threadInfo)]>
                 (ThreadManager.threads_ s))
              (ThreadManager.threadPools_ s) false (ThreadManager.maxThreads_ s)
              (ThreadManager.initialized_ s) count in
          ThreadManager.StopThread n s
          = ThreadManager.Returned true s'
              ([ThreadManager.EvStoreStop n]
               ++ (if decide (ThreadManager.status threadInfo
                              = ThreadManager.Paused)
                   then [ThreadManager.EvSetPause n false;
                         ThreadManager.EvNotify n]
                   else [])
               ++ (if ThreadManager.joinable threadInfo
                   then [ThreadManager.EvJoin n] else [])
               ++ [ThreadManager.EvStoreStatus n ThreadManager.Stopped])
          ∧ ThreadManager.GetThreadStatus n s'
            = ThreadManager.Returned ThreadManager.Stopped s' []
          ∧ ThreadManager.StopThread n s' = ThreadManager.Returned true s' [])).
Proof.
  intros Hm. split.
  - intros Hn. unfold ThreadManager.StopThread.
    erewrite lock_guard_Returned; [|done|].
    2: { erewrite bind_Returned by reflexivity. simpl. rewrite Hn. reflexivity. }
    by rewrite set_mutex_release.
  - intros ti Hn Hst. split.
    + intros Hjo Hnever. unfold ThreadManager.StopThread, ThreadManager.lock_guard.
      rewrite Hm. erewrite bind_Returned by reflexivity. simpl. rewrite Hn.
      rewrite decide_False by done.
      erewrite bind_Deadlock; [done|].
      rewrite stop_and_join_eval. unfold Vocabulary.never_joined.
      by rewrite Hjo, Hnever.
    + intros Hends count s'.
      assert (Vocabulary.never_joined n ti = false) as Hnj.
      { unfold Vocabulary.never_joined.
        destruct Hends as [->|[counted ->]]; [done|apply andb_false_r]. }
      assert (ThreadManager.threads_ s' !! n = Some (Vocabulary.stopped ti))
        as Hn' by (subst s'; simpl; apply lookup_insert_eq).
      assert (ThreadManager.mutex_ s' = false) as Hm' by reflexivity.
      split; [|split].
      * unfold ThreadManager.StopThread.
        erewrite lock_guard_Returned; [|done|].
        2: { erewrite bind_Returned by reflexivity. simpl. rewrite Hn.
             rewrite decide_False by done.
             erewrite bind_Returned
               by (rewrite stop_and_join_eval, Hnj; reflexivity).
             simpl. rewrite app_nil_r. reflexivity. }
        f_equal. subst s' count. destruct s as [th po mu mx ini ac].
        simpl in *. subst mu.
        unfold ThreadManager.set_mutex. simpl. f_equal.
        change (ThreadManager.mkThreadInfo _ _ _ _ _ _)
          with (Vocabulary.stopped ti).
        rewrite <- stop_writes_self. by apply alter_alt_Some.
      * by rewrite (GetThreadStatus_known n s' _ Hm' Hn').
      * by apply (StopThread_Stopped n s' _ Hm' Hn').
Qed.

(** X2. [PauseThread] on a [Running] worker only sets its pause flag: the
    status stays [Running] until the worker itself parks. A [ResumeThread]
    that arrives before that is refused (it returns false) and leaves the
    pause flag set, so the worker still parks afterwards. *)
Theorem ResumeThread_before_worker_parks n s threadInfo :
  ThreadManager.mutex_ s = false →
  ThreadManager.threads_ s !! n = Some threadInfo →
  ThreadManager.status threadInfo = ThreadManager.Running →
  let s1 := ThreadManager.set_threads
              (<[n := ThreadManager.set_isPaused true threadInfo]>
                 (ThreadManager.threads_ s)) s in
  ThreadManager.PauseThread n s
  = ThreadManager.Returned true s1 [ThreadManager.EvSetPause n true]
  ∧ ThreadManager.GetThreadStatus n s1
    = ThreadManager.Returned ThreadManager.Running s1 []
  ∧ ThreadManager.ResumeThread n s1 = ThreadManager.Returned false s1 []
  ∧ (ThreadManager.isPaused <$> ThreadManager.threads_ s1 !! n) = Some true.
Proof.
  intros Hm Hn Hst s1.
  assert (ThreadManager.threads_ s1 !! n
          = Some (ThreadManager.set_isPaused true threadInfo)) as Hn1
    by (subst s1; destruct s; simpl; apply lookup_insert_eq).
  assert (ThreadManager.mutex_ s1 = false) as Hm1 by (subst s1; by destruct s).
  split; [|split; [|split]].
  - unfold ThreadManager.PauseThread.
    erewrite lock_guard_Returned; [|done|].
    2: { erewrite bind_Returned by reflexivity.
         destruct s; simpl in *. rewrite Hn.
         rewrite decide_False by (rewrite Hst; intros H; by apply H).
         reflexivity. }
    f_equal. subst s1. destruct s as [th po mu mx ini ac]. simpl in *. subst mu.
    unfold ThreadManager.set_threads, ThreadManager.set_mutex. simpl.
    f_equal. by apply alter_alt_Some.
  - rewrite (GetThreadStatus_known n s1 _ Hm1 Hn1). simpl. by rewrite Hst.
  - clearbody s1. unfold ThreadManager.ResumeThread.
    erewrite lock_guard_Returned; [|done|].
    2: { erewrite bind_Returned by reflexivity.
         destruct s1; simpl in *. rewrite Hn1. simpl.
         rewrite decide_True by (rewrite Hst; discriminate). reflexivity. }
    by rewrite set_mutex_release.
  - by rewrite Hn1.
Qed.

(** X3. A name that is not in the worker table makes [PauseThread],
    [ResumeThread], [SetThreadPriority] and [SetThreadAffinity] return
    false, and so does [SubmitTask] for a pool that is not in the pool
    table; each of them leaves the registry as it was and does nothing to
    any thread (the platform is not called). *)
Theorem unknown_name_is_refused n s :
  ThreadManager.mutex_ s = false →
  (ThreadManager.threads_ s !! n = None →
     ThreadManager.PauseThread n s = ThreadManager.Returned false s []
     ∧ ThreadManager.ResumeThread n s = ThreadManager.Returned false s []
     ∧ (∀ priority native_ok,
          ThreadPools.SetThreadPriority n priority native_ok s
          = ThreadManager.Returned false s [])
     ∧ (∀ coreMask native_ok,
          ThreadPools.SetThreadAffinity n coreMask native_ok s
          = ThreadManager.Returned false s []))
  ∧ (ThreadManager.threadPools_ s !! n = None →
     ∀ task, ThreadPools.SubmitTask n task s = ThreadManager.Returned false s []).
Proof.
  intros Hm. destruct s as [th po mu mx ini ac]. simpl in Hm. subst mu.
  split.
  - intros Hn. simpl in Hn.
    unfold ThreadManager.PauseThread, ThreadManager.ResumeThread,
      ThreadPools.SetThreadPriority, ThreadPools.SetThreadAffinity,
      ThreadManager.lock_guard, mbind, ThreadManager.M_bind. simpl.
    rewrite Hn. done.
  - intros Hn task. simpl in Hn.
    unfold ThreadPools.SubmitTask, ThreadManager.lock_guard, mbind,
      ThreadManager.M_bind. simpl.
    by rewrite Hn.
Qed.

(** X4. [SetThreadPriority] on a registered worker calls the platform; when
    the platform refuses, it returns false and the registry, the recorded
    priority with it, stays as it was; when the platform accepts, it
    returns true and the worker's descriptor holds the requested priority,
    with its name, status, flags and thread as before; no other worker and
    no other member of the registry changes. *)
Theorem SetThreadPriority_records_on_success n s threadInfo priority :
  ThreadManager.mutex_ s = false →
  ThreadManager.threads_ s !! n = Some threadInfo →
  ThreadPools.SetThreadPriority n priority false s
  = ThreadManager.Returned false s
      [ThreadManager.EvNativePriority n priority false]
  ∧ ThreadPools.SetThreadPriority n priority true s
    = ThreadManager.Returned true
        (ThreadManager.mkState
           (<[n := ThreadManager.mkThreadInfo
                     (ThreadManager.joinable threadInfo)
                     (ThreadManager.name threadInfo)
                     priority
                     (ThreadManager.status threadInfo)
                     (ThreadManager.shouldStop threadInfo)
                     (ThreadManager.isPaused threadInfo)]>
              (ThreadManager.threads_ s))
           (ThreadManager.threadPools_ s) false (ThreadManager.maxThreads_ s)
           (ThreadManager.initialized_ s) (ThreadManager.activeThreadCount_ s))
        [ThreadManager.EvNativePriority n priority true].
Proof.
  intros Hm Hn. destruct s as [th po mu mx ini ac]. simpl in *. subst mu.
  unfold ThreadPools.SetThreadPriority, ThreadManager.lock_guard, mbind,
    ThreadManager.M_bind. simpl. rewrite Hn. simpl. split; [done|].
  unfold ThreadManager.set_threads, ThreadManager.set_mutex. simpl.
  by rewrite (alter_alt_Some _ _ _ threadInfo).
Qed.

End WorkerOperations.

(** ** Pools, and what sequences of calls can reach *)

Section PoolFacts.
Context {Func : Type} (worker_body : string → nat → Func).
Context {joins : ThreadManager.Joins}.
Implicit Types (s : ThreadManager.State Func) (n : string).
#[local] Open Scope Z_scope.

Lemma SubmitTask_known poolName task s poolInfo :
  ThreadManager.mutex_ s = false →
  ThreadManager.threadPools_ s !! poolName = Some poolInfo →
  ThreadPools.SubmitTask poolName task s
  = ThreadManager.Returned true
      (ThreadManager.set_threadPools
         (<[poolName := ThreadManager.mkThreadPoolInfo
                          (ThreadManager.threadNames poolInfo)
                          (ThreadManager.taskQueue poolInfo ++ [task])]>
            (ThreadManager.threadPools_ s)) s) [].
Proof.
  intros Hm Hn. destruct s as [th po mu mx ini ac]. simpl in *. subst mu.
  unfold ThreadPools.SubmitTask, ThreadManager.lock_guard, mbind,
    ThreadManager.M_bind. simpl. rewrite Hn. simpl.
  unfold ThreadManager.set_threadPools, ThreadManager.set_mutex. simpl.
  by rewrite (alter_alt_Some _ _ _ poolInfo).
Qed.

(** X5. Tasks submitted to an existing pool, one call after the other, are
    all accepted and end up at the back of the pool's queue in the order of
    submission; the pool's worker names, the other pools and the worker
    table are not touched. *)
Theorem SubmitTask_keeps_submission_order poolName (tasks : list Func) :
  ∀ s poolInfo,
  ThreadManager.mutex_ s = false →
  ThreadManager.threadPools_ s !! poolName = Some poolInfo →
  ThreadPools.after_all worker_body
    (ThreadPools.CallSubmitTask poolName <$> tasks) s
  = Some (ThreadManager.set_threadPools
            (<[poolName := ThreadManager.mkThreadPoolInfo
                             (ThreadManager.threadNames poolInfo)
                             (ThreadManager.taskQueue poolInfo ++ tasks)]>
               (ThreadManager.threadPools_ s)) s).
Proof.
  induction tasks as [|task tasks IH]; intros s poolInfo Hm Hn.
  - simpl. f_equal. rewrite app_nil_r.
    destruct poolInfo, s; simpl in *.
    unfold ThreadManager.set_threadPools. simpl. by rewrite insert_id.
  - cbn [fmap list_fmap ThreadPools.after_all ThreadPools.after].
    rewrite (SubmitTask_known _ _ _ _ Hm Hn).
    erewrite IH; [|by destruct s|by (destruct s; simpl; apply lookup_insert_eq)].
    f_equal. destruct s; simpl.
    unfold ThreadManager.set_threadPools. simpl.
    by rewrite insert_insert_eq, <- app_assoc.
Qed.

(** X6. [CreateThreadPool] returns false, changing nothing, when the
    registry is not initialized, when the pool name is taken, or when the
    workers would exceed the cap. Past these tests, a pool of zero workers
    is registered with an empty task queue and the call returns true; a
    pool of one worker or more is never created: the first [CreateThread]
    (line 326) takes [mutex_], which [CreateThreadPool] holds since line
    303, and the call does not return. *)
Theorem CreateThreadPool_outcomes poolName (threadCount : nat) priority native_ok s :
  ThreadManager.mutex_ s = false →
  (ThreadManager.initialized_ s = false
   ∨ is_Some (ThreadManager.threadPools_ s !! poolName)
   ∨ ThreadManager.maxThreads_ s
     < Z.of_nat (size (ThreadManager.threads_ s)) + Z.of_nat threadCount →
   ThreadPools.CreateThreadPool worker_body poolName threadCount priority
     native_ok s
   = ThreadManager.Returned false s [])
  ∧ (ThreadManager.initialized_ s = true →
     ThreadManager.threadPools_ s !! poolName = None →
     Z.of_nat (size (ThreadManager.threads_ s)) + Z.of_nat threadCount
       ≤ ThreadManager.maxThreads_ s →
     ThreadPools.CreateThreadPool worker_body poolName threadCount priority
       native_ok s
     = match threadCount with
       | O =>
           ThreadManager.Returned true
             (ThreadManager.set_threadPools
                (<[poolName := ThreadManager.mkThreadPoolInfo []
                                 ThreadSafeQueue.empty_queue]>
                   (ThreadManager.threadPools_ s)) s) []
       | S _ => ThreadManager.Deadlock
       end).
Proof.
  intros Hm. destruct s as [th po mu mx ini ac]. simpl in *. subst mu.
  unfold ThreadPools.CreateThreadPool, ThreadManager.lock_guard, mbind,
    ThreadManager.M_bind. simpl. split.
  - intros [->|[Hp|Hcap]]; [done| |].
    + destruct ini; [|done]. simpl. by rewrite bool_decide_eq_true_2.
    + destruct ini; [|done]. simpl. destruct (bool_decide _); [done|].
      by rewrite decide_True.
  - intros -> Hp Hcap. simpl.
    rewrite bool_decide_eq_false_2 by (rewrite Hp; by intros [? ?]).
    rewrite decide_False by lia.
    destruct threadCount; reflexivity.
Qed.

Lemma after_keeps_no_worker c s s' :
  ThreadPools.no_worker s → ThreadPools.after worker_body c s = Some s' → ThreadPools.no_worker s'.
Proof.
  intros (Hth & Hm & Hac) H.
  destruct c; simpl in H.
  - destruct s as [th po mu mx ini ac]. simpl in *. subst.
    unfold ThreadManager.Initialize, ThreadManager.lock_guard, mbind,
      ThreadManager.M_bind in H. simpl in H.
    destruct ini; simpl in H; [by injection H as <-|].
    destruct (decide (maxThreads = 0)); simpl in H;
      [destruct (decide (hardware_concurrency < 2)); simpl in H|];
      by injection H as <-.
  - destruct (ThreadManager.initialized_ s) eqn:Hi.
    + rewrite Shutdown_eval, Hth, map_to_list_empty in H by done.
      simpl in H. rewrite fmap_empty, map_to_list_empty in H. simpl in H.
      by injection H as <-.
    + rewrite Shutdown_uninitialized in H by done. by injection H as <-.
  - destruct s as [th po mu mx ini ac]. simpl in *. subst.
    destruct ini; simpl in H; [done|]. by injection H as <-.
  - destruct s as [th po mu mx ini ac]. simpl in *. subst.
    unfold ThreadManager.StopThread, ThreadManager.lock_guard, mbind,
      ThreadManager.M_bind in H. simpl in H.
    rewrite lookup_empty in H. by injection H as <-.
  - destruct s as [th po mu mx ini ac]. simpl in *. subst.
    unfold ThreadManager.PauseThread, ThreadManager.lock_guard, mbind,
      ThreadManager.M_bind in H. simpl in H.
    rewrite lookup_empty in H. by injection H as <-.
  - destruct s as [th po mu mx ini ac]. simpl in *. subst.
    unfold ThreadManager.ResumeThread, ThreadManager.lock_guard, mbind,
      ThreadManager.M_bind in H. simpl in H.
    rewrite lookup_empty in H. by injection H as <-.
  - destruct s as [th po mu mx ini ac]. simpl in *. subst.
    unfold ThreadManager.GetThreadStatus, ThreadManager.lock_guard, mbind,
      ThreadManager.M_bind in H. simpl in H.
    rewrite lookup_empty in H. by injection H as <-.
  - destruct s as [th po mu mx ini ac]. simpl in *. subst.
    unfold ThreadManager.ThreadExists, ThreadManager.lock_guard, mbind,
      ThreadManager.M_bind in H. simpl in H. by injection H as <-.
  - destruct s as [th po mu mx ini ac]. simpl in *. subst.
    unfold ThreadPools.CreateThreadPool, ThreadManager.lock_guard, mbind,
      ThreadManager.M_bind in H. simpl in H.
    destruct ini; simpl in H; [|by injection H as <-].
    destruct (bool_decide _); simpl in H; [by injection H as <-|].
    destruct (decide _); simpl in H; [by injection H as <-|].
    destruct threadCount; simpl in H; [by injection H as <-|done].
  - destruct s as [th po mu mx ini ac]. simpl in *. subst.
    unfold ThreadPools.SubmitTask, ThreadManager.lock_guard, mbind,
      ThreadManager.M_bind in H. simpl in H.
    destruct (po !! poolName); simpl in H; by injection H as <-.
  - destruct s as [th po mu mx ini ac]. simpl in *. subst.
    unfold ThreadPools.SetThreadPriority, ThreadManager.lock_guard, mbind,
      ThreadManager.M_bind in H. simpl in H.
    rewrite lookup_empty in H. by injection H as <-.
  - destruct s as [th po mu mx ini ac]. simpl in *. subst.
    unfold ThreadPools.SetThreadAffinity, ThreadManager.lock_guard, mbind,
      ThreadManager.M_bind in H. simpl in H.
    rewrite lookup_empty in H. by injection H as <-.
Qed.

(** X7. However a thread calls the registry's operations one after the
    other, starting from a newly constructed registry, no worker is ever
    registered: when all the calls have returned, the worker table is empty
    and the active count is 0. (The only operations that register workers
    are [CreateThread] and [CreateThreadPool] with one worker or more, and
    on an initialized registry neither returns.) *)
Theorem no_call_sequence_registers_a_worker calls : ∀ s',
  ThreadPools.after_all worker_body calls ThreadManager.constructed = Some s' →
  ThreadManager.threads_ s' = ∅
  ∧ ThreadManager.activeThreadCount_ s' = 0
  ∧ ∀ n, ThreadManager.ThreadExists n s' = ThreadManager.Returned false s' [].
Proof.
  assert (∀ s s', ThreadPools.no_worker s →
            ThreadPools.after_all worker_body calls s = Some s' → ThreadPools.no_worker s')
    as Hall.
  { induction calls as [|c calls IH]; intros s s' Hs H; simpl in H.
    - by injection H as <-.
    - destruct (ThreadPools.after worker_body c s) as [s1|] eqn:E; [|done].
      eapply IH; [|exact H]. by eapply after_keeps_no_worker. }
  intros s' H.
  assert (ThreadPools.no_worker (ThreadManager.constructed (Func := Func)))
    as H0 by (by repeat split).
  destruct (Hall _ _ H0 H) as (Hth & Hm & Hac).
  split; [done|]. split; [done|]. intros n.
  destruct s' as [th po mu mx ini ac]. simpl in *. subst. reflexivity.
Qed.

End PoolFacts.

(** ** What is handed to the platform *)

Section PlatformRequests.
#[local] Open Scope Z_scope.

Lemma land_bit_nonzero (coreMask : Z) (i : nat) :
  Z.land coreMask (Z.shiftl 1 (Z.of_nat i)) ≠ 0
  ↔ Z.testbit coreMask (Z.of_nat i) = true.
Proof.
  rewrite Z.shiftl_1_l. split.
  - intros H. destruct (Z.testbit coreMask (Z.of_nat i)) eqn:E; [done|].
    exfalso. apply H. apply Z.bits_inj'. intros k Hk.
    rewrite Z.land_spec, Z.bits_0, Z.pow2_bits_eqb by lia.
    destruct (Z.eqb_spec (Z.of_nat i) k) as [<-|]; [by rewrite E|].
    apply andb_false_r.
  - intros E H.
    assert (Z.testbit (Z.land coreMask (2 ^ Z.of_nat i)) (Z.of_nat i) = true) as Hb.
    { rewrite Z.land_spec, E, Z.pow2_bits_true by lia. done. }
    rewrite H, Z.bits_0 in Hb. done.
Qed.

Lemma cpuset_fold (coreMask : Z) (l : list nat) : ∀ (acc : gset nat) (i : nat),
  i ∈ foldl (λ (cpuset : gset nat) (j : nat),
               if decide (Z.land coreMask (Z.shiftl 1 (Z.of_nat j)) ≠ 0)
               then {[j]} ∪ cpuset else cpuset) acc l
  ↔ i ∈ acc ∨ (i ∈ l ∧ Z.testbit coreMask (Z.of_nat i) = true).
Proof.
  induction l as [|j l IH]; intros acc i; simpl.
  - rewrite elem_of_nil. split; [by left|]. by intros [?|[[] ?]].
  - rewrite IH, elem_of_cons. case_decide as Hj.
    + apply land_bit_nonzero in Hj. rewrite elem_of_union, elem_of_singleton.
      split.
      * intros [[->|?]|[? ?]]; [right; split; [by left|done]|by left|].
        right. split; [by right|done].
      * intros [?|[[->|?] ?]]; [left; by right|left; by left|right; by split].
    + pose proof (land_bit_nonzero coreMask j) as Hbit.
      split; [intros [?|[? ?]]; [by left|right; split; [by right|done]]|].
      intros [?|[[->|?] ?]]; [by left| |right; by split].
      exfalso. apply Hbit in H. by apply H.
Qed.

(** X8. The CPU set that [SetNativeThreadAffinity] builds from a core mask
    holds exactly the cores below 64 whose bit is set in the mask: bit [i]
    selects core [i]. A mask of 0 gives the empty set. *)
Theorem cpuset_holds_the_set_bits (coreMask : Z) (i : nat) :
  (i ∈ ThreadPools.cpuset_of_mask coreMask
   ↔ (i < 64)%nat ∧ Z.testbit coreMask (Z.of_nat i) = true)
  ∧ ThreadPools.cpuset_of_mask 0 = ∅.
Proof.
  split.
  - unfold ThreadPools.cpuset_of_mask. rewrite cpuset_fold, elem_of_seq.
    rewrite elem_of_empty. split; [intros [[]|[? ?]]|intros [? ?]; right];
      (split; [lia|done]).
  - apply set_eq. intros k. unfold ThreadPools.cpuset_of_mask.
    rewrite cpuset_fold, Z.bits_0, !elem_of_empty.
    split; [|done]. by intros [[]|[? ?]].
Qed.

(** X9. On POSIX the priority handed to [pthread_setschedparam] lies within
    the range of the policy it is handed with for [Low], [Normal] and
    [RealTime]. For [High] it is the maximum less one, which lies within
    the range only when the policy's range has more than one value: with a
    policy whose minimum and maximum coincide the request is below the
    minimum. Only [RealTime] changes the policy (to round-robin). *)
Theorem posix_priority_within_range (sched_min sched_max : ThreadPools.Policy → Z)
    (policy : ThreadPools.Policy) (priority : ThreadManager.ThreadPriority) :
  (∀ p, sched_min p ≤ sched_max p) →
  let request :=
    ThreadPools.posix_sched_request sched_min sched_max policy priority in
  (priority ≠ ThreadManager.High →
     sched_min request.1 ≤ request.2 ≤ sched_max request.1)
  ∧ (priority = ThreadManager.High →
     request.2 = sched_max policy - 1
     ∧ (sched_min request.1 ≤ request.2 ≤ sched_max request.1
        ↔ sched_min policy < sched_max policy))
  ∧ (priority ≠ ThreadManager.RealTime → request.1 = policy)
  ∧ (priority = ThreadManager.RealTime → request.1 = ThreadPools.SCHED_RR).
Proof.
  intros Hrange. pose proof (Hrange policy). pose proof (Hrange ThreadPools.SCHED_RR).
  intros request. subst request.
  destruct priority; cbn; (split; [|split; [|split]]);
    try discriminate; try congruence; intros _; try reflexivity.
  - lia.
  - Z.to_euclidean_division_equations. lia.
  - split; [reflexivity|]. lia.
  - lia.
Qed.

End PlatformRequests.

(** ** The logger *)

Section LoggerFacts.
Context (can_open : string → bool).
Implicit Types (l : Logger.t) (e : Logger.Entry).
#[local] Open Scope Z_scope.

Lemma Log_unlocked level tag message timestamp l :
  Logger.mutex_ l = false →
  Logger.Log level tag message timestamp l
  = Logger.Returned tt l
      (if Logger.initialized_ l
          && bool_decide (LogLevel.value (Logger.minLevel_ l)
                          ≤ LogLevel.value level)
       then LoggerVocabulary.delivered l
              (Logger.mkEntry level tag message timestamp)
       else []).
Proof.
  intros Hm. destruct l as [ini con fil mn [op fb pa] mu]. simpl in Hm. subst mu.
  unfold LoggerVocabulary.delivered. simpl.
  destruct ini; [|reflexivity].
  destruct level, mn; try reflexivity;
    destruct con, fil, op, fb; reflexivity.
Qed.

Lemma Log_locked level tag message timestamp l :
  Logger.mutex_ l = true →
  Logger.initialized_ l = true →
  LogLevel.value (Logger.minLevel_ l) ≤ LogLevel.value level →
  Logger.Log level tag message timestamp l = Logger.Deadlock.
Proof.
  intros Hm Hi Hl. destruct l as [ini con fil mn f mu]. simpl in *. subst.
  unfold Logger.Log, mbind, Logger.M_bind. simpl.
  rewrite bool_decide_eq_false_2 by lia. simpl.
  reflexivity.
Qed.

Lemma Logger_Initialize_blocks (logToConsole logToFile : bool)
    (logFilePath : string) (minLevel : LogLevel.t) (timestamp : string) l :
  Logger.mutex_ l = false →
  LogLevel.value minLevel ≤ LogLevel.value LogLevel.Info →
  Logger.Initialize can_open logToConsole logToFile logFilePath minLevel
    timestamp l = Logger.Deadlock.
Proof.
  intros Hm Hl. destruct l as [ini con fil mn [op fb pa] mu]. simpl in Hm. subst mu.
  destruct minLevel; simpl in Hl; try lia;
    destruct logToFile, op; try reflexivity;
    unfold Logger.Initialize, Logger.lock_guard, Logger.open, mbind,
      Logger.M_bind; simpl; destruct (can_open logFilePath); reflexivity.
Qed.

(** X10. [Logger::Initialize] returns only when the threshold it is given
    is above [Info]. With [Debug] (the default argument, which main.cpp
    line 64 and GameEngine.cpp line 69 use) or [Info], the closing [Log]
    call of line 70 takes the mutex that [Initialize] holds since line 55,
    and the call never returns. When it returns, the logger is initialized
    with the requested settings, file logging is on exactly if the stream
    has a file attached, and the only thing put out is the notice on
    [std::cerr] that the file could not be opened: the message
    "Logging system initialized" is never written. *)
Theorem Logger_Initialize_outcomes (logToConsole logToFile : bool)
    (logFilePath : string) (minLevel : LogLevel.t) (timestamp : string) l :
  Logger.mutex_ l = false →
  (LogLevel.value minLevel ≤ LogLevel.value LogLevel.Info →
   Logger.Initialize can_open logToConsole logToFile logFilePath minLevel
     timestamp l = Logger.Deadlock)
  ∧ (LogLevel.value LogLevel.Info < LogLevel.value minLevel →
     ∃ l' out,
       Logger.Initialize can_open logToConsole logToFile logFilePath minLevel
         timestamp l = Logger.Returned tt l' out
       ∧ Logger.initialized_ l' = true
       ∧ Logger.mutex_ l' = false
       ∧ Logger.minLevel_ l' = minLevel
       ∧ Logger.logToConsole_ l' = logToConsole
       ∧ Logger.logFile_ l'
         = (if logToFile
            then Logger.open can_open logFilePath (Logger.logFile_ l)
            else Logger.logFile_ l)
       ∧ Logger.logToFile_ l'
         = logToFile && Logger.is_open (Logger.logFile_ l')
       ∧ out = if logToFile && negb (Logger.is_open (Logger.logFile_ l'))
               then [Logger.ToCerr
                       ("Failed to open log file: " +:+ logFilePath)]
               else []).
Proof.
  intros Hm. split; [by apply Logger_Initialize_blocks|].
  destruct l as [ini con fil mn [op fb pa] mu]. simpl in Hm. subst mu.
  intros Hl.
  - destruct minLevel; simpl in Hl; try lia;
      destruct logToFile, op;
      unfold Logger.Initialize, Logger.lock_guard, Logger.open, mbind,
        Logger.M_bind; simpl;
      try destruct (can_open logFilePath); simpl;
      eexists _, _; (split; [reflexivity|]); by repeat split.
Qed.

(** X11. [Logger::Shutdown] does nothing on a logger that is not
    initialized. On an initialized logger whose threshold is [Debug] or
    [Info] it never returns: the [Log] call of line 80 takes the mutex held
    since line 77. With a higher threshold it returns, having closed the
    file if file logging was on and marked the logger uninitialized, and
    having written nothing: the message "Logging system shutting down" is
    never written. *)
Theorem Logger_Shutdown_outcomes (timestamp : string) l :
  Logger.mutex_ l = false →
  (Logger.initialized_ l = false →
   Logger.Shutdown timestamp l = Logger.Returned tt l [])
  ∧ (Logger.initialized_ l = true →
     LogLevel.value (Logger.minLevel_ l) ≤ LogLevel.value LogLevel.Info →
     Logger.Shutdown timestamp l = Logger.Deadlock)
  ∧ (Logger.initialized_ l = true →
     LogLevel.value LogLevel.Info < LogLevel.value (Logger.minLevel_ l) →
     Logger.Shutdown timestamp l
     = Logger.Returned tt
         (Logger.set_initialized false
            (if Logger.logToFile_ l && Logger.is_open (Logger.logFile_ l)
             then Logger.set_logFile (Logger.close (Logger.logFile_ l)) l
             else l)) []).
Proof.
  intros Hm. destruct l as [ini con fil mn [op fb pa] mu]. simpl in Hm. subst mu.
  split; [|split]; simpl.
  - by intros ->.
  - intros -> Hl. destruct mn; simpl in Hl; try lia; reflexivity.
  - intros -> Hl. destruct mn; simpl in Hl; try lia;
      destruct fil, op; reflexivity.
Qed.

(** X12. Outside [Initialize] and [Shutdown], logging always returns and
    leaves the logger as it found it. On an initialized logger a run of
    [Log] calls hands out exactly the entries at or above the threshold,
    in call order, each as one console line (if the console is on) followed
    by one file line (if file logging is on and the stream is good), the
    line being the time stamp, the level in brackets, the tag in brackets
    and the message. On a logger that is not initialized nothing is handed
    out. *)
Theorem Log_delivers_in_order (entries : list Logger.Entry) l :
  Logger.mutex_ l = false →
  Logger.log_all entries l
  = Logger.Returned tt l
      (if Logger.initialized_ l
       then Logger.passing (Logger.minLevel_ l) entries
            ≫= LoggerVocabulary.delivered l
       else []).
Proof.
  intros Hm. induction entries as [|e entries IH].
  - simpl. by destruct (Logger.initialized_ l).
  - cbn [Logger.log_all]. unfold mbind at 1, Logger.M_bind at 1.
    rewrite (Log_unlocked _ _ _ _ _ Hm), IH. f_equal.
    destruct e as [lv tg ms ts]. simpl.
    destruct (Logger.initialized_ l); [|reflexivity]. simpl.
    unfold Logger.passing. rewrite filter_cons. simpl.
    case_bool_decide; case_decide; try lia; reflexivity.
Qed.

Lemma log_all_on_failed_stream (entries : list Logger.Entry) l :
  Logger.mutex_ l = false →
  Logger.failbit (Logger.logFile_ l) = true →
  ∃ out,
    Logger.log_all entries l = Logger.Returned tt l out
    ∧ filter LoggerVocabulary.is_file_line out = [].
Proof.
  intros Hm Hf. induction entries as [|e entries (out & IH & Hout)].
  - by exists [].
  - cbn [Logger.log_all]. unfold mbind at 1, Logger.M_bind at 1.
    rewrite (Log_unlocked _ _ _ _ _ Hm), IH. eexists. split; [reflexivity|].
    rewrite filter_app, Hout, app_nil_r.
    destruct (_ && _); [|done].
    unfold LoggerVocabulary.delivered. rewrite Hf, andb_false_r, app_nil_r.
    by destruct (Logger.logToConsole_ l).
Qed.

(** X13. A second [Initialize] that asks for file logging while the file
    of an earlier one is still attached cuts file logging off without
    notice: [open] fails on the attached stream, nothing is reported on
    [std::cerr], file logging stays switched on, and from then on no [Log]
    call writes a line to any file. *)
Theorem reinitialize_silences_the_file (logToConsole : bool)
    (logFilePath : string) (minLevel : LogLevel.t) (timestamp : string) l :
  Logger.mutex_ l = false →
  Logger.is_open (Logger.logFile_ l) = true →
  LogLevel.value LogLevel.Info < LogLevel.value minLevel →
  ∃ l',
    Logger.Initialize can_open logToConsole true logFilePath minLevel
      timestamp l = Logger.Returned tt l' []
    ∧ Logger.logToFile_ l' = true
    ∧ Logger.is_open (Logger.logFile_ l') = true
    ∧ ∀ entries, ∃ out,
        Logger.log_all entries l' = Logger.Returned tt l' out
        ∧ filter LoggerVocabulary.is_file_line out = [].
Proof.
  intros Hm Ho Hl.
  destruct l as [ini con fil mn [op fb pa] mu]. simpl in Hm, Ho. subst mu op.
  exists (Logger.mkLogger true logToConsole true minLevel
            (Logger.mkOfstream true true pa) false).
  split; [|split; [|split]].
  - destruct minLevel; simpl in Hl; try lia; reflexivity.
  - reflexivity.
  - reflexivity.
  - intros entries. by apply log_all_on_failed_stream.
Qed.

End LoggerFacts.

(** ** Start-up *)

Section StartupFacts.
Context {Func Callback : Type}.
Context {joins : ThreadManager.Joins}.
Context {callback_throws : Startup.Throws Callback}.
Context (worker_body : string → nat → Func).
Context (invoke : Callback → GameEngine.Engine Callback → GameEngine.Engine Callback).
Context (can_open : string → bool).

(** X14. [GameEngine::InitializeSubsystems] never returns, whatever the
    machine: [ThreadManager::Initialize()] sets a cap of two threads or
    more, the pool "GeneralPool" of two workers passes the tests of
    [CreateThreadPool], and creating its first worker takes the registry's
    mutex a second time. *)
Theorem InitializeSubsystems_never_returns (hardware_concurrency : Z)
    (native_ok : bool) :
  Startup.InitializeSubsystems worker_body hardware_concurrency native_ok
  = ThreadManager.Deadlock.
Proof.
  unfold Startup.InitializeSubsystems, ThreadManager.Initialize,
    ThreadPools.CreateThreadPool, ThreadManager.lock_guard, mbind,
    ThreadManager.M_bind.
  simpl.
  destruct (decide (hardware_concurrency < 2)%Z) as [Hlt|Hge]; simpl.
  - reflexivity.
  - rewrite map_size_empty, decide_False by lia. reflexivity.
Qed.

(** X28. [GameEngine::Initialize] never returns true. On an engine that is
    not [Uninitialized] it returns false and changes nothing. On an
    [Uninitialized] engine it does not return: line 69 initializes the
    logger with the default threshold, [Debug], and that call blocks on the
    logger's own mutex. *)
Theorem GameEngine_Initialize_never_succeeds (appName : string)
    (windowWidth windowHeight : Z) (fullscreen : bool) (now : Q)
    (hardware_concurrency : Z) (native_ok : bool) (timestamp : string)
    (a : Startup.Application Func Callback) :
  Logger.mutex_ (Startup.logger a) = false →
  Startup.Initialize worker_body invoke can_open appName windowWidth
    windowHeight fullscreen now hardware_concurrency native_ok timestamp a
  = if decide (GameEngine.gameState_ (Startup.engine a)
               = GameEngine.Uninitialized)
    then Startup.Blocked
    else Startup.Returned false a [] [].
Proof.
  intros Hm. unfold Startup.Initialize.
  destruct (decide (GameEngine.gameState_ (Startup.engine a)
                    = GameEngine.Uninitialized)) as [Heq|Hne].
  - rewrite decide_False by (intros H; by apply H).
    by rewrite (Logger_Initialize_blocks can_open true true "game.log"
                  LogLevel.Debug timestamp (Startup.logger a) Hm).
  - by rewrite decide_True.
Qed.

(** *** [Shutdown] and the value [Run] returns *)

Lemma Logger_Shutdown_uninitialized timestamp (l : Logger.t) :
  Logger.mutex_ l = false →
  Logger.initialized_ l = false →
  Logger.Shutdown timestamp l = Logger.Returned tt l [].
Proof.
  intros Hm Hi. destruct l as [ini co fi mi lf mu]. simpl in *. subst.
  reflexivity.
Qed.

Lemma ThreadManager_Shutdown_no_worker (manager : ThreadManager.State Func) :
  ThreadPools.no_worker manager →
  ∃ manager1 tr,
    ThreadManager.Shutdown manager = ThreadManager.Returned tt manager1 tr
    ∧ ThreadPools.no_worker manager1
    ∧ ThreadManager.initialized_ manager1 = false.
Proof.
  intros (Hth & Hm & Hac).
  destruct (ThreadManager.initialized_ manager) eqn:Hi.
  - rewrite Shutdown_eval, Hth, map_to_list_empty by done. simpl.
    rewrite fmap_empty, map_to_list_empty. simpl. eexists _, _.
    split; [reflexivity|]. by repeat split.
  - rewrite Shutdown_uninitialized by done. eexists _, _.
    split; [reflexivity|]. by repeat split.
Qed.

Lemma Logger_Shutdown_leaves_uninitialized timestamp (l l' : Logger.t) out :
  Logger.Shutdown timestamp l = Logger.Returned tt l' out →
  Logger.initialized_ l' = false.
Proof.
  destruct l as [ini co fi mi [io fb at_] mu].
  unfold Logger.Shutdown, Logger.Log, Logger.lock_guard, Logger.write_line,
    mbind, Logger.M_bind. simpl.
  destruct mu; [discriminate|]. destruct ini; simpl.
  - destruct mi; simpl; try discriminate;
      destruct fi, io; simpl; intros H; by injection H as <- _.
  - intros H. by injection H as <- _.
Qed.

Lemma SetGameState_keeps_singletons state
    (a a1 : Startup.Application Func Callback) events out :
  Startup.SetGameState invoke state a = Startup.Returned tt a1 events out →
  Startup.threadManager_ a1 = Startup.threadManager_ a
  ∧ Startup.logger a1 = Startup.logger a.
Proof.
  unfold Startup.SetGameState.
  destruct (GameEngine.SetGameState invoke state (Startup.engine a))
    as [engine1 events1].
  destruct (if decide _ then _ else _); [discriminate|].
  intros H. by injection H as <- _ _.
Qed.

(** X26. [GameEngine::Shutdown] on an [Uninitialized] engine returns at
    once and changes nothing. On any other engine it calls
    [SetGameState(Exiting)], which runs the callback registered for
    [Exiting] unless the engine is [Exiting] already, and then:
    if that callback throws, the exception leaves [Shutdown], with the
    engine as the callback left it; otherwise, when [threadManager_] is
    null, line 396 calls [Shutdown()] through the null pointer, so that
    lines 115-117 are not reached and the engine keeps its exit request
    and exit code. When the engine owns a thread manager without workers
    whose mutex is free, the callback does not throw, and the logger is
    not initialized, [Shutdown] returns, and leaves the engine
    [Uninitialized] with the exit request cleared, the exit code 0 and
    [threadManager_] null. Whenever [Shutdown] returns on an engine that was
    not [Uninitialized], these four hold, the engine owned a thread
    manager before the call, and the logger is not initialized
    afterwards. *)
Theorem Shutdown_leaves_engine_uninitialized (timestamp : string)
    (a : Startup.Application Func Callback) :
  let exiting :=
    GameEngine.mkEngine GameEngine.Exiting
      (GameEngine.stateCallbacks_ (Startup.engine a))
      (GameEngine.lastFrameTime_ (Startup.engine a))
      (GameEngine.deltaTime_ (Startup.engine a))
      (GameEngine.fixedTimeStep_ (Startup.engine a))
      (GameEngine.accumulator_ (Startup.engine a))
      (GameEngine.frameRateUpdateTimer_ (Startup.engine a))
      (GameEngine.frameCount_ (Startup.engine a))
      (GameEngine.currentFrameRate_ (Startup.engine a))
      (GameEngine.exitRequested_ (Startup.engine a))
      (GameEngine.exitCode_ (Startup.engine a)) in
  let with_engine e manager :=
    Startup.mkApplication e (Startup.appName_ a) (Startup.windowWidth_ a)
      (Startup.windowHeight_ a) (Startup.fullscreen_ a) manager
      (Startup.logger a) (Startup.profiler a) in
  let resets :=
    [GameEngine.EvReset GameEngine.RaceManager;
     GameEngine.EvReset GameEngine.InputManager;
     GameEngine.EvReset GameEngine.AudioEngine;
     GameEngine.EvReset GameEngine.AIManager;
     GameEngine.EvReset GameEngine.RenderingEngine;
     GameEngine.EvReset GameEngine.PhysicsEngine] in
  (GameEngine.gameState_ (Startup.engine a) = GameEngine.Uninitialized →
     Startup.Shutdown invoke timestamp a
     = Startup.Returned tt a [GameEngine.EvShutdown] [])
  ∧ (∀ callback,
       GameEngine.gameState_ (Startup.engine a) ≠ GameEngine.Uninitialized →
       GameEngine.gameState_ (Startup.engine a) ≠ GameEngine.Exiting →
       GameEngine.stateCallbacks_ (Startup.engine a) !! GameEngine.Exiting
       = Some callback →
       (Startup.throws callback exiting = true →
        Startup.Shutdown invoke timestamp a
        = Startup.Thrown
            (with_engine (invoke callback exiting) (Startup.threadManager_ a))
            [GameEngine.EvShutdown; GameEngine.EvStoreState GameEngine.Exiting;
             GameEngine.EvCallback GameEngine.Exiting callback])
       ∧ (Startup.throws callback exiting = false →
          Startup.threadManager_ a = None →
          Startup.Shutdown invoke timestamp a
          = Startup.NullDereference
              (with_engine (invoke callback exiting) None)
              ([GameEngine.EvShutdown; GameEngine.EvStoreState GameEngine.Exiting;
                GameEngine.EvCallback GameEngine.Exiting callback] ++ resets)))
  ∧ (GameEngine.gameState_ (Startup.engine a) ≠ GameEngine.Uninitialized →
     GameEngine.gameState_ (Startup.engine a) ≠ GameEngine.Exiting →
     GameEngine.stateCallbacks_ (Startup.engine a) !! GameEngine.Exiting = None →
     Startup.threadManager_ a = None →
     Startup.Shutdown invoke timestamp a
     = Startup.NullDereference (with_engine exiting None)
         ([GameEngine.EvShutdown; GameEngine.EvStoreState GameEngine.Exiting]
          ++ resets))
  ∧ (GameEngine.gameState_ (Startup.engine a) = GameEngine.Exiting →
     Startup.threadManager_ a = None →
     Startup.Shutdown invoke timestamp a
     = Startup.NullDereference a (GameEngine.EvShutdown :: resets))
  ∧ (∀ manager,
       GameEngine.gameState_ (Startup.engine a) ≠ GameEngine.Uninitialized →
       GameEngine.gameState_ (Startup.engine a) ≠ GameEngine.Exiting →
       GameEngine.stateCallbacks_ (Startup.engine a) !! GameEngine.Exiting = None →
       Startup.threadManager_ a = Some manager →
       ThreadPools.no_worker manager →
       Logger.mutex_ (Startup.logger a) = false →
       Logger.initialized_ (Startup.logger a) = false →
       Startup.Shutdown invoke timestamp a
       = Startup.Returned tt
           (with_engine
              (GameEngine.mkEngine GameEngine.Uninitialized
                 (GameEngine.stateCallbacks_ (Startup.engine a))
                 (GameEngine.lastFrameTime_ (Startup.engine a))
                 (GameEngine.deltaTime_ (Startup.engine a))
                 (GameEngine.fixedTimeStep_ (Startup.engine a))
                 (GameEngine.accumulator_ (Startup.engine a))
                 (GameEngine.frameRateUpdateTimer_ (Startup.engine a))
                 (GameEngine.frameCount_ (Startup.engine a))
                 (GameEngine.currentFrameRate_ (Startup.engine a))
                 false 0%Z)
              None)
           ([GameEngine.EvShutdown; GameEngine.EvStoreState GameEngine.Exiting]
            ++ resets
            ++ [GameEngine.EvThreadManagerShutdown;
                GameEngine.EvReset GameEngine.ThreadManagerHandle]
            ++ (if Profiler.IsEnabled (Startup.profiler a)
                then [GameEngine.EvSaveReport] else [])
            ++ [GameEngine.EvLoggerShutdown]) [])
  ∧ (∀ a' events out,
       GameEngine.gameState_ (Startup.engine a) ≠ GameEngine.Uninitialized →
       Startup.Shutdown invoke timestamp a = Startup.Returned tt a' events out →
       GameEngine.gameState_ (Startup.engine a') = GameEngine.Uninitialized
       ∧ GameEngine.exitRequested_ (Startup.engine a') = false
       ∧ GameEngine.exitCode_ (Startup.engine a') = 0%Z
       ∧ Startup.threadManager_ a' = None
       ∧ is_Some (Startup.threadManager_ a)
       ∧ Logger.initialized_ (Startup.logger a') = false).
Proof.
  intros exiting with_engine resets.
  destruct a as [e an ww wh fs tm lg pf]. simpl in *.
  split; [|split; [|split; [|split; [|split]]]].
  - intros Hu. unfold Startup.Shutdown. simpl. by rewrite decide_True.
  - intros cb Hu Hx Hcb. unfold Startup.Shutdown, Startup.SetGameState. simpl.
    rewrite decide_False by done.
    unfold GameEngine.SetGameState. rewrite !decide_False by done.
    simpl. rewrite Hcb.
    change (GameEngine.set_gameState GameEngine.Exiting e) with exiting.
    split.
    + intros ->. reflexivity.
    + intros -> ->. reflexivity.
  - intros Hu Hx Hcb ->. unfold Startup.Shutdown, Startup.SetGameState. simpl.
    rewrite decide_False by done.
    unfold GameEngine.SetGameState. rewrite !decide_False by done.
    simpl. rewrite Hcb. reflexivity.
  - intros Hx ->. unfold Startup.Shutdown, Startup.SetGameState. simpl.
    rewrite decide_False by (rewrite Hx; discriminate).
    unfold GameEngine.SetGameState. rewrite !decide_True by done.
    reflexivity.
  - intros manager Hu Hx Hcb -> Hnw Hm Hi.
    destruct (ThreadManager_Shutdown_no_worker manager Hnw)
      as (manager1 & tr1 & Hs1 & Hnw1 & Hi1).
    destruct Hnw1 as (_ & Hm1 & _).
    unfold Startup.Shutdown, Startup.SetGameState. simpl.
    rewrite decide_False by done.
    unfold GameEngine.SetGameState. rewrite !decide_False by done.
    simpl. rewrite Hcb. unfold Startup.ShutdownSubsystems. simpl.
    rewrite Hs1, (Shutdown_uninitialized manager1 Hm1 Hi1). simpl.
    by rewrite (Logger_Shutdown_uninitialized timestamp lg Hm Hi).
  - intros a' events out Hu. unfold Startup.Shutdown. simpl.
    rewrite decide_False by done.
    destruct (Startup.SetGameState invoke GameEngine.Exiting _)
      as [[] a1 ev1 out1| | | |] eqn:Hset; try discriminate.
    unfold Startup.ShutdownSubsystems.
    destruct (Startup.threadManager_ a1) as [manager|] eqn:Htm;
      [|discriminate].
    destruct (ThreadManager.Shutdown manager) as [[] manager1 tr1| |];
      try discriminate.
    destruct (ThreadManager.Shutdown manager1) as [[] manager2 tr2| |];
      try discriminate.
    simpl.
    destruct (Logger.Shutdown timestamp (Startup.logger a1))
      as [[] lg4 out4|] eqn:Hlg; [|discriminate].
    intros H. injection H as <- _ _. simpl.
    repeat (split; [reflexivity|]). split.
    + apply SetGameState_keeps_singletons in Hset as [Htm1 _].
      simpl in Htm1. rewrite Htm1 in Htm. by rewrite Htm.
    + by apply Logger_Shutdown_leaves_uninitialized in Hlg.
Qed.

End StartupFacts.

(** ** The profiler *)

Section ProfilerFacts.
Context (microseconds : Z → Z).
Implicit Types (p : Profiler.t) (data : Profiler.ProfileData).
#[local] Open Scope Z_scope.

Lemma wrap32_range z : 0 ≤ Wrapper.wrap32 z < 2 ^ 32.
Proof. unfold Wrapper.wrap32. apply Z.mod_pos_bound. lia. Qed.

Lemma wrap32_small z : 0 ≤ z < 2 ^ 32 → Wrapper.wrap32 z = z.
Proof. intros H. unfold Wrapper.wrap32. by apply Z.mod_small. Qed.

Lemma wrap32_succ z : Wrapper.wrap32 (Wrapper.wrap32 z + 1) = Wrapper.wrap32 (z + 1).
Proof. unfold Wrapper.wrap32. by rewrite Zplus_mod_idemp_l. Qed.

Lemma wrap32_pred z : Wrapper.wrap32 (Wrapper.wrap32 z - 1) = Wrapper.wrap32 (z - 1).
Proof. unfold Wrapper.wrap32. by rewrite Zminus_mod_idemp_l. Qed.

(** What every section's record satisfies. *)
Lemma call_keeps_counts c p :
  (∀ name data, Profiler.profileData_ p !! name = Some data →
     Profiler.activeCount data
     = Wrapper.wrap32 (Z.of_nat (length (Profiler.startTimes data)))
     ∧ Profiler.minTime data ≤ Profiler.maxTime data
     ∧ 0 ≤ Profiler.callCount data < 2 ^ 32) →
  ∀ name data,
    Profiler.profileData_ (Profiler.call microseconds c p) !! name = Some data →
    Profiler.activeCount data
    = Wrapper.wrap32 (Z.of_nat (length (Profiler.startTimes data)))
    ∧ Profiler.minTime data ≤ Profiler.maxTime data
    ∧ 0 ≤ Profiler.callCount data < 2 ^ 32.
Proof.
  intros Hp name data. destruct c as [en|n now|n endTime| |en]; simpl.
  - by rewrite lookup_empty.
  - unfold Profiler.BeginProfile.
    destruct (Profiler.enabled_ p); simpl; [|by apply Hp].
    destruct (decide (n = name)) as [->|Hne].
    + rewrite lookup_insert_eq. intros [= <-]. simpl.
      destruct (Profiler.profileData_ p !! name) as [d|] eqn:E; simpl.
      * destruct (Hp _ _ E) as (Ha & Hm & Hc). rewrite Ha, wrap32_succ.
        split; [f_equal; lia|done].
      * split; [done|]. split; [done|]. lia.
    + rewrite lookup_insert_ne by done. by apply Hp.
  - unfold Profiler.EndProfile.
    destruct (Profiler.enabled_ p); simpl; [|by apply Hp].
    destruct (Profiler.profileData_ p !! n) as [d|] eqn:E; [|by apply Hp].
    destruct (decide (Profiler.activeCount d = 0)); [by apply Hp|].
    destruct (Profiler.startTimes d) as [|startTime rest] eqn:Es; [by apply Hp|].
    simpl. destruct (decide (n = name)) as [->|Hne].
    + rewrite lookup_insert_eq. intros [= <-]. simpl.
      destruct (Hp _ _ E) as (Ha & Hm & Hc). rewrite Es in Ha. simpl in Ha.
      split; [|split].
      * rewrite Ha, wrap32_pred. f_equal. lia.
      * case_decide; lia.
      * apply wrap32_range.
    + rewrite lookup_insert_ne by done. by apply Hp.
  - by rewrite lookup_empty.
  - by apply Hp.
Qed.

(** X15. Whatever calls are made on a profiler, in whatever order and with
    whatever clock readings, every section's record keeps its counter of
    open measurements equal to the number of pending start times (modulo
    2^32), its minimum at most its maximum, and its call count within
    [uint32_t]. *)
Theorem profiler_counts_pending_starts (calls : list Profiler.Call)
    (name : string) data :
  Profiler.profileData_
    (Profiler.run microseconds calls Profiler.constructed) !! name
  = Some data →
  Profiler.activeCount data
  = Wrapper.wrap32 (Z.of_nat (length (Profiler.startTimes data)))
  ∧ Profiler.minTime data ≤ Profiler.maxTime data
  ∧ 0 ≤ Profiler.callCount data < 2 ^ 32.
Proof.
  revert name data. unfold Profiler.run.
  induction calls as [|c calls IH] using rev_ind; intros name data.
  - simpl. by rewrite lookup_empty.
  - rewrite foldl_app. simpl. by apply call_keeps_counts.
Qed.

Lemma scoped_enabled (name : string) (entered exited : Z) p :
  Profiler.enabled_ p = true →
  let data := default Profiler.fresh (Profiler.profileData_ p !! name) in
  0 ≤ Profiler.activeCount data < 2 ^ 32 - 1 →
  Profiler.scoped microseconds name entered exited id p
  = Profiler.mkProfiler true
      (<[name := ProfilerVocabulary.recorded
                   (microseconds (exited - entered)) data]>
         (Profiler.profileData_ p)).
Proof.
  unfold Profiler.scoped, Profiler.BeginProfile.
  intros He; rewrite He; cbn [negb id].
  intros Ha.
  set (data := default Profiler.fresh (Profiler.profileData_ p !! name)) in *.
  unfold Profiler.EndProfile.
  cbn [Profiler.enabled_ Profiler.profileData_ negb].
  rewrite lookup_insert_eq.
  cbn [Profiler.activeCount Profiler.startTimes Profiler.totalTime
       Profiler.minTime Profiler.maxTime Profiler.callCount].
  rewrite (wrap32_small (_ + 1)) by lia.
  rewrite decide_False by lia.
  rewrite insert_insert_eq. f_equal. f_equal.
  unfold ProfilerVocabulary.recorded. f_equal.
  replace (Profiler.activeCount data + 1 - 1)
    with (Profiler.activeCount data) by lia.
  apply wrap32_small. lia.
Qed.

(** X16. On an enabled profiler, a scope that begins and ends again
    measures itself: whatever measurements of the section are still open,
    [EndProfile] pairs with the [BeginProfile] of the same scope, the
    pending start times and the open count are as before, and the record
    gains one call of the scope's own duration. (The counter of open
    measurements must not be at its last value before wrapping.) A disabled
    profiler is left untouched. *)
Theorem scope_measures_itself (name : string) (entered exited : Z) p :
  (Profiler.enabled_ p = false →
   Profiler.scoped microseconds name entered exited id p = p)
  ∧ (Profiler.enabled_ p = true →
     let data := default Profiler.fresh (Profiler.profileData_ p !! name) in
     0 ≤ Profiler.activeCount data < 2 ^ 32 - 1 →
     Profiler.scoped microseconds name entered exited id p
     = Profiler.mkProfiler true
         (<[name := ProfilerVocabulary.recorded
                      (microseconds (exited - entered)) data]>
            (Profiler.profileData_ p))).
Proof.
  split; [|apply scoped_enabled].
  intros He. unfold Profiler.scoped, Profiler.BeginProfile, Profiler.EndProfile.
  rewrite He. cbn [negb id]. by rewrite He.
Qed.

Lemma measure_snoc name intervals i p :
  Profiler.measure microseconds name (intervals ++ [i]) p
  = Profiler.scoped microseconds name i.1 i.2 id
      (Profiler.measure microseconds name intervals p).
Proof. unfold Profiler.measure. by rewrite foldl_app. Qed.

(** X17. A section measured [n] times in a row on a newly initialized,
    enabled profiler (1 <= n < 2^32, each measurement ended before the next
    begins) has call count [n], no measurement open, a total time that is
    the sum of the measured durations, and as minimum and maximum the
    smallest and the largest of them. *)
Theorem measure_accounts (name : string) (intervals : list (Z * Z)) p :
  intervals ≠ [] →
  Z.of_nat (length intervals) < 2 ^ 32 →
  ∃ data,
    Profiler.profileData_
      (Profiler.measure microseconds name intervals (Profiler.Initialize true p))
      !! name = Some data
    ∧ Profiler.startTimes data = []
    ∧ Profiler.activeCount data = 0
    ∧ Profiler.callCount data = Z.of_nat (length intervals)
    ∧ Profiler.totalTime data
      = ProfilerVocabulary.total (Profiler.durations microseconds intervals)
    ∧ (Profiler.minTime data ∈ Profiler.durations microseconds intervals
       ∧ ∀ d, d ∈ Profiler.durations microseconds intervals →
              Profiler.minTime data ≤ d)
    ∧ (Profiler.maxTime data ∈ Profiler.durations microseconds intervals
       ∧ ∀ d, d ∈ Profiler.durations microseconds intervals →
              d ≤ Profiler.maxTime data).
Proof.
  assert (∀ l x, ProfilerVocabulary.total (l ++ [x])
                 = ProfilerVocabulary.total l + x) as Htotal by
    (induction l as [|? ? IH]; intros; simpl; [lia|rewrite IH; lia]).
  assert (Profiler.enabled_
            (Profiler.Initialize true p) = true) as He0 by done.
  assert (∀ l, Profiler.enabled_
            (Profiler.measure microseconds name l (Profiler.Initialize true p))
          = true) as He.
  { induction l as [|i l IH] using rev_ind; [done|].
    rewrite measure_snoc. unfold Profiler.scoped, Profiler.EndProfile,
      Profiler.BeginProfile. simpl. rewrite IH. simpl.
    rewrite lookup_insert_eq. simpl.
    by destruct (decide _). }
  induction intervals as [|i l IH] using rev_ind; [done|].
  intros _ Hlen. rewrite length_app in Hlen. cbn [length] in Hlen.
  rewrite measure_snoc.
  pose proof (scoped_enabled name i.1 i.2
                (Profiler.measure microseconds name l (Profiler.Initialize true p))
                (He l)) as Hscope.
  cbv zeta in Hscope.
  assert (Profiler.durations microseconds (l ++ [i])
          = Profiler.durations microseconds l ++ [microseconds (i.2 - i.1)])
    as -> by (unfold Profiler.durations; by rewrite fmap_app).
  rewrite length_app. cbn [length].
  destruct (decide (l = [])) as [->|Hl].
  - change (Profiler.measure microseconds name [] (Profiler.Initialize true p))
      with (Profiler.Initialize true p) in Hscope |- *.
    rewrite Hscope by (cbn; rewrite lookup_empty; cbn; lia).
    cbn [Profiler.profileData_ Profiler.Initialize].
    rewrite lookup_insert_eq, lookup_empty. eexists. split; [reflexivity|].
    cbn. split; [done|]. split; [done|]. split; [done|].
    split; [lia|].
    split; split.
    + apply list_elem_of_singleton. reflexivity.
    + intros d ->%list_elem_of_singleton. reflexivity.
    + apply list_elem_of_singleton. reflexivity.
    + intros d ->%list_elem_of_singleton. reflexivity.
  - destruct IH as (data & Hd & Hs & Ha & Hc & Ht & [Hmin1 Hmin2] & [Hmax1 Hmax2]);
      [done|lia|].
    assert (1 ≤ Z.of_nat (length l)) as Hpos by (destruct l; [done|cbn [length]; lia]).
    rewrite Hd in Hscope.
    change (default Profiler.fresh (Some data)) with data in Hscope.
    rewrite Hscope by (rewrite Ha; lia).
    cbn [Profiler.profileData_].
    rewrite lookup_insert_eq. eexists. split; [reflexivity|].
    unfold ProfilerVocabulary.recorded.
    cbn [Profiler.startTimes Profiler.totalTime Profiler.minTime
         Profiler.maxTime Profiler.callCount Profiler.activeCount].
    rewrite Hc. rewrite wrap32_small by lia.
    rewrite !decide_False by lia.
    split; [done|]. split; [done|]. split; [lia|].
    split; [by rewrite Htotal, Ht|].
    split; split.
    + apply elem_of_app.
      destruct (Z.min_spec (Profiler.minTime data) (microseconds (i.2 - i.1)))
        as [[_ ->]|[_ ->]]; [by left|right; by apply list_elem_of_singleton].
    + intros d [Hin| ->%list_elem_of_singleton]%elem_of_app;
        [specialize (Hmin2 d Hin)|]; lia.
    + apply elem_of_app.
      destruct (Z.max_spec (Profiler.maxTime data) (microseconds (i.2 - i.1)))
        as [[_ ->]|[_ ->]]; [right; by apply list_elem_of_singleton|by left].
    + intros d [Hin| ->%list_elem_of_singleton]%elem_of_app;
        [specialize (Hmax2 d Hin)|]; lia.
Qed.

End ProfilerFacts.

(** ** The thread function *)

Section ThreadFunctionFacts.
#[local] Open Scope Z_scope.

Lemma run_add (a b : nat) : ∀ w count calls,
  ThreadFunction.run (a + b) w count calls
  = let '(w', count', calls') := ThreadFunction.run a w count calls in
    ThreadFunction.run b w' count' calls'.
Proof.
  induction a as [|a IH]; intros w count calls; [reflexivity|].
  simpl. destruct (Wrapper.wrapper_step _ w count) as [[w1 c1]|] eqn:E.
  - apply IH.
  - destruct b; simpl; by rewrite ?E.
Qed.

(** X29. Whether a thread runs its function once or for ever is decided
    by its name. Left alone, with a function that returns, the thread
    function of a thread whose name does not contain "Worker" calls the
    function once and ends: nine statements later the thread is [Stopped]
    and the counter of active threads is back at its value. With a name
    that contains "Worker" it calls the function again and again: after
    [2 + 4 k] statements it is back at the loop test, [Running], having
    made [k] calls, for every [k]. *)
Theorem thread_function_repeats_by_name (name : string)
    (priority : ThreadManager.ThreadPriority) (count : Z) :
  0 ≤ count < 2 ^ 32 →
  (Wrapper.name_has_Worker name = false →
   ThreadFunction.run 9 (Wrapper.spawned name priority) count 0
   = (Wrapper.mkWorker
        (ThreadManager.mkThreadInfo true name priority ThreadManager.Stopped
           false false)
        Wrapper.Finished,
      count, 1%nat))
  ∧ (Wrapper.name_has_Worker name = true →
     ∀ k : nat,
       ThreadFunction.run (2 + 4 * k) (Wrapper.spawned name priority) count 0
       = (Wrapper.mkWorker
            (ThreadManager.mkThreadInfo true name priority
               ThreadManager.Running false false)
            Wrapper.AtLoopTest,
          Wrapper.wrap32 (count + 1), k)).
Proof.
  intros Hc. split; intros Hn.
  - cbn [ThreadFunction.run Wrapper.wrapper_step Wrapper.spawned Wrapper.pc
         Wrapper.info ThreadManager.shouldStop ThreadManager.isPaused
         ThreadManager.name ThreadManager.set_status].
    rewrite Hn. cbn.
    rewrite wrap32_pred.
    replace (count + 1 - 1) with count by lia.
    by rewrite wrap32_small.
  - intros k. induction k as [|k IH].
    + reflexivity.
    + replace (2 + 4 * S k)%nat with ((2 + 4 * k) + 4)%nat by lia.
      rewrite run_add, IH.
      cbn [ThreadFunction.run Wrapper.wrapper_step Wrapper.pc Wrapper.info
           ThreadManager.shouldStop ThreadManager.isPaused ThreadManager.name].
      rewrite Hn. reflexivity.
Qed.

End ThreadFunctionFacts.

(** ** The atomic state cell and the double buffer *)

Section AtomicStateFacts.
Context {StateEnum : Type} `{EqDecision StateEnum}.

Lemma swaps_all_fail (expected desired : StateEnum) (n : nat) (state_ : StateEnum) :
  state_ ≠ expected →
  AtomicState.swaps (replicate n (expected, desired)) state_
  = (replicate n false, state_).
Proof.
  intros Hne. induction n as [|n IH]; [done|].
  simpl. unfold AtomicState.CompareAndSwap.
  rewrite decide_False by done. by rewrite IH.
Qed.

(** X18. When several threads race to make the same transition with
    [CompareAndSwap(expected, desired)], [expected] and [desired] being
    different states, exactly one of them wins: the call that takes effect
    first returns true, all the others return false, and the cell ends in
    [desired]. If the cell is not in [expected] to begin with, they all
    return false and the cell is unchanged. *)
Theorem CompareAndSwap_has_one_winner (expected desired : StateEnum) (n : nat)
    (state_ : StateEnum) :
  expected ≠ desired →
  (state_ = expected →
   AtomicState.swaps (replicate (S n) (expected, desired)) state_
   = (true :: replicate n false, desired))
  ∧ (state_ ≠ expected →
     AtomicState.swaps (replicate n (expected, desired)) state_
     = (replicate n false, state_)).
Proof.
  intros Hne. split.
  - intros ->. cbn [replicate AtomicState.swaps].
    unfold AtomicState.CompareAndSwap at 1.
    rewrite decide_True by done.
    by rewrite swaps_all_fail.
  - apply swaps_all_fail.
Qed.

End AtomicStateFacts.

Section DoubleBufferFacts.
Context {T : Type}.
Implicit Types (b : DoubleBuffer.t T) (func : T → T).

Lemma run_keeps_buffers_apart (calls : list (DoubleBuffer.Call T)) b :
  DoubleBuffer.frontBuffer_ b ≠ DoubleBuffer.backBuffer_ b →
  DoubleBuffer.frontBuffer_ (DoubleBuffer.run calls b)
  ≠ DoubleBuffer.backBuffer_ (DoubleBuffer.run calls b).
Proof.
  revert b. induction calls as [|c calls IH]; intros b Hb; [done|].
  simpl. apply IH. destruct c; simpl; [by intros ?|done].
Qed.

(** X19. A pointer obtained from [GetFrontBuffer] does not stay a pointer
    to the front buffer: after the next [Swap] it is the address that
    [GetBackBufferForWriting] hands out, and what a reader sees through it
    changes with the next [ModifyBackBuffer]. This holds in every state the
    buffer can reach from its constructor. *)
Theorem front_pointer_becomes_back_pointer (initialData : T)
    (calls : list (DoubleBuffer.Call T)) func :
  let b := DoubleBuffer.run calls (DoubleBuffer.make initialData) in
  let p := DoubleBuffer.GetFrontBuffer b in
  DoubleBuffer.GetBackBufferForWriting (DoubleBuffer.Swap b) = p
  ∧ DoubleBuffer.GetFrontBuffer (DoubleBuffer.Swap b) ≠ p
  ∧ DoubleBuffer.read
      (DoubleBuffer.ModifyBackBuffer func (DoubleBuffer.Swap b)) p
    = func (DoubleBuffer.read b p).
Proof.
  intros b p.
  assert (DoubleBuffer.frontBuffer_ b ≠ DoubleBuffer.backBuffer_ b) as Hb
    by (by apply run_keeps_buffers_apart).
  split; [done|]. split; [by intros ?|].
  unfold DoubleBuffer.read, DoubleBuffer.ModifyBackBuffer. simpl.
  by rewrite decide_True.
Qed.

(** X20. [Swap] exchanges the two buffers without copying. After two
    writer frames (write the back buffer with [f], swap, write with [g],
    swap) the front buffer holds [g] of what the front buffer held at the
    start, and the back buffer holds [f] of what the back buffer held: the
    second frame's write does not build on the first frame's. *)
Theorem writes_alternate_between_buffers (initialData : T)
    (calls : list (DoubleBuffer.Call T)) (f g : T → T) :
  let b := DoubleBuffer.run calls (DoubleBuffer.make initialData) in
  let b' := DoubleBuffer.publish g (DoubleBuffer.publish f b) in
  DoubleBuffer.read b' (DoubleBuffer.GetFrontBuffer b')
  = g (DoubleBuffer.read b (DoubleBuffer.GetFrontBuffer b))
  ∧ DoubleBuffer.read b' (DoubleBuffer.GetBackBufferForWriting b')
    = f (DoubleBuffer.read b (DoubleBuffer.GetBackBufferForWriting b)).
Proof.
  intros b b'.
  assert (DoubleBuffer.frontBuffer_ b ≠ DoubleBuffer.backBuffer_ b) as Hb
    by (by apply run_keeps_buffers_apart).
  subst b'. unfold DoubleBuffer.publish, DoubleBuffer.read,
    DoubleBuffer.ModifyBackBuffer, DoubleBuffer.Swap,
    DoubleBuffer.GetFrontBuffer, DoubleBuffer.GetBackBufferForWriting.
  simpl. split; repeat case_decide; congruence.
Qed.

End DoubleBufferFacts.

(** ** Vectors, quaternions, transforms *)

Section TypesFacts.
#[local] Open Scope Q_scope.
Implicit Types (q : Quaternion.t) (v a b : Vector3.t).

(** X21. [RotateVector] returns the opposite of the rotated vector: the
    quaternion it uses as inverse, [(-w, x, y, z)], is minus the conjugate.
    For every quaternion and vector the result is the negation of the
    vector part of [q * v * conj(q)]; its squared length is the vector's
    times the square of the quaternion's squared norm; and the identity
    quaternion maps every vector to its opposite. *)
Theorem RotateVector_negates q v :
  Vector3.equiv (Quaternion.RotateVector q v)
    (RotationVocabulary.opposite (RotationVocabulary.rotation q v))
  ∧ Vector3.Dot (Quaternion.RotateVector q v) (Quaternion.RotateVector q v)
    == RotationVocabulary.norm2 q * RotationVocabulary.norm2 q * Vector3.Dot v v
  ∧ Vector3.equiv (Quaternion.RotateVector Quaternion.identity v)
      (RotationVocabulary.opposite v).
Proof.
  destruct q as [qw qx qy qz], v as [vx vy vz].
  unfold Vector3.equiv, Quaternion.RotateVector, RotationVocabulary.rotation,
    RotationVocabulary.opposite, RotationVocabulary.conjugate,
    RotationVocabulary.norm2, Vector3.Dot, Quaternion.mul, Quaternion.identity.
  cbn [Vector3.x Vector3.y Vector3.z Quaternion.w Quaternion.x Quaternion.y
       Quaternion.z].
  repeat split; ring.
Qed.

(** X22. A transform that does not rotate (its rotation is the identity
    quaternion, as in a default-constructed [Transform]) maps a point to
    its position minus the scaled point, not plus. For two such transforms
    [Combine] agrees with applying one after the other only on the points
    that the two scales send to zero. *)
Theorem TransformPoint_without_rotation (position1 scale1 position2 scale2 point : Vector3.t) :
  let t1 := Transform.mk position1 Quaternion.identity scale1 in
  let t2 := Transform.mk position2 Quaternion.identity scale2 in
  Vector3.equiv (Transform.TransformPoint t1 point)
    (Vector3.sub position1 (RotationVocabulary.scaled scale1 point))
  ∧ (Vector3.equiv
       (Transform.TransformPoint (Transform.Combine t1 t2) point)
       (Transform.TransformPoint t1 (Transform.TransformPoint t2 point))
     ↔ Vector3.equiv
         (RotationVocabulary.scaled scale1
            (RotationVocabulary.scaled scale2 point))
         Vector3.zero).
Proof.
  destruct position1 as [px py pz], scale1 as [sx sy sz],
    position2 as [px' py' pz'], scale2 as [sx' sy' sz'], point as [x y z].
  cbv [Vector3.equiv Transform.TransformPoint Transform.Combine
       Quaternion.RotateVector RotationVocabulary.scaled Vector3.add
       Vector3.sub Vector3.zero Quaternion.mul Quaternion.identity
       Vector3.x Vector3.y Vector3.z Quaternion.w Quaternion.x Quaternion.y
       Quaternion.z Transform.position Transform.rotation Transform.scale].
  split; [repeat split; ring|].
  split.
  - intros (Hx & Hy & Hz). repeat split; lra.
  - intros (Hx & Hy & Hz). repeat split; lra.
Qed.

(** X23. The formulas of [Cross] and of the quaternion product are the
    textbook ones: the cross product is orthogonal to both its arguments
    and changes sign when they are exchanged; the quaternion product is
    associative, has the identity quaternion as unit, and the squared norm
    of a product is the product of the squared norms. *)
Theorem Cross_and_product_laws a b (p q r : Quaternion.t) :
  Vector3.Dot a (Vector3.Cross a b) == 0
  ∧ Vector3.Dot b (Vector3.Cross a b) == 0
  ∧ Vector3.equiv (Vector3.Cross b a)
      (RotationVocabulary.opposite (Vector3.Cross a b))
  ∧ Quaternion.equiv (Quaternion.mul (Quaternion.mul p q) r)
      (Quaternion.mul p (Quaternion.mul q r))
  ∧ Quaternion.equiv (Quaternion.mul Quaternion.identity q) q
  ∧ Quaternion.equiv (Quaternion.mul q Quaternion.identity) q
  ∧ RotationVocabulary.norm2 (Quaternion.mul p q)
    == RotationVocabulary.norm2 p * RotationVocabulary.norm2 q.
Proof.
  destruct a as [ax ay az], b as [bx by' bz], p as [pw px py pz],
    q as [qw qx qy qz], r as [rw rx ry rz].
  unfold Vector3.equiv, Quaternion.equiv, Vector3.Dot, Vector3.Cross,
    RotationVocabulary.opposite, RotationVocabulary.norm2, Quaternion.mul,
    Quaternion.identity.
  cbn [Vector3.x Vector3.y Vector3.z Quaternion.w Quaternion.x Quaternion.y
       Quaternion.z].
  repeat split; ring.
Qed.

End TypesFacts.

(** ** The main loop, further *)

Section EngineLoopFacts.
Context {Callback : Type} (invoke : Callback → GameEngine.Engine Callback →
                                   GameEngine.Engine Callback).
Implicit Types (e : GameEngine.Engine Callback).
#[local] Open Scope Q_scope.

(** When the fixed-step loop has run at least once, the last subtraction
    was made from an accumulator that held a whole step. *)
Lemma fixed_loop_last fuel : ∀ e e' tr,
  GameEngine.fixed_loop fuel e = Some (e', tr) →
  tr = [] ∨ 0 <= GameEngine.accumulator_ e'.
Proof.
  induction fuel as [|fuel IH]; intros e e' tr H; [discriminate|].
  rewrite fixed_loop_S in H. destruct (Qle_bool _ _) eqn:E.
  - destruct (GameEngine.fixed_loop fuel _) as [[e3 tr3]|] eqn:E3; [|discriminate].
    injection H as <- <-. right. apply Qle_bool_iff in E.
    destruct (IH _ _ _ E3) as [->|H0]; [|exact H0].
    apply fixed_loop_spec in E3 as (_ & _ & Hacc & _).
    rewrite Hacc. change (inject_Z (Z.of_nat (length []))) with 0.
    destruct e; simpl in *. lra.
  - injection H as <- <-. by left.
Qed.

Lemma loop_body_ticks fuel currentTime e e' tr :
  GameEngine.loop_body fuel currentTime e = Some (e', tr) →
  let deltaTime :=
    LoopVocabulary.clamp (currentTime - GameEngine.lastFrameTime_ e) in
  GameEngine.accumulator_ e'
  == GameEngine.accumulator_ e + deltaTime
     - inject_Z (Z.of_nat (LoopVocabulary.fixed_updates tr))
       * GameEngine.fixedTimeStep_ e
  ∧ GameEngine.accumulator_ e' < GameEngine.fixedTimeStep_ e
  ∧ (LoopVocabulary.fixed_updates tr = 0%nat
     ∨ 0 <= GameEngine.accumulator_ e')
  ∧ GameEngine.fixedTimeStep_ e' = GameEngine.fixedTimeStep_ e
  ∧ e' = GameEngine.set_accumulator (GameEngine.accumulator_ e')
           (GameEngine.measure_frame currentTime e).
Proof.
  unfold GameEngine.loop_body. rewrite ProcessInput_eval.
  destruct (measure_frame_fields currentTime e)
    as (Hd & Hl & Ha & Hf & Hx & Hc & Hg).
  set (e1 := GameEngine.measure_frame currentTime e) in *.
  destruct (GameEngine.fixed_loop fuel _) as [[e2 tr2]|] eqn:E2; [|discriminate].
  rewrite Update_eval, Render_eval. intros H. injection H as <- <-.
  pose proof (fixed_loop_last _ _ _ _ E2) as Hlast.
  apply fixed_loop_spec in E2 as (He2 & Htr & Hacc & Hlt & _).
  match goal with
  | |- context [LoopVocabulary.fixed_updates ?t] =>
      assert (LoopVocabulary.fixed_updates t = length tr2) as ->
  end.
  { unfold LoopVocabulary.fixed_updates.
    change (LoopVocabulary.fixed_update_steps
              (GameEngine.EvProcessInput :: ?t))
      with (LoopVocabulary.fixed_update_steps t).
    rewrite fixed_update_steps_app, Htr, fixed_update_steps_ticks.
    rewrite length_app, !length_replicate. simpl.
    destruct (GameEngine.Qltb _ _); simpl; lia. }
  simpl in *. rewrite Hd, Ha, Hf in *.
  split; [exact Hacc|]. split; [exact Hlt|].
  split; [destruct Hlast as [->|?]; [by left|by right]|].
  split; [rewrite He2; by destruct e1|].
  rewrite He2 at 1. by destruct e1.
Qed.

(** The frame-rate window after lines 154-160: published and reset, or
    one frame longer. *)
Lemma measure_frame_window_fields currentTime e :
  let deltaTime :=
    LoopVocabulary.clamp (currentTime - GameEngine.lastFrameTime_ e) in
  let e1 := GameEngine.measure_frame currentTime e in
  (1 <= GameEngine.frameRateUpdateTimer_ e + deltaTime
   ∧ GameEngine.frameRateUpdateTimer_ e1 = 0
   ∧ GameEngine.frameCount_ e1 = 0%Z
   ∧ GameEngine.currentFrameRate_ e1
     = inject_Z (GameEngine.frameCount_ e + 1)
       / (GameEngine.frameRateUpdateTimer_ e + deltaTime))
  ∨ (GameEngine.frameRateUpdateTimer_ e1
     = GameEngine.frameRateUpdateTimer_ e + deltaTime
     ∧ GameEngine.frameCount_ e1 = (GameEngine.frameCount_ e + 1)%Z
     ∧ GameEngine.currentFrameRate_ e1 = GameEngine.currentFrameRate_ e).
Proof.
  unfold GameEngine.measure_frame, LoopVocabulary.clamp. simpl.
  destruct (GameEngine.Qltb _ _); simpl;
    (destruct (Qle_bool _ _) eqn:E; simpl;
     [left; apply Qle_bool_iff in E; done|right; done]).
Qed.

Lemma measure_frame_window currentTime e :
  GameEngine.frameRateUpdateTimer_ e
  <= inject_Z (GameEngine.frameCount_ e) * GameEngine.MAX_TIMESTEP →
  let e1 := GameEngine.measure_frame currentTime e in
  GameEngine.frameRateUpdateTimer_ e1
  <= inject_Z (GameEngine.frameCount_ e1) * GameEngine.MAX_TIMESTEP
  ∧ (GameEngine.currentFrameRate_ e1 = GameEngine.currentFrameRate_ e
     ∨ 30 <= GameEngine.currentFrameRate_ e1).
Proof.
  intros Hinv e1.
  pose proof (clamp_le_MAX (currentTime - GameEngine.lastFrameTime_ e)) as Hd.
  assert (GameEngine.frameRateUpdateTimer_ e
          + LoopVocabulary.clamp (currentTime - GameEngine.lastFrameTime_ e)
          <= inject_Z (GameEngine.frameCount_ e + 1) * GameEngine.MAX_TIMESTEP)
    as Hnext.
  { rewrite inject_Z_plus. change (inject_Z 1) with 1.
    unfold GameEngine.MAX_TIMESTEP in *.
    generalize dependent (inject_Z (GameEngine.frameCount_ e)).
    intros x Hx. lra. }
  destruct (measure_frame_window_fields currentTime e)
    as [(H1 & Ht & Hc & Hr)|(Ht & Hc & Hr)]; fold e1 in Ht, Hc, Hr.
  - rewrite Ht, Hc, Hr. split.
    + change (inject_Z 0) with 0. unfold GameEngine.MAX_TIMESTEP. lra.
    + right. apply Qle_shift_div_l; [lra|].
      unfold GameEngine.MAX_TIMESTEP in Hnext.
      generalize dependent (inject_Z (GameEngine.frameCount_ e + 1)).
      intros x Hx. lra.
  - rewrite Ht, Hc, Hr. split; [exact Hnext|by left].
Qed.

(** X25. The frame rate that the loop publishes is never below 30 frames
    per second, however slow the frames are: the seconds it sums are the
    deltas capped at [MAX_TIMESTEP], so a window of one second never holds
    fewer than 30 frames. Over any run of iterations, from an engine whose
    window is empty (as the constructor leaves it) and whose fixed step is
    positive, the loop completes every iteration and [currentFrameRate_]
    either still has its initial value or is 30 or more. *)
Theorem published_frame_rate_at_least_30 (clocks : list Q) : ∀ e,
  GameEngine.exitRequested_ e = false →
  0 < GameEngine.fixedTimeStep_ e →
  GameEngine.frameRateUpdateTimer_ e
  <= inject_Z (GameEngine.frameCount_ e) * GameEngine.MAX_TIMESTEP →
  ∃ fuel0 e' tr,
    (∀ fuel, (fuel0 ≤ fuel)%nat →
       GameEngine.main_loop invoke fuel (LoopVocabulary.quiet clocks) e
       = Some (GameEngine.StillRunning, e', tr))
    ∧ (GameEngine.currentFrameRate_ e' = GameEngine.currentFrameRate_ e
       ∨ 30 <= GameEngine.currentFrameRate_ e')
    ∧ GameEngine.frameRateUpdateTimer_ e'
      <= inject_Z (GameEngine.frameCount_ e') * GameEngine.MAX_TIMESTEP.
Proof.
  induction clocks as [|currentTime clocks IH]; intros e Hx Hfs Hinv.
  - exists 0%nat, e, []. split; [|split; [by left|exact Hinv]].
    intros fuel _. simpl. by rewrite Hx.
  - destruct (loop_body_terminates currentTime e Hfs) as (fuel1 & [e1 tr1] & Hr).
    pose proof (Hr fuel1 (le_n _)) as Hbody.
    destruct (loop_body_ticks _ _ _ _ _ Hbody) as (_ & _ & _ & Hf & He1).
    apply loop_body_spec in Hbody as (_ & _ & _ & _ & _ & _ & _ & Hx1 & _).
    destruct (measure_frame_window currentTime e Hinv) as [Hinv1 Hrate1].
    assert (GameEngine.frameRateUpdateTimer_ e1
            = GameEngine.frameRateUpdateTimer_
                (GameEngine.measure_frame currentTime e)
            ∧ GameEngine.frameCount_ e1
              = GameEngine.frameCount_ (GameEngine.measure_frame currentTime e)
            ∧ GameEngine.currentFrameRate_ e1
              = GameEngine.currentFrameRate_
                  (GameEngine.measure_frame currentTime e))
      as (Ht & Hc & Hrt).
    { rewrite He1.
      by destruct (GameEngine.measure_frame currentTime e). }
    destruct (IH e1) as (fuel2 & e' & tr & Hloop & Hrate & Hinv').
    + by rewrite Hx1.
    + by rewrite Hf.
    + by rewrite Ht, Hc.
    + exists (fuel1 `max` fuel2)%nat, e', (tr1 ++ tr).
      split; [|split; [|exact Hinv']].
      * intros fuel Hle. rewrite main_loop_quiet_cons by done.
        rewrite (Hr fuel) by lia. by rewrite (Hloop fuel) by lia.
      * rewrite Hrt in Hrate.
        destruct Hrate as [->|?]; [|by right]. exact Hrate1.
Qed.

End EngineLoopFacts.

(** ** The queue, further *)

Section QueueSizeFacts.
Context {T : Type}.
Implicit Types (q : ThreadSafeQueue.t T) (calls : list (ThreadSafeQueue.Call T)).

Lemma run_without_Pop calls : ∀ q,
  ThreadSafeQueue.CallPop ∉ calls → is_Some (ThreadSafeQueue.run calls q).
Proof.
  induction calls as [|c calls IH]; intros q Hno; [by eexists|].
  apply not_elem_of_cons in Hno as [Hc Hno].
  destruct c as [item| |]; [by apply IH|done|]. simpl.
  destruct q as [|x rest]; simpl; [by apply IH|].
  destruct (IH rest Hno) as [[q' out] ->]. by eexists.
Qed.

(** X27. A run of [Push] and [TryPop] calls always completes: only [Pop]
    can park its caller. Whenever a run of calls completes, from whatever
    queue, nothing is lost or made up: the items handed out followed by
    the items left are the items that were queued followed by the items
    pushed, so the final [Size] plus the number of items handed out is the
    initial [Size] plus the number of pushes; and [Empty] answers true
    exactly when [Size] is 0. *)
Theorem queue_accounts_for_every_item calls q :
  (ThreadSafeQueue.CallPop ∉ calls → is_Some (ThreadSafeQueue.run calls q))
  ∧ (∀ q' out,
       ThreadSafeQueue.run calls q = Some (q', out) →
       out ++ q' = q ++ ThreadSafeQueue.pushed calls
       ∧ (ThreadSafeQueue.Size q' + length out
          = ThreadSafeQueue.Size q + length (ThreadSafeQueue.pushed calls))%nat)
  ∧ (ThreadSafeQueue.Empty q = true ↔ ThreadSafeQueue.Size q = 0%nat).
Proof.
  split; [apply run_without_Pop|]. split.
  - intros q' out Hrun. apply run_conserves in Hrun. split; [done|].
    unfold ThreadSafeQueue.Size.
    rewrite <- (length_app q), Hrun, length_app. lia.
  - destruct q; simpl; split; congruence.
Qed.

End QueueSizeFacts.

(** ** The fixed-step law, in double precision *)

Section DoubleLoopFacts.
Implicit Types (step acc a dt : DoubleLoop.double) (deltas : list DoubleLoop.double).
#[local] Open Scope Q_scope.











End DoubleLoopFacts.


(** ** The properties above, at sample inputs *)

Lemma StopThread_stops_once_witness :
  ThreadManager.StopThread "Ghost" Samples.busy_registry
  = ThreadManager.Returned false Samples.busy_registry []
  ∧ ThreadManager.StopThread "Audio" Samples.busy_registry
    = ThreadManager.Returned true
        (ThreadManager.mkState
           (<["Physics" := ThreadManager.mkThreadInfo true "Physics"
                             ThreadManager.High ThreadManager.Paused false true]>
              (<["Audio" := ThreadManager.mkThreadInfo false "Audio"
                              ThreadManager.Normal ThreadManager.Stopped true
                              false]>
                 (<["Loader" := ThreadManager.mkThreadInfo false "Loader"
                                  ThreadManager.Low ThreadManager.Stopped true
                                  false]> ∅)))
           ∅ false 4 true 1)
        [ThreadManager.EvStoreStop "Audio"; ThreadManager.EvJoin "Audio";
         ThreadManager.EvStoreStatus "Audio" ThreadManager.Stopped]
  ∧ ThreadManager.StopThread "Physics" Samples.busy_registry
    = ThreadManager.Returned true
        (ThreadManager.mkState
           (<["Physics" := ThreadManager.mkThreadInfo false "Physics"
                             ThreadManager.High ThreadManager.Stopped true
                             false]>
              (<["Audio" := ThreadManager.mkThreadInfo true "Audio"
                              ThreadManager.Normal ThreadManager.Running false
                              false]>
                 (<["Loader" := ThreadManager.mkThreadInfo false "Loader"
                                  ThreadManager.Low ThreadManager.Stopped true
                                  false]> ∅)))
           ∅ false 4 true 1)
        [ThreadManager.EvStoreStop "Physics";
         ThreadManager.EvSetPause "Physics" false;
         ThreadManager.EvNotify "Physics"; ThreadManager.EvJoin "Physics";
         ThreadManager.EvStoreStatus "Physics" ThreadManager.Stopped]
  ∧ ThreadManager.StopThread "Stuck" MoreSamples.stuck_registry
    = ThreadManager.Deadlock.
Proof.
  pose proof (StopThread_stops_once "Ghost" Samples.busy_registry eq_refl)
    as [Hghost _].
  pose proof (proj2 (StopThread_stops_once "Audio" Samples.busy_registry
                       eq_refl) MoreSamples.audio_worker eq_refl)
    as Haudio.
  pose proof (proj2 (StopThread_stops_once "Physics" Samples.busy_registry
                       eq_refl)
                (ThreadManager.mkThreadInfo true "Physics" ThreadManager.High
                   ThreadManager.Paused false true) eq_refl)
    as Hphysics.
  pose proof (proj2 (StopThread_stops_once "Stuck" MoreSamples.stuck_registry
                       eq_refl) MoreSamples.stuck_worker eq_refl)
    as Hstuck.
  split; [|split; [|split]].
  - apply Hghost. reflexivity.
  - destruct Haudio as [_ Haudio]; [discriminate|].
    destruct Haudio as (-> & _); [right; by exists true|].
    vm_compute. reflexivity.
  - destruct Hphysics as [_ Hphysics]; [discriminate|].
    destruct Hphysics as (-> & _); [right; by exists true|].
    vm_compute. reflexivity.
  - destruct Hstuck as [Hstuck _]; [discriminate|].
    apply Hstuck; reflexivity.
Defined.

Lemma ResumeThread_before_worker_parks_witness :
  ThreadManager.ResumeThread "Audio"
    (ThreadManager.set_threads
       (<["Audio" := ThreadManager.set_isPaused true MoreSamples.audio_worker]>
          (ThreadManager.threads_ Samples.busy_registry))
       Samples.busy_registry)
  = ThreadManager.Returned false
      (ThreadManager.set_threads
         (<["Audio" := ThreadManager.set_isPaused true MoreSamples.audio_worker]>
            (ThreadManager.threads_ Samples.busy_registry))
         Samples.busy_registry) [].
Proof.
  refine (proj1 (proj2 (proj2 (ResumeThread_before_worker_parks "Audio"
            Samples.busy_registry MoreSamples.audio_worker _ _ _))));
    reflexivity.
Defined.

Lemma unknown_name_is_refused_witness :
  ThreadManager.PauseThread "Ghost" Samples.busy_registry
  = ThreadManager.Returned false Samples.busy_registry []
  ∧ ThreadPools.SubmitTask "Ghost" tt Samples.busy_registry
    = ThreadManager.Returned false Samples.busy_registry [].
Proof.
  split.
  - refine (proj1 (proj1 (unknown_name_is_refused "Ghost" Samples.busy_registry
                            _) _)); reflexivity.
  - refine (proj2 (unknown_name_is_refused "Ghost" Samples.busy_registry _)
              _ tt); reflexivity.
Defined.

Lemma SetThreadPriority_records_on_success_witness :
  ThreadPools.SetThreadPriority "Audio" ThreadManager.High true
    Samples.busy_registry
  = ThreadManager.Returned true
      (ThreadManager.mkState
         (<["Physics" := ThreadManager.mkThreadInfo true "Physics"
                           ThreadManager.High ThreadManager.Paused false true]>
            (<["Audio" := ThreadManager.mkThreadInfo true "Audio"
                            ThreadManager.High ThreadManager.Running false
                            false]>
               (<["Loader" := ThreadManager.mkThreadInfo false "Loader"
                                ThreadManager.Low ThreadManager.Stopped true
                                false]> ∅)))
         ∅ false 4 true 2)
      [ThreadManager.EvNativePriority "Audio" ThreadManager.High true]
  ∧ ThreadPools.SetThreadPriority "Audio" ThreadManager.High false
      Samples.busy_registry
    = ThreadManager.Returned false
        (ThreadManager.mkState
           (<["Physics" := ThreadManager.mkThreadInfo true "Physics"
                             ThreadManager.High ThreadManager.Paused false true]>
              (<["Audio" := ThreadManager.mkThreadInfo true "Audio"
                              ThreadManager.Normal ThreadManager.Running false
                              false]>
                 (<["Loader" := ThreadManager.mkThreadInfo false "Loader"
                                  ThreadManager.Low ThreadManager.Stopped true
                                  false]> ∅)))
           ∅ false 4 true 2)
        [ThreadManager.EvNativePriority "Audio" ThreadManager.High false].
Proof.
  pose proof (SetThreadPriority_records_on_success "Audio"
                Samples.busy_registry MoreSamples.audio_worker
                ThreadManager.High eq_refl eq_refl) as [Hno Hyes].
  split.
  - rewrite Hyes. vm_compute. reflexivity.
  - exact Hno.
Defined.

Lemma SubmitTask_keeps_submission_order_witness :
  ThreadPools.after_all MoreSamples.numbered_worker
    (ThreadPools.CallSubmitTask "Jobs" <$> [3; 1; 2]%nat)
    MoreSamples.pool_registry
  = Some (ThreadManager.set_threadPools
            (<["Jobs" := ThreadManager.mkThreadPoolInfo []
                           [7; 3; 1; 2]%nat]>
               (ThreadManager.threadPools_ MoreSamples.pool_registry))
            MoreSamples.pool_registry).
Proof.
  refine (SubmitTask_keeps_submission_order MoreSamples.numbered_worker "Jobs"
            [3; 1; 2]%nat MoreSamples.pool_registry MoreSamples.jobs_pool _ _);
    reflexivity.
Defined.

Lemma CreateThreadPool_outcomes_witness :
  ThreadPools.CreateThreadPool MoreSamples.numbered_worker "Jobs" 2
    ThreadManager.Normal true MoreSamples.pool_registry
  = ThreadManager.Returned false MoreSamples.pool_registry []
  ∧ ThreadPools.CreateThreadPool MoreSamples.numbered_worker "Loaders" 2
      ThreadManager.Normal true MoreSamples.pool_registry
    = ThreadManager.Deadlock.
Proof.
  split.
  - refine (proj1 (CreateThreadPool_outcomes MoreSamples.numbered_worker "Jobs"
              2 ThreadManager.Normal true MoreSamples.pool_registry _) _).
    + reflexivity.
    + right. left. by eexists.
  - refine (proj2 (CreateThreadPool_outcomes MoreSamples.numbered_worker
              "Loaders" 2 ThreadManager.Normal true MoreSamples.pool_registry _)
              _ _ _).
    + reflexivity.
    + reflexivity.
    + reflexivity.
    + vm_compute. discriminate.
Defined.

Lemma no_call_sequence_registers_a_worker_witness :
  ∃ s', ThreadPools.after_all MoreSamples.numbered_worker
          MoreSamples.registry_calls ThreadManager.constructed = Some s'
        ∧ ThreadManager.threads_ s' = ∅.
Proof.
  eexists. split; [reflexivity|].
  refine (proj1 (no_call_sequence_registers_a_worker
                   MoreSamples.numbered_worker MoreSamples.registry_calls _ _)).
  reflexivity.
Defined.

Lemma posix_priority_within_range_witness :
  (1 ≤ (ThreadPools.posix_sched_request MoreSamples.linux_min
          MoreSamples.linux_max ThreadPools.SCHED_FIFO ThreadManager.Normal).2
     ≤ 99)%Z
  ∧ (ThreadPools.posix_sched_request MoreSamples.linux_min MoreSamples.linux_max
       ThreadPools.SCHED_OTHER ThreadManager.High).2 = (-1)%Z.
Proof.
  split.
  - refine (proj1 (posix_priority_within_range MoreSamples.linux_min
              MoreSamples.linux_max ThreadPools.SCHED_FIFO ThreadManager.Normal
              _) _).
    + intros p. unfold MoreSamples.linux_min, MoreSamples.linux_max.
      destruct (_ || _); lia.
    + discriminate.
  - refine (proj1 (proj1 (proj2 (posix_priority_within_range
              MoreSamples.linux_min MoreSamples.linux_max
              ThreadPools.SCHED_OTHER ThreadManager.High _)) eq_refl)).
    intros p. unfold MoreSamples.linux_min, MoreSamples.linux_max.
      destruct (_ || _); lia.
Defined.

Lemma Logger_Initialize_outcomes_witness :
  Logger.Initialize MoreSamples.every_file true true "car_racing.log"
    LogLevel.Debug "12:00:00.000" Logger.constructed
  = Logger.Deadlock.
Proof.
  refine (proj1 (Logger_Initialize_outcomes MoreSamples.every_file true true
            "car_racing.log" LogLevel.Debug "12:00:00.000" Logger.constructed
            _) _).
  - reflexivity.
  - vm_compute. discriminate.
Defined.

Lemma Logger_Shutdown_outcomes_witness :
  Logger.Shutdown "12:00:02.000" MoreSamples.warning_logger
  = Logger.Returned tt
      (Logger.mkLogger false true true LogLevel.Warning
         (Logger.mkOfstream false false "car_racing.log") false) [].
Proof.
  refine (proj2 (proj2 (Logger_Shutdown_outcomes "12:00:02.000"
            MoreSamples.warning_logger _)) _ _).
  - reflexivity.
  - reflexivity.
  - reflexivity.
Defined.

Lemma Log_delivers_in_order_witness :
  Logger.log_all MoreSamples.entries MoreSamples.warning_logger
  = Logger.Returned tt MoreSamples.warning_logger
      [Logger.ToConsole LogLevel.Error
         "12:00:00.250 [ERROR] [GameEngine] Failed to initialize subsystems";
       Logger.ToFile "car_racing.log"
         "12:00:00.250 [ERROR] [GameEngine] Failed to initialize subsystems";
       Logger.ToConsole LogLevel.Warning
         "12:00:01.000 [WARN ] [GameEngine] Already initialized";
       Logger.ToFile "car_racing.log"
         "12:00:01.000 [WARN ] [GameEngine] Already initialized"].
Proof.
  refine (Log_delivers_in_order MoreSamples.entries MoreSamples.warning_logger
            _).
  reflexivity.
Defined.

Lemma reinitialize_silences_the_file_witness :
  ∃ l',
    Logger.Initialize MoreSamples.every_file true true "game.log"
      LogLevel.Warning "12:00:00.000" MoreSamples.warning_logger
    = Logger.Returned tt l' []
    ∧ Logger.logToFile_ l' = true
    ∧ Logger.is_open (Logger.logFile_ l') = true
    ∧ ∀ entries, ∃ out,
        Logger.log_all entries l' = Logger.Returned tt l' out
        ∧ filter LoggerVocabulary.is_file_line out = [].
Proof.
  refine (reinitialize_silences_the_file MoreSamples.every_file true "game.log"
            LogLevel.Warning "12:00:00.000" MoreSamples.warning_logger _ _ _).
  - reflexivity.
  - reflexivity.
  - reflexivity.
Defined.

Lemma profiler_counts_pending_starts_witness :
  ∃ data,
    Profiler.profileData_
      (Profiler.run MoreSamples.nanosecond_clock MoreSamples.profiler_calls
         Profiler.constructed) !! "Update" = Some data
    ∧ Profiler.startTimes data = [1000%Z]
    ∧ Profiler.activeCount data
      = Wrapper.wrap32 (Z.of_nat (length (Profiler.startTimes data))).
Proof.
  eexists. split; [reflexivity|]. split; [reflexivity|].
  refine (proj1 (profiler_counts_pending_starts MoreSamples.nanosecond_clock
                   MoreSamples.profiler_calls "Update" _ _)).
  reflexivity.
Defined.

Lemma scope_measures_itself_witness :
  Profiler.scoped MoreSamples.nanosecond_clock "Render" 200000 450000 id
    MoreSamples.profiling
  = Profiler.mkProfiler true
      (<["Render" := Profiler.mkProfileData [100000%Z] 250 250 250 1 1]> ∅).
Proof.
  refine (proj2 (scope_measures_itself MoreSamples.nanosecond_clock "Render"
            200000 450000 MoreSamples.profiling) eq_refl _).
  vm_compute. split; [discriminate|reflexivity].
Defined.

Lemma measure_accounts_witness :
  ∃ data,
    Profiler.profileData_
      (Profiler.measure MoreSamples.nanosecond_clock "Update"
         MoreSamples.intervals (Profiler.Initialize true Profiler.constructed))
      !! "Update" = Some data
    ∧ Profiler.callCount data = 3%Z
    ∧ Profiler.totalTime data = 6%Z.
Proof.
  destruct (measure_accounts MoreSamples.nanosecond_clock "Update"
              MoreSamples.intervals Profiler.constructed)
    as (data & Hd & _ & _ & Hc & Ht & _).
  - discriminate.
  - reflexivity.
  - exists data. split; [exact Hd|]. split; [exact Hc|exact Ht].
Defined.

Lemma CompareAndSwap_has_one_winner_witness :
  AtomicState.swaps
    (replicate 3 (GameEngine.MainMenu, GameEngine.RaceSetup))
    (AtomicState.make GameEngine.MainMenu)
  = ([true; false; false], GameEngine.RaceSetup).
Proof.
  refine (proj1 (CompareAndSwap_has_one_winner GameEngine.MainMenu
                   GameEngine.RaceSetup 2 (AtomicState.make GameEngine.MainMenu)
                   _) _).
  - discriminate.
  - reflexivity.
Defined.

Lemma published_frame_rate_at_least_30_witness :
  ∃ fuel0 e' tr,
    (∀ fuel, (fuel0 ≤ fuel)%nat →
       GameEngine.main_loop Samples.idle fuel
         (LoopVocabulary.quiet Samples.clock_readings)
         Samples.racing_engine
       = Some (GameEngine.StillRunning, e', tr))
    ∧ (GameEngine.currentFrameRate_ e'
       = GameEngine.currentFrameRate_ Samples.racing_engine
       ∨ (30 <= GameEngine.currentFrameRate_ e')%Q).
Proof.
  destruct (published_frame_rate_at_least_30 Samples.idle
              Samples.clock_readings Samples.racing_engine)
    as (fuel0 & e' & tr & Hr & Hrate & _).
  - reflexivity.
  - reflexivity.
  - unfold Qle. simpl. lia.
  - exists fuel0, e', tr. split; [exact Hr|exact Hrate].
Defined.

Lemma queue_accounts_for_every_item_witness :
  is_Some (ThreadSafeQueue.run MoreSamples.polling [1%Z]).
Proof.
  refine (proj1 (queue_accounts_for_every_item MoreSamples.polling [1%Z]) _).
  unfold MoreSamples.polling. rewrite !not_elem_of_cons.
  repeat split; try discriminate. apply not_elem_of_nil.
Defined.

Lemma GameEngine_Initialize_never_succeeds_witness :
  Startup.Initialize MoreSamples.numbered_worker Samples.idle
    MoreSamples.every_file "Car Racing Simulation" 1280 720 false 0 8 true
    "12:00:00.000" MoreSamples.fresh_application
  = Startup.Blocked.
Proof.
  refine (GameEngine_Initialize_never_succeeds MoreSamples.numbered_worker
            Samples.idle MoreSamples.every_file "Car Racing Simulation" 1280
            720 false 0 8 true "12:00:00.000" MoreSamples.fresh_application _).
  reflexivity.
Defined.

Lemma Shutdown_leaves_engine_uninitialized_witness :
  Startup.Shutdown Samples.idle "12:00:03.000" MoreSamples.menu_application
  = Startup.NullDereference
      (Startup.mkApplication
         (GameEngine.mkEngine GameEngine.Exiting ∅ 0 0 (1 # 60) 0 0 0 0
            false 0)
         "Car Racing Simulation" 1280 720 false None Logger.constructed
         Profiler.constructed)
      [GameEngine.EvShutdown; GameEngine.EvStoreState GameEngine.Exiting;
       GameEngine.EvReset GameEngine.RaceManager;
       GameEngine.EvReset GameEngine.InputManager;
       GameEngine.EvReset GameEngine.AudioEngine;
       GameEngine.EvReset GameEngine.AIManager;
       GameEngine.EvReset GameEngine.RenderingEngine;
       GameEngine.EvReset GameEngine.PhysicsEngine]
  ∧ Startup.Shutdown Samples.idle "12:00:03.000"
      MoreSamples.managed_application
    = Startup.Returned tt
        (Startup.mkApplication
           (GameEngine.mkEngine GameEngine.Uninitialized ∅ 0 0 (1 # 60) 0 0 0
              0 false 0)
           "Car Racing Simulation" 1280 720 false None Logger.constructed
           Profiler.constructed)
        [GameEngine.EvShutdown; GameEngine.EvStoreState GameEngine.Exiting;
         GameEngine.EvReset GameEngine.RaceManager;
         GameEngine.EvReset GameEngine.InputManager;
         GameEngine.EvReset GameEngine.AudioEngine;
         GameEngine.EvReset GameEngine.AIManager;
         GameEngine.EvReset GameEngine.RenderingEngine;
         GameEngine.EvReset GameEngine.PhysicsEngine;
         GameEngine.EvThreadManagerShutdown;
         GameEngine.EvReset GameEngine.ThreadManagerHandle;
         GameEngine.EvLoggerShutdown] [].
Proof.
  split.
  - refine (proj1 (proj2 (proj2 (Shutdown_leaves_engine_uninitialized
              Samples.idle "12:00:03.000" MoreSamples.menu_application))) _ _ _ _);
      [discriminate|discriminate|reflexivity|reflexivity].
  - refine (proj1 (proj2 (proj2 (proj2 (proj2
              (Shutdown_leaves_engine_uninitialized
                 Samples.idle "12:00:03.000" MoreSamples.managed_application)))))
              (ThreadManager.mkState ∅ ∅ false 4 true 0) _ _ _ _ _ _ _);
      [discriminate|discriminate|reflexivity|reflexivity| |reflexivity
      |reflexivity].
    by repeat split.
Defined.

Lemma thread_function_repeats_by_name_witness :
  ThreadFunction.run 9 (Wrapper.spawned "Physics" ThreadManager.High) 0 0
  = (Wrapper.mkWorker
       (ThreadManager.mkThreadInfo true "Physics" ThreadManager.High
          ThreadManager.Stopped false false)
       Wrapper.Finished, 0%Z, 1%nat)
  ∧ ThreadFunction.run 42 (Wrapper.spawned "AudioWorker" ThreadManager.Normal) 0 0
    = (Wrapper.mkWorker
         (ThreadManager.mkThreadInfo true "AudioWorker" ThreadManager.Normal
            ThreadManager.Running false false)
         Wrapper.AtLoopTest, 1%Z, 10%nat).
Proof.
  split.
  - refine (proj1 (thread_function_repeats_by_name "Physics" ThreadManager.High
                     0 _) _).
    + split; [discriminate|reflexivity].
    + reflexivity.
  - refine (proj2 (thread_function_repeats_by_name "AudioWorker"
                     ThreadManager.Normal 0 _) _ 10%nat).
    + split; [discriminate|reflexivity].
    + reflexivity.
Defined.

